(** * ABSA-datasets: the format adapters and the label derivation of
    [data_adapter/data_object.py], as a shallow embedding.

    Python values are modelled as follows.
    - [str] is [string]; one [ascii] stands for one character of the text
      (the model covers ASCII text: [lower], [strip] and the character
      classes below act on the ASCII range and leave other characters alone).
    - [int] is [Z]; [None]-able values are [option]s.
    - a raised exception is the left summand of [exn + _].
    - a [dict] whose iteration order matters is an insertion-ordered
      association list; a [set] is a [gset]; the attributes of a markup tag
      are a [gmap string string].
    - [dev_size] and [test_size] are binary64 floats ([PrimFloat.float]). *)

From Stdlib Require Import ZArith String Ascii List PrimFloat Lia.
From stdpp Require Import gmap strings list sorting pretty.

Open Scope string_scope.
Open Scope list_scope.
Open Scope Z_scope.

(** ** Exceptions and the error monad *)

Inductive exn : Type :=
  | TypeError
  | KeyError
  | IndexError
  | ValueError
  | UnboundLocalError.

#[global] Instance exn_eq_dec : EqDecision exn.
Proof. solve_decision. Defined.

Abbreviation Ok := inr (only parsing).
Abbreviation Raise := inl (only parsing).

Definition ebind {A B : Type} (m : exn + A) (k : A → exn + B) : exn + B :=
  match m with
  | inl e => inl e
  | inr a => k a
  end.

Declare Scope exn_scope.
Delimit Scope exn_scope with exn.
Notation "'let?' x ':=' m 'in' k" := (ebind m (fun x => k))
  (at level 10, x pattern, m at level 100, k at level 200) : exn_scope.
Open Scope exn_scope.

(** [for x in xs: acc = body(acc, x)], where [body] may raise. *)
Fixpoint efold {A B : Type} (body : A → B → exn + A) (acc : A) (xs : list B)
  : exn + A :=
  match xs with
  | [] => Ok acc
  | x :: xs' => let? acc' := body acc x in efold body acc' xs'
  end.

(** Iterating over a value that is [None] raises [TypeError]. *)
Definition iter {A : Type} (xs : option (list A)) : exn + list A :=
  match xs with
  | None => Raise TypeError
  | Some l => Ok l
  end.

(** ** Python built-ins used by the adapters *)

Module Py.

Definition is_upper (c : ascii) : bool :=
  let n := nat_of_ascii c in ((65 <=? n) && (n <=? 90))%nat.

Definition lower_char (c : ascii) : ascii :=
  if is_upper c then ascii_of_nat (nat_of_ascii c + 32) else c.

(** [s.lower()] *)
Fixpoint lower (s : string) : string :=
  match s with
  | EmptyString => EmptyString
  | String c s' => String (lower_char c) (lower s')
  end.

(** The whitespace of [str.strip()]: tab, LF, VT, FF, CR, FS, GS, RS, US
    and space. *)
Definition is_space (c : ascii) : bool :=
  let n := nat_of_ascii c in
  (((9 <=? n) && (n <=? 13)) || ((28 <=? n) && (n <=? 32)))%nat.

Fixpoint lstrip (s : string) : string :=
  match s with
  | EmptyString => EmptyString
  | String c s' => if is_space c then lstrip s' else s
  end.

(** Drops the trailing whitespace: a character is kept when it is not
    whitespace or when something is kept after it. *)
Fixpoint rstrip (s : string) : string :=
  match s with
  | EmptyString => EmptyString
  | String c s' =>
      match rstrip s' with
      | EmptyString => if is_space c then EmptyString else String c EmptyString
      | r => String c r
      end
  end.

(** [s.strip()] *)
Definition strip (s : string) : string := rstrip (lstrip s).

(** [len(s)] *)
Definition len (s : string) : Z := Z.of_nat (String.length s).

Fixpoint drop (n : nat) (s : string) : string :=
  match n, s with
  | O, _ => s
  | S n', String _ s' => drop n' s'
  | S _, EmptyString => EmptyString
  end.

(** [s.partition(sep)]: split at the first occurrence of [sep]; when
    [sep] does not occur, the result is [(s, '', '')]. *)
Fixpoint partition (sep s : string) : string * string * string :=
  if String.prefix sep s then (EmptyString, sep, drop (String.length sep) s)
  else
    match s with
    | EmptyString => (EmptyString, EmptyString, EmptyString)
    | String c s' =>
        let '(before, found, after) := partition sep s' in
        (String c before, found, after)
    end.

(** A slice bound, clamped as Python does: a negative bound counts from the
    end, and every bound is brought into [0 .. len(s)]. *)
Definition clamp (n i : Z) : Z :=
  if i <? 0 then Z.max (i + n) 0 else Z.min i n.

(** [s[i:j]] *)
Definition slice (s : string) (i j : Z) : string :=
  let a := clamp (len s) i in
  let b := clamp (len s) j in
  String.substring (Z.to_nat a) (Z.to_nat (b - a)) s.

Definition is_digit (c : ascii) : bool :=
  let n := nat_of_ascii c in ((48 <=? n) && (n <=? 57))%nat.

Definition digit_val (c : ascii) : Z := Z.of_nat (nat_of_ascii c) - 48.

(** The digits of an integer literal, most significant first; a single
    underscore is allowed between two digits. [prev] tells whether the
    previous character was a digit. *)
Fixpoint digits (prev : bool) (acc : Z) (s : string) : option Z :=
  match s with
  | EmptyString => if prev then Some acc else None
  | String c s' =>
      if is_digit c then digits true (10 * acc + digit_val c) s'
      else if Ascii.eqb c "_" then
        if prev then digits false acc s' else None
      else None
  end.

(** [int(s)] on a [str]: surrounding whitespace is ignored, one sign is
    allowed; anything else raises [ValueError]. *)
Definition int_of_str (s : string) : exn + Z :=
  let body (sign : Z) (ds : string) : exn + Z :=
    match digits false 0 ds with
    | Some n => Ok (sign * n)
    | None => Raise ValueError
    end in
  match strip s with
  | String "+" ds => body 1 ds
  | String "-" ds => body (-1) ds
  | ds => body 1 ds
  end.

(** [int(v)] where [v] may be [None] (then [TypeError]). *)
Definition int (v : option string) : exn + Z :=
  match v with
  | None => Raise TypeError
  | Some s => int_of_str s
  end.

(** The character class [[\r\n]]. *)
Definition is_crlf (c : ascii) : bool :=
  let n := nat_of_ascii c in ((n =? 10) || (n =? 13))%nat.

(** [re.sub('[\r\n]', repl, s)]: every character of the class is one
    match, and is replaced by [repl]. *)
Fixpoint re_sub_class (repl s : string) : string :=
  match s with
  | EmptyString => EmptyString
  | String c s' =>
      if is_crlf c then repl +:+ re_sub_class repl s'
      else String c (re_sub_class repl s')
  end.

(** [re.sub('[\r\n]+', repl, s)]: every maximal run of class characters is
    one match, replaced by one [repl]. [in_match] tells whether the scan is
    inside a run that has already been replaced. *)
Fixpoint re_sub_class_plus_from (in_match : bool) (repl s : string) : string :=
  match s with
  | EmptyString => EmptyString
  | String c s' =>
      if is_crlf c then
        if in_match then re_sub_class_plus_from true repl s'
        else repl +:+ re_sub_class_plus_from true repl s'
      else String c (re_sub_class_plus_from false repl s')
  end.

Definition re_sub_class_plus (repl s : string) : string :=
  re_sub_class_plus_from false repl s.


(** [sub in s] on strings: [sub] occurs somewhere in [s]. *)
Fixpoint contains (sub s : string) : bool :=
  if String.prefix sub s then true
  else
    match s with
    | EmptyString => false
    | String _ s' => contains sub s'
    end.

(** [s.split(sep)] for a separator of one character: the fields between the
    separators; there is always at least one field. *)
Fixpoint split (sep : ascii) (s : string) : list string :=
  match s with
  | EmptyString => [EmptyString]
  | String c s' =>
      if Ascii.eqb c sep then EmptyString :: split sep s'
      else
        match split sep s' with
        | [] => [String c EmptyString]
        | field :: fields => String c field :: fields
        end
  end.

(** [sep.join(parts)] *)
Fixpoint join (sep : string) (parts : list string) : string :=
  match parts with
  | [] => EmptyString
  | [s] => s
  | s :: parts' => s +:+ sep +:+ join sep parts'
  end.

(** [l[i]] for an index that is not negative. *)
Definition index {A : Type} (l : list A) (i : nat) : exn + A :=
  match l !! i with
  | Some x => Ok x
  | None => Raise IndexError
  end.

End Py.

(** ** The canonical data model *)

Record AspectTerm : Type := mkAspectTerm {
  term : string;
  term_polarity : option string;
  from_index : Z;   (* inclusive *)
  to_index : Z;     (* exclusive *)
  term_category : option string
}.

Record AspectCategory : Type := mkAspectCategory {
  category : option string;
  category_polarity : option string
}.

Record AbsaSentence : Type := mkAbsaSentence {
  text : string;
  polarity : option string;
  aspect_categories : option (list AspectCategory);
  aspect_terms : option (list AspectTerm);
  sample_id : string;
  start_index_in_doc : Z
}.

Record AbsaDocument : Type := mkAbsaDocument {
  doc_text : string;
  doc_polarity : option string;
  doc_aspect_categories : option (list AspectCategory);
  doc_aspect_terms : option (list AspectTerm);
  absa_sentences : option (list AbsaSentence);
  doc_sample_id : string
}.

#[global] Instance AspectTerm_eq_dec : EqDecision AspectTerm.
Proof. solve_decision. Defined.
#[global] Instance AspectCategory_eq_dec : EqDecision AspectCategory.
Proof. solve_decision. Defined.

(** [AbsaSentence(text, polarity, aspect_categories, aspect_terms)] with the
    defaults [sample_id=''] and [start_index_in_doc=-1]. *)
Definition AbsaSentence_default text polarity cats terms : AbsaSentence :=
  mkAbsaSentence text polarity cats terms "" (-1).

(** [AbsaDocument(text, polarity, aspect_categories, aspect_terms,
    absa_sentences)] with the default [sample_id='']. *)
Definition AbsaDocument_default text polarity cats terms sentences : AbsaDocument :=
  mkAbsaDocument text polarity cats terms sentences "".

(** The three partitions of a corpus; [None] is the absence marker. *)
Record partitions (A : Type) : Type := mkPartitions {
  train : option (list A);
  dev : option (list A);
  test : option (list A)
}.
Arguments mkPartitions {A} _ _ _.
Arguments train {A} _.
Arguments dev {A} _.
Arguments test {A} _.

(** [AspectTerm(term, polarity, from_index, to_index, category)] on offsets
    read from markup: [int(from_index)] is evaluated first, then
    [int(to_index)]. *)
Definition AspectTerm_of_strings (term : string) (polarity : option string)
    (from_index to_index : string) (category : option string)
  : exn + AspectTerm :=
  let? from_index := Py.int_of_str from_index in
  let? to_index := Py.int_of_str to_index in
  Ok (mkAspectTerm term polarity from_index to_index category).

(** [Text]: a plain sample of the classification corpora. *)
Record Text : Type := mkText {
  plain_text : string;
  plain_polarity : string;
  plain_sample_id : string
}.

(** ** Parsed markup

    The parser is an external collaborator; the adapters walk the tree it
    returns. A node is a string or a tag with a name, attributes and
    contents. *)

Module Soup.

Unset Elimination Schemes.
Inductive node : Type :=
  | NavigableString (s : string)
  | Tag (name : string) (attrs : gmap string string) (contents : list node).
Set Elimination Schemes.

(** [tag.descendants]: the nodes below a tag, in document order. *)
Fixpoint descendants (n : node) : list node :=
  match n with
  | NavigableString _ => []
  | Tag _ _ contents =>
      (fix below (l : list node) : list node :=
         match l with
         | [] => []
         | c :: l' => c :: descendants c ++ below l'
         end) contents
  end.

Definition named (name : string) (n : node) : bool :=
  match n with
  | NavigableString _ => false
  | Tag name' _ _ => String.eqb name' name
  end.

(** [tag.find_all(name)] *)
Definition find_all (name : string) (n : node) : list node :=
  List.filter (named name) (descendants n).

(** [tag.text]: the strings below the tag, joined. *)
Fixpoint text (n : node) : string :=
  match n with
  | NavigableString s => s
  | Tag _ _ contents =>
      (fix join (l : list node) : string :=
         match l with
         | [] => EmptyString
         | c :: l' => text c +:+ join l'
         end) contents
  end.

(** [tag.attrs] *)
Definition attrs_of (n : node) : gmap string string :=
  match n with
  | NavigableString _ => ∅
  | Tag _ attrs _ => attrs
  end.

(** [tag[key]]: a missing attribute raises [KeyError]. Indexing a string
    with a string raises [TypeError]. *)
Definition getitem (n : node) (key : string) : exn + string :=
  match n with
  | NavigableString _ => Raise TypeError
  | Tag _ attrs _ =>
      match attrs !! key with
      | Some v => Ok v
      | None => Raise KeyError
      end
  end.

(** [key in tag.attrs] *)
Definition has_attr (key : string) (n : node) : bool :=
  bool_decide (is_Some (attrs_of n !! key)).

(** [s in tag]: membership in [tag.contents]; a string of the contents is
    equal to [s] when it has the same characters, a tag never is. *)
Definition contains (s : string) (n : node) : bool :=
  match n with
  | NavigableString _ => false
  | Tag _ _ contents =>
      existsb (fun c => match c with
                        | NavigableString s' => String.eqb s' s
                        | Tag _ _ _ => false
                        end) contents
  end.

End Soup.

(** [''.join(parts)] *)
Fixpoint join_all (parts : list string) : string :=
  match parts with
  | [] => EmptyString
  | s :: parts' => s +:+ join_all parts'
  end.

(** ** The token-placeholder adapter: [AsgcnData] *)

Module AsgcnData.

Definition polarity_mapping (k : string) : option string :=
  if String.eqb k "-1" then Some "negative"
  else if String.eqb k "0" then Some "neutral"
  else if String.eqb k "1" then Some "positive"
  else None.

Definition nonempty (s : string) : bool := negb (String.eqb s "").

(** The left and right context of the placeholder, lower-cased and
    stripped. *)
Definition contexts (line : string) : string * string :=
  let '(l, _, r) := Py.partition "$T$" line in
  (Py.strip (Py.lower l), Py.strip (Py.lower r)).

(** The text and the start offset built from a record's first two lines. *)
Definition build_text (line0 line1 : string) : string * Z :=
  let '(text_left, text_right) := contexts line0 in
  let aspect := Py.strip (Py.lower line1) in
  let '(text, from_index) :=
    if nonempty text_left
    then (text_left +:+ " " +:+ aspect, Py.len text_left + 1)
    else (aspect, 0) in
  let text := if nonempty text_right then text +:+ " " +:+ text_right else text in
  (text, from_index).

(** The test of line 266: the reconstructed span differs from the term. *)
Definition span_mismatch (line0 line1 : string) : bool :=
  let '(text, from_index) := build_text line0 line1 in
  let aspect := Py.strip (Py.lower line1) in
  let to_index := from_index + Py.len aspect in
  negb (String.eqb (Py.slice text from_index to_index) aspect).

(** One iteration of the loop over the records. In the mismatch branch the
    source writes [logger.error('...' (..., ...))]: the format string is
    applied to the tuple, which raises [TypeError] before anything is
    logged. *)
Definition load_record (line0 line1 line2 : string) : exn + AbsaSentence :=
  let '(text, from_index) := build_text line0 line1 in
  let aspect := Py.strip (Py.lower line1) in
  let polarity := Py.strip line2 in
  let to_index := from_index + Py.len aspect in
  let? _ := (if span_mismatch line0 line1 then Raise TypeError else Ok tt) in
  match polarity_mapping polarity with
  | None => Raise KeyError
  | Some p =>
      let aspect_term := mkAspectTerm aspect (Some p) from_index to_index None in
      Ok (AbsaSentence_default text None None (Some [aspect_term]))
  end.

(** [for i in range(0, len(lines), 3)]: a last record with fewer than three
    lines raises [IndexError] at [lines[i + 1]] or [lines[i + 2]]. *)
Fixpoint load_sentences (lines : list string) : exn + list AbsaSentence :=
  match lines with
  | [] => Ok []
  | line0 :: line1 :: line2 :: rest =>
      let? s := load_record line0 line1 line2 in
      let? ss := load_sentences rest in
      Ok (s :: ss)
  | _ => Raise IndexError
  end.

Definition load_documents (lines : list string) : exn + list AbsaDocument :=
  let? sentences := load_sentences lines in
  Ok (map (fun s => AbsaDocument_default (text s) None None None (Some [s]))
          sentences).

(** [_load_data_by_filepath], on the lines read from the two files. *)
Definition _load_data_by_filepath (train_lines test_lines : list string)
  : exn + partitions AbsaDocument :=
  let? tr := load_documents train_lines in
  let? te := load_documents test_lines in
  Ok (mkPartitions (Some tr) None (Some te)).

End AsgcnData.

(** ** The attribute-enumerated adapter: [Nlpcc2012WeiboSa] *)

Module Nlpcc2012WeiboSa.

(** A markup element as the adapter reads it: its attributes and its text. *)
Record Tag : Type := mkTag {
  attrs : gmap string string;
  get_text : string
}.

(** [tag.get(key)] *)
Definition get (tag : Tag) (key : string) : option string := attrs tag !! key.

(** [tag.get(key, default)] *)
Definition get_or (tag : Tag) (key default_value : string) : string :=
  default default_value (attrs tag !! key).

(** ['target_word_%d' % cursor] and its siblings. *)
Definition attr_name (family : string) (cursor : Z) : string :=
  family +:+ pretty cursor.

(** The [while] loop of lines 307-314. The loop runs while
    [target_word_<cursor>] is present and not empty; [fuel] bounds the
    number of iterations and [None] means that it ran out. *)
Fixpoint scan_targets (fuel : nat) (tag : Tag) (aspect_term_cursor : Z)
    (aspect_terms : list AspectTerm) : option (exn + list AspectTerm) :=
  match fuel with
  | O => None
  | S fuel' =>
      match get_or tag (attr_name "target_word_" aspect_term_cursor) "" with
      | EmptyString => Some (Ok aspect_terms)
      | target_word =>
          let step :=
            let? target_begin :=
              Py.int (get tag (attr_name "target_begin_" aspect_term_cursor)) in
            let? target_end_raw :=
              Py.int (get tag (attr_name "target_end_" aspect_term_cursor)) in
            let target_end := target_end_raw + 1 in
            let target_polarity :=
              get tag (attr_name "target_polarity_" aspect_term_cursor) in
            Ok (mkAspectTerm target_word target_polarity target_begin
                             target_end None) in
          match step with
          | inl e => Some (Raise e)
          | inr aspect_term =>
              scan_targets fuel' tag (aspect_term_cursor + 1)
                           (aspect_terms ++ [aspect_term])
          end
      end
  end.

(** Distinct cursors read distinct attributes, so the loop cannot run more
    often than the element has attributes. *)
Definition enough_fuel (tag : Tag) : nat := S (size (attrs tag)).

(** The body of the loop over the sentence elements (lines 299-318): the
    sentence built from one element, given the running start offset. *)
Definition load_sentence (sentence_tag : Tag) (sentence_start_index : Z)
  : option (exn + AbsaSentence) :=
  let sentence_id := get_or sentence_tag "id" "" in
  let opinionated := get_or sentence_tag "opinionated" "" in
  let sentence_text := get_text sentence_tag in
  let annotations : option (exn + option string * list AspectTerm) :=
    if String.eqb opinionated "Y" then
      match scan_targets (enough_fuel sentence_tag) sentence_tag 1 [] with
      | None => None
      | Some (inl e) => Some (Raise e)
      | Some (inr aspect_terms) =>
          Some (Ok (get sentence_tag "polarity", aspect_terms))
      end
    else Some (Ok (None, [])) in
  match annotations with
  | None => None
  | Some (inl e) => Some (Raise e)
  | Some (inr (sentence_polarity, aspect_terms)) =>
      Some (Ok (mkAbsaSentence sentence_text sentence_polarity None
                               (Some aspect_terms) sentence_id
                               sentence_start_index))
  end.


(** Lines 297-318: the loop over the sentence elements of one weibo; the
    start offset of a sentence is the total length of the texts before it. *)
Fixpoint load_sentences (sentence_tags : list Tag) (sentence_start_index : Z)
    (sentences : list AbsaSentence) : option (exn + list AbsaSentence) :=
  match sentence_tags with
  | [] => Some (Ok sentences)
  | sentence_tag :: rest =>
      match load_sentence sentence_tag sentence_start_index with
      | None => None
      | Some (inl e) => Some (Raise e)
      | Some (inr sentence) =>
          load_sentences rest
            (sentence_start_index + Py.len (get_text sentence_tag))
            (sentences ++ [sentence])
      end
  end.

(** Lines 294-323: one weibo element, given its [id] and its sentence
    elements. *)
Definition load_weibo (weibo_id : string) (sentence_tags : list Tag)
  : option (exn + AbsaDocument) :=
  match load_sentences sentence_tags 0 [] with
  | None => None
  | Some (inl e) => Some (Raise e)
  | Some (inr sentences) =>
      Some (Ok (mkAbsaDocument (join_all (map text sentences)) None None None
                               (Some sentences) weibo_id))
  end.

(** Lines 335-341: the first line is dropped, and so is everything from the
    first line that holds the marker. *)
Fixpoint before_marker (lines : list string) : list string :=
  match lines with
  | [] => []
  | line :: lines' =>
      if Py.contains "root_text_begin" line then [] else line :: before_marker lines'
  end.

Definition test_lines_of (lines : list string) : list string :=
  before_marker (drop 1 lines).

(** Line 343: the third tab-separated field of every annotation line that is
    not empty. *)
Definition opinion_snippets_of (test_ann_lines : list string) : exn + list string :=
  efold (fun snippets line =>
           if String.eqb line "" then Ok snippets
           else
             let? snippet := Py.index (Py.split "009" line) 2 in
             Ok (snippets ++ [snippet]))
        [] test_ann_lines.

(** Lines 345-352: a line is marked ['other'] when some snippet occurs in
    it. *)
Definition test_sentence (opinion_snippets : list string) (test_line : string)
  : AbsaSentence :=
  let polarity :=
    if existsb (fun opinion_snippet => Py.contains opinion_snippet test_line)
               opinion_snippets
    then Some "other" else None in
  AbsaSentence_default test_line polarity None None.

(** Lines 335-357: the document of one test file, from its lines and the
    lines of its annotation file. *)
Definition load_test_file (lines test_ann_lines : list string)
  : exn + AbsaDocument :=
  let test_lines := test_lines_of lines in
  let? opinion_snippets := opinion_snippets_of test_ann_lines in
  let sentences := map (test_sentence opinion_snippets) test_lines in
  Ok (AbsaDocument_default (join_all (map text sentences)) None None None
                           (Some sentences)).

End Nlpcc2012WeiboSa.

(** ** [sklearn.model_selection.train_test_split]

    The splitter is an external collaborator. What the adapters rely on is
    its interface: a generator state, the generator made from an integer seed,
    and the split itself, which draws from a generator and may raise. *)

Class Sklearn : Type := {
  rng : Type;
  RandomState : Z → rng;
  shuffle_split :
    ∀ A : Type, rng → option float → list A → (exn + list A * list A) * rng
}.

Inductive data_type : Type := Train | Dev | Test.

Definition getitem {A : Type} (r : partitions A) (k : data_type) : option (list A) :=
  match k with
  | Train => train r
  | Dev => dev r
  | Test => test r
  end.

Definition setitem {A : Type} (r : partitions A) (k : data_type)
    (v : option (list A)) : partitions A :=
  match k with
  | Train => mkPartitions v (dev r) (test r)
  | Dev => mkPartitions (train r) v (test r)
  | Test => mkPartitions (train r) (dev r) v
  end.

(** The state a derivation runs in: the [result] dict it fills and mutates,
    and the process-wide generator of [numpy.random]. *)
Record store `{Sklearn} (S : Type) : Type := mkStore {
  result : partitions S;
  np_random : rng
}.
Arguments mkStore {_ S} _ _.
Arguments result {_ S} _.
Arguments np_random {_ S} _.

Definition M `{Sklearn} (S A : Type) : Type := store S → (exn + A) * store S.

Definition mret `{Sklearn} {S A : Type} (a : A) : M S A := fun st => (Ok a, st).

Definition mbind `{Sklearn} {S A B : Type} (m : M S A) (k : A → M S B) : M S B :=
  fun st =>
    match m st with
    | (inl e, st') => (Raise e, st')
    | (inr a, st') => k a st'
    end.

Definition lift `{Sklearn} {S A : Type} (m : exn + A) : M S A := fun st => (m, st).

Declare Scope store_scope.
Delimit Scope store_scope with store.
Notation "'let!' x ':=' m 'in' k" := (mbind m (fun x => k))
  (at level 10, x pattern, m at level 100, k at level 200) : store_scope.
Open Scope store_scope.

(** [result[k]] *)
Definition read `{Sklearn} {S : Type} (k : data_type) : M S (option (list S)) :=
  fun st => (Ok (getitem (result st) k), st).

(** [result[k] = v] *)
Definition write `{Sklearn} {S : Type} (k : data_type) (v : option (list S))
  : M S unit :=
  fun st => (Ok tt, mkStore (setitem (result st) k v) (np_random st)).

(** [train_test_split(samples, test_size=..., random_state=...)]: with an
    integer [random_state] the split draws from a generator of its own, made
    from the seed; with [random_state=None] it draws from the process-wide
    generator and advances it. A [None] in place of the samples raises
    [TypeError]. *)
Definition train_test_split `{Sklearn} {S A : Type} (samples : option (list A))
    (test_size : option float) (random_state : option Z)
  : M S (list A * list A) :=
  fun st =>
    match samples with
    | None => (Raise TypeError, st)
    | Some l =>
        match random_state with
        | Some seed => (fst (shuffle_split A (RandomState seed) test_size l), st)
        | None =>
            let '(r, g) := shuffle_split A (np_random st) test_size l in
            (r, mkStore (result st) g)
        end
    end.

(** [dev_size != 0.0] *)
Definition nonzero (dev_size : float) : bool := negb (PrimFloat.eqb dev_size 0%float).

Fixpoint mfold `{Sklearn} {S A B : Type} (body : A → B → M S A) (acc : A)
    (xs : list B) : M S A :=
  match xs with
  | [] => mret acc
  | x :: xs' => let! acc' := body acc x in mfold body acc' xs'
  end.

(** ** Label vocabularies *)

Abbreviation label_set := (gset (option string)).

(** The order of [list.sort()] on labels: strings compare by code point;
    comparing [None] with anything raises, which [sorted_labels] checks
    before sorting. *)
Definition label_le (a b : option string) : Prop :=
  match a, b with
  | Some x, Some y => String.leb x y = true
  | _, _ => True
  end.

#[global] Instance label_le_dec : RelDecision label_le.
Proof. intros [x|] [y|]; simpl; apply _. Defined.

(** [l = list(s); l.sort()]. A list of two or more labels that holds a [None]
    cannot be sorted: the comparison raises [TypeError]. *)
Definition sorted_labels (s : label_set) : exn + list (option string) :=
  if decide (2 ≤ size s)%nat then
    if decide (None ∈ s) then Raise TypeError
    else Ok (merge_sort label_le (elements s))
  else Ok (elements s).

(** ** Insertion-ordered dictionaries *)

Section Dict.
Context {K V : Type} `{EqDecision K}.

(** [k in d] *)
Fixpoint dict_in (k : K) (d : list (K * V)) : bool :=
  match d with
  | [] => false
  | (k', _) :: d' => if decide (k' = k) then true else dict_in k d'
  end.

(** [d[k]] *)
Fixpoint dict_get (k : K) (d : list (K * V)) : exn + V :=
  match d with
  | [] => Raise KeyError
  | (k', v) :: d' => if decide (k' = k) then Ok v else dict_get k d'
  end.

(** [d[k] = v]: a present key keeps its position, a new key goes last. *)
Fixpoint dict_set (k : K) (v : V) (d : list (K * V)) : list (K * V) :=
  match d with
  | [] => [(k, v)]
  | (k', v') :: d' =>
      if decide (k' = k) then (k', v) :: d' else (k', v') :: dict_set k v d'
  end.
End Dict.

(** [s.pop()]: some element of the set; on an empty set, [KeyError]. *)
Definition set_pop (s : label_set) : exn + option string :=
  match elements s with
  | [] => Raise KeyError
  | p :: _ => Ok p
  end.

(** ** [BaseDataset] *)

Module BaseDataset.

(** [get_data_type_and_data_dict().items()] *)
Definition get_data_type_and_data_dict (self : partitions AbsaDocument)
  : list (data_type * option (list AbsaDocument)) :=
  [(Train, train self); (Dev, dev self); (Test, test self)].

(** [result = {'train': None, 'dev': None, 'test': None}] *)
Definition new_result `{Sklearn} {S : Type} : M S unit :=
  fun st => (Ok tt, mkStore (mkPartitions None None None) (np_random st)).

Definition get_result `{Sklearn} {S : Type} : M S (partitions S) :=
  fun st => (Ok (result st), st).

(** The loop over the partitions shared by the derivations: a partition
    that is [None] is skipped; otherwise its samples are built by
    [per_partition], which also updates the loop-carried variables, and
    stored in [result]. *)
Definition for_each_partition `{Sklearn} {S V : Type}
    (per_partition : V → list AbsaDocument → exn + list S * V)
    (self : partitions AbsaDocument) (vars : V) : M S V :=
  mfold (fun vars item =>
           match snd item with
           | None => mret vars
           | Some data =>
               let! r := lift (per_partition vars data) in
               let! _ := write (fst item) (Some (fst r)) in
               mret (snd r)
           end)
        vars (get_data_type_and_data_dict self).

(** The loops over the documents and sentences of one partition. *)
Definition for_each_sentence {S V : Type}
    (per_sentence : list S * V → AbsaSentence → exn + list S * V)
    (vars : V) (data : list AbsaDocument) : exn + list S * V :=
  efold (fun acc document =>
           let? sentences := iter (absa_sentences document) in
           efold per_sentence acc sentences)
        ([], vars) data.

(** Lines 196-203: the sample of one sentence for the term task. *)
Definition atsa_sentence (acc : list (string * list AspectTerm) * label_set)
    (sentence : AbsaSentence)
  : exn + list (string * list AspectTerm) * label_set :=
  let '(samples, distinct_polarities) := acc in
  let content := Py.re_sub_class "" (text sentence) in
  let? terms := iter (aspect_terms sentence) in
  let '(label, distinct_polarities) :=
    fold_left (fun lv aspect_term =>
                 (fst lv ++ [aspect_term],
                  snd lv ∪ {[term_polarity aspect_term]}))
              terms ([], distinct_polarities) in
  Ok (samples ++ [(content, label)], distinct_polarities).

Definition atsa_samples := for_each_sentence atsa_sentence.

Definition generate_atsa_data `{Sklearn} (self : partitions AbsaDocument)
    (test_size : option float)
  : M (string * list AspectTerm)
      (partitions (string * list AspectTerm) * list (option string)) :=
  let! _ := new_result in
  let! distinct_polarities := for_each_partition atsa_samples self ∅ in
  let! d := read Dev in
  let! _ :=
    match d, test_size with
    | None, Some _ =>
        let! original_train_samples := read Train in
        let! split := train_test_split original_train_samples test_size None in
        let! _ := write Train (Some (fst split)) in
        write Dev (Some (snd split))
    | _, _ => mret tt
    end in
  let! distinct_polarities := lift (sorted_labels distinct_polarities) in
  let! r := get_result in
  mret (r, distinct_polarities).

(** [generate_dev_data(result, dev_size, random_state)]; [result] is the
    dict held in the store. *)
Definition generate_dev_data `{Sklearn} {S : Type} (dev_size : float)
    (random_state : Z) : M S unit :=
  let! d := read Dev in
  match d with
  | None =>
      if nonzero dev_size then
        let! original_train_samples := read Train in
        let! split := train_test_split original_train_samples (Some dev_size)
                                       (Some random_state) in
        let! _ := write Train (Some (fst split)) in
        write Dev (Some (snd split))
      else
        let! t := read Test in
        write Dev t
  | Some _ => mret tt
  end.

Definition default_random_state : Z := 1234.


(** [AbsaDocument.get_plain_text_of_sentences] *)
Definition get_plain_text_of_sentences (document : AbsaDocument) : list string :=
  match absa_sentences document with
  | None => []
  | Some sentences => map text sentences
  end.

(** The key of a partition, when the name is one. *)
Definition data_type_of_name (name : string) : option data_type :=
  if String.eqb name "train" then Some Train
  else if String.eqb name "dev" then Some Dev
  else if String.eqb name "test" then Some Test
  else None.

(** [get_sentences(data_type)]: an unknown name gives the empty list; the
    loop over a partition that is [None] raises. *)
Definition get_sentences (self : partitions AbsaDocument)
    (data_type : option string) : exn + list string :=
  match data_type ≫= data_type_of_name with
  | None => Ok []
  | Some k =>
      let? data := iter (getitem self k) in
      Ok (fold_left (fun sentences document =>
                       sentences ++ get_plain_text_of_sentences document)
                    data [])
  end.

(** [get_documents(data_type)] *)
Definition get_documents (self : partitions AbsaDocument)
    (data_type : option string) : exn + list string :=
  match data_type ≫= data_type_of_name with
  | None => Ok []
  | Some k =>
      let? data := iter (getitem self k) in
      Ok (fold_left (fun documents document => documents ++ [doc_text document])
                    data [])
  end.

End BaseDataset.

(** ** [Semeval2014Task4Rest] *)

Module Semeval2014Task4Rest.

Abbreviation sample := (string * list (option string * option string))%type.

(** Lines 468-476. *)
Definition acd_and_sc_sentence
    (acc : list sample * (label_set * label_set)) (sentence : AbsaSentence)
  : exn + list sample * (label_set * label_set) :=
  let '(samples, vars) := acc in
  let content := Py.re_sub_class " " (text sentence) in
  let? cats := iter (aspect_categories sentence) in
  let '(label, vars) :=
    fold_left (fun lv aspect_category =>
                 let category := category aspect_category in
                 let polarity := category_polarity aspect_category in
                 (fst lv ++ [(category, polarity)],
                  (fst (snd lv) ∪ {[category]}, snd (snd lv) ∪ {[polarity]})))
              cats ([], vars) in
  Ok (samples ++ [(content, label)], vars).

Definition generate_acd_and_sc_data `{Sklearn} (self : partitions AbsaDocument)
    (dev_size : float)
  : M sample (partitions sample * list (option string) * list (option string)) :=
  let! _ := BaseDataset.new_result in
  let! vars := BaseDataset.for_each_partition
                 (BaseDataset.for_each_sentence acd_and_sc_sentence) self (∅, ∅) in
  let! _ := BaseDataset.generate_dev_data dev_size
              BaseDataset.default_random_state in
  let! distinct_categories := lift (sorted_labels (fst vars)) in
  let! distinct_polarities := lift (sorted_labels (snd vars)) in
  let! r := BaseDataset.get_result in
  mret (r, distinct_categories, distinct_polarities).

End Semeval2014Task4Rest.

(** ** [Semeval2015Task12] *)

Module Semeval2015Task12.

Abbreviation label := (list (option string * option string)).
Abbreviation sample := (string * label)%type.
Abbreviation buckets := (list (option string * label_set)).

(** The variables of [generate_acd_and_sc_data] that live across the
    sentences: the two vocabularies and the local variable [polarity],
    which the loop over the aspect terms assigns ([None]: not yet bound). *)
Record vars : Type := mkVars {
  distinct_categories : label_set;
  distinct_polarities : label_set;
  polarity_var : option (option string)
}.

(** Lines 640-645: one aspect term votes for its category. *)
Definition vote (st : buckets * option (option string))
    (aspect_term : AspectTerm) : exn + buckets * option (option string) :=
  let category := term_category aspect_term in
  let polarity := term_polarity aspect_term in
  let aspect_categories_temp := fst st in
  let aspect_categories_temp :=
    if dict_in category aspect_categories_temp then aspect_categories_temp
    else dict_set category ∅ aspect_categories_temp in
  let? polarities := dict_get category aspect_categories_temp in
  Ok (dict_set category (polarities ∪ {[polarity]}) aspect_categories_temp,
      Some polarity).

Definition add_labels (vs : vars) (c p : option string) : vars :=
  mkVars (distinct_categories vs ∪ {[c]}) (distinct_polarities vs ∪ {[p]})
         (polarity_var vs).

(** Lines 647-663: one bucket emits its pair. In the first branch the
    vocabulary receives the variable [polarity], not the popped value. *)
Definition reconcile (acc : label * vars)
    (bucket : option string * label_set) : exn + label * vars :=
  let '(lbl, vs) := acc in
  let '(category, polarities) := bucket in
  if decide (size polarities = 1%nat) then
    let? popped := set_pop polarities in
    let? polarity :=
      match polarity_var vs with
      | None => Raise UnboundLocalError
      | Some p => Ok p
      end in
    Ok (lbl ++ [(category, popped)], add_labels vs category polarity)
  else if (bool_decide (Some "positive" ∈ polarities)
           && bool_decide (Some "negative" ∈ polarities))
          || bool_decide (Some "conflict" ∈ polarities) then
    Ok (lbl ++ [(category, Some "conflict")],
        add_labels vs category (Some "conflict"))
  else if bool_decide (Some "positive" ∈ polarities)
          && bool_decide (Some "neutral" ∈ polarities) then
    Ok (lbl ++ [(category, Some "positive")],
        add_labels vs category (Some "positive"))
  else
    Ok (lbl ++ [(category, Some "negative")],
        add_labels vs category (Some "negative")).

(** Lines 634-663: the label of one sentence. *)
Definition sentence_label (vs : vars) (sentence : AbsaSentence)
  : exn + label * vars :=
  let? terms := iter (aspect_terms sentence) in
  let? voted := efold vote ([], polarity_var vs) terms in
  let vs := mkVars (distinct_categories vs) (distinct_polarities vs)
                   (snd voted) in
  efold reconcile ([], vs) (fst voted).

(** Lines 633-666: a sentence whose label is empty gives no sample. *)
Definition acd_and_sc_sentence (acc : list sample * vars)
    (sentence : AbsaSentence) : exn + list sample * vars :=
  let '(samples, vs) := acc in
  let content := Py.re_sub_class_plus " " (text sentence) in
  let? r := sentence_label vs sentence in
  match fst r with
  | [] => Ok (samples, snd r)
  | lbl => Ok (samples ++ [(content, lbl)], snd r)
  end.

Definition generate_acd_and_sc_data `{Sklearn} (self : partitions AbsaDocument)
    (dev_size : float)
  : M sample (partitions sample * list (option string) * list (option string)) :=
  let! _ := BaseDataset.new_result in
  let! vs := BaseDataset.for_each_partition
               (BaseDataset.for_each_sentence acd_and_sc_sentence) self
               (mkVars ∅ ∅ None) in
  let! _ := BaseDataset.generate_dev_data dev_size
              BaseDataset.default_random_state in
  let! distinct_categories := lift (sorted_labels (distinct_categories vs)) in
  let! distinct_polarities := lift (sorted_labels (distinct_polarities vs)) in
  let! r := BaseDataset.get_result in
  mret (r, distinct_categories, distinct_polarities).


(** Lines 591-602: one [opinion] element becomes an aspect term when it has a
    [target] attribute, and an aspect category otherwise. *)
Definition load_opinion (acc : list AspectTerm * list AspectCategory)
    (opinion_tag : Soup.node) : exn + list AspectTerm * list AspectCategory :=
  let '(aspect_terms, aspect_categories) := acc in
  let? category := Soup.getitem opinion_tag "category" in
  let? polarity := Soup.getitem opinion_tag "polarity" in
  if Soup.has_attr "target" opinion_tag then
    let? term := Soup.getitem opinion_tag "target" in
    let? from_index := Soup.getitem opinion_tag "from" in
    let? to_index := Soup.getitem opinion_tag "to" in
    let? aspect_term :=
      AspectTerm_of_strings term (Some polarity) from_index to_index
                            (Some category) in
    Ok (aspect_terms ++ [aspect_term], aspect_categories)
  else
    Ok (aspect_terms,
        aspect_categories ++ [mkAspectCategory (Some category) (Some polarity)]).

(** Lines 586-605: one [sentence] element. *)
Definition load_sentence (sentence_tag : Soup.node) : exn + AbsaSentence :=
  let text := Soup.text sentence_tag in
  let opinion_tags := Soup.find_all "opinion" sentence_tag in
  let? r := efold load_opinion ([], []) opinion_tags in
  Ok (AbsaSentence_default text None (Some (snd r)) (Some (fst r))).

(** Lines 582-607: one [review] element. *)
Definition load_review (doc_tag : Soup.node) : exn + AbsaDocument :=
  let sentence_tags := Soup.find_all "sentence" doc_tag in
  let? sentences :=
    efold (fun sentences sentence_tag =>
             let? sentence := load_sentence sentence_tag in
             Ok (sentences ++ [sentence]))
          [] sentence_tags in
  Ok (AbsaDocument_default (join_all (map text sentences)) None None None
                           (Some sentences)).

(** The reviews of one file; no file, no data. *)
Definition load_file (soup : option Soup.node) : exn + option (list AbsaDocument) :=
  match soup with
  | None => Ok None
  | Some soup =>
      let? docs :=
        efold (fun docs doc_tag =>
                 let? doc := load_review doc_tag in Ok (docs ++ [doc]))
              [] (Soup.find_all "review" soup) in
      Ok (Some docs)
  end.

(** [_load_data_by_filepath], on the parsed contents of the two files. *)
Definition _load_data_by_filepath (train_soup test_soup : option Soup.node)
  : exn + partitions AbsaDocument :=
  let? train_data := load_file train_soup in
  let? test_data := load_file test_soup in
  Ok (mkPartitions train_data None test_data).

End Semeval2015Task12.

(** ** [Semeval2016Task5Sub1] *)

Module Semeval2016Task5Sub1.

Abbreviation sample := (string * list (option string))%type.

(** Lines 698-704. *)
Definition acd_sentence (acc : list sample * label_set)
    (sentence : AbsaSentence) : exn + list sample * label_set :=
  let '(samples, distinct_categories) := acc in
  let content := Py.re_sub_class " " (text sentence) in
  let? cats := iter (aspect_categories sentence) in
  let '(label, distinct_categories) :=
    fold_left (fun lv aspect_category =>
                 let category := category aspect_category in
                 (fst lv ++ [category], snd lv ∪ {[category]}))
              cats ([], distinct_categories) in
  Ok (samples ++ [(content, label)], distinct_categories).

Definition acd_samples := BaseDataset.for_each_sentence acd_sentence.

Definition generate_aspect_category_detection_data `{Sklearn}
    (self : partitions AbsaDocument) (test_size : option float)
  : M sample (partitions sample * list (option string)) :=
  let! _ := BaseDataset.new_result in
  let! distinct_categories :=
    BaseDataset.for_each_partition acd_samples self ∅ in
  let! d := read Dev in
  let! _ :=
    match d with
    | None =>
        let! original_train_samples := read Train in
        let! split := train_test_split original_train_samples test_size None in
        let! _ := write Train (Some (fst split)) in
        write Dev (Some (snd split))
    | Some _ => mret tt
    end in
  let! distinct_categories := lift (sorted_labels distinct_categories) in
  let! r := BaseDataset.get_result in
  mret (r, distinct_categories).

End Semeval2016Task5Sub1.

(** ** A small splitter, to run the derivations on concrete corpora

    It rotates the samples by the generator state, holds out the first one
    and steps the generator; fewer than two samples cannot be split. *)

Definition rotating_split (A : Type) (g : Z) (test_size : option float)
    (l : list A) : (exn + list A * list A) * Z :=
  match rotate (Z.to_nat g) l with
  | x :: (_ :: _) as rest => (Ok (rest, [x]), g + 1)
  | _ => (Raise ValueError, g + 1)
  end.

Definition rotating_sklearn : Sklearn :=
  {| rng := Z; RandomState := fun seed => seed; shuffle_split := rotating_split |}.

(** ** Observations on outcomes *)

(** [raises e r]: the outcome [r] is the exception [e]. *)
Definition raises {A : Type} (e : exn) (r : exn + A) : bool :=
  match r with
  | inl e' => bool_decide (e' = e)
  | inr _ => false
  end.

(** ** Descriptions used to state the properties *)

(** What the attribute-enumerated dialect says about the aspect term of
    index [n] of a sentence element: its word, offsets and polarity are the
    attributes of that index, and the end offset is the raw one plus one. *)
Definition term_of_index (tag : Nlpcc2012WeiboSa.Tag) (n : Z) (t : AspectTerm)
  : Prop :=
  Nlpcc2012WeiboSa.get tag (Nlpcc2012WeiboSa.attr_name "target_word_" n)
    = Some (term t)
  ∧ term t ≠ ""
  ∧ Py.int (Nlpcc2012WeiboSa.get tag (Nlpcc2012WeiboSa.attr_name "target_begin_" n))
    = Ok (from_index t)
  ∧ (∃ raw_end : Z,
       Py.int (Nlpcc2012WeiboSa.get tag
                 (Nlpcc2012WeiboSa.attr_name "target_end_" n)) = Ok raw_end
       ∧ to_index t = raw_end + 1)
  ∧ term_polarity t
    = Nlpcc2012WeiboSa.get tag (Nlpcc2012WeiboSa.attr_name "target_polarity_" n).

(** The two text normalisations in the words of the specification: the
    characters CR and LF are removed, or each of them becomes one space. *)
Fixpoint remove_crlf (s : string) : string :=
  match s with
  | EmptyString => EmptyString
  | String c s' => if Py.is_crlf c then remove_crlf s' else String c (remove_crlf s')
  end.

Fixpoint crlf_to_space (s : string) : string :=
  match s with
  | EmptyString => EmptyString
  | String c s' => String (if Py.is_crlf c then " "%char else c) (crlf_to_space s')
  end.

(** Every maximal run of CR and LF characters becomes one space: a CR or LF
    that is followed by another one is dropped, the last one of a run becomes
    the space. *)
Fixpoint crlf_runs_to_space (s : string) : string :=
  match s with
  | EmptyString => EmptyString
  | String c s' =>
      if Py.is_crlf c then
        match s' with
        | String c' _ =>
            if Py.is_crlf c' then crlf_runs_to_space s'
            else String " " (crlf_runs_to_space s')
        | EmptyString => String " " EmptyString
        end
      else String c (crlf_runs_to_space s')
  end.

(** The sentences of a partition, in document order. *)
Definition sentences_of (data : list AbsaDocument) : list AbsaSentence :=
  concat (map (fun document => default [] (absa_sentences document)) data).

(** The votes of a category: the polarities of the aspect terms of a sentence
    that carry this category. *)
Definition votes_for (c : option string) (terms : list AspectTerm) : label_set :=
  list_to_set
    (map term_polarity (filter (fun t => term_category t = c) terms)).

(** The reconciliation rule in the words of the specification. *)
Definition conflict_votes (V : label_set) : Prop :=
  (Some "positive" ∈ V ∧ Some "negative" ∈ V) ∨ Some "conflict" ∈ V.

Definition positive_votes (V : label_set) : Prop :=
  Some "positive" ∈ V ∧ Some "neutral" ∈ V.

Inductive reconciled (V : label_set) : option string → Prop :=
  | reconciled_single (q : option string) :
      V = {[q]} → reconciled V q
  | reconciled_conflict :
      (∀ q, V ≠ {[q]}) → conflict_votes V → reconciled V (Some "conflict")
  | reconciled_positive :
      (∀ q, V ≠ {[q]}) → ¬ conflict_votes V → positive_votes V →
      reconciled V (Some "positive")
  | reconciled_negative :
      (∀ q, V ≠ {[q]}) → ¬ conflict_votes V → ¬ positive_votes V →
      reconciled V (Some "negative").

(** ** Concrete corpora *)

Definition CR : ascii := "013"%char.
Definition LF : ascii := "010"%char.

(** A sentence without annotations, as the nested-markup adapters build it. *)
Definition plain_sentence : AbsaSentence :=
  AbsaSentence_default "it was fine" None (Some []) (Some []).

(** A sentence whose text has a line break, with one annotated term that is
    also category-tagged. *)
Definition two_line_sentence : AbsaSentence :=
  AbsaSentence_default
    ("good food" +:+ String CR (String LF "slow waiter")) None
    (Some [mkAspectCategory (Some "FOOD#QUALITY") (Some "positive")])
    (Some [mkAspectTerm "food" (Some "positive") 5 9 (Some "FOOD#QUALITY")]).

(** The sentence of the specification's scenario, with its two terms tagged
    with different categories. *)
Definition pizza_sentence : AbsaSentence :=
  AbsaSentence_default "great pizza but slow service" None (Some [])
    (Some [mkAspectTerm "pizza" (Some "positive") 6 11 (Some "FOOD#QUALITY");
           mkAspectTerm "service" (Some "negative") 23 30 (Some "SERVICE#GENERAL")]).

(** Two terms of one category with different polarities, and a third term. *)
Definition mixed_sentence : AbsaSentence :=
  AbsaSentence_default "nice pasta, cold soup, rude staff" None (Some [])
    (Some [mkAspectTerm "pasta" (Some "positive") 5 10 (Some "FOOD#QUALITY");
           mkAspectTerm "soup" (Some "negative") 17 21 (Some "FOOD#QUALITY");
           mkAspectTerm "staff" (Some "negative") 28 33 (Some "SERVICE#GENERAL")]).

Definition document_of (s : AbsaSentence) : AbsaDocument :=
  AbsaDocument_default (text s) None None None (Some [s]).

Definition pizza_corpus : partitions AbsaDocument :=
  mkPartitions (Some [document_of pizza_sentence]) None
               (Some [document_of mixed_sentence]).

(** The votes a dictionary of buckets holds for a category. *)
Definition dict_votes (c : option string) (d : Semeval2015Task12.buckets)
  : label_set :=
  match dict_get c d with
  | inr V => V
  | inl _ => ∅
  end.

(** A vocabulary list that is sorted and has exactly the labels of a set. *)
Definition vocabulary_of (s : label_set) (l : list (option string)) : Prop :=
  Sorted label_le l ∧ NoDup l ∧ ∀ x, x ∈ l ↔ x ∈ s.

(** ** [Semeval2014Task4] *)

Module Semeval2014Task4.

(** Lines 390-396. *)
Definition load_aspect_term (aspect_term_tag : Soup.node) : exn + AspectTerm :=
  let? term := Soup.getitem aspect_term_tag "term" in
  let? polarity := Soup.getitem aspect_term_tag "polarity" in
  let? from_index := Soup.getitem aspect_term_tag "from" in
  let? to_index := Soup.getitem aspect_term_tag "to" in
  AspectTerm_of_strings term (Some polarity) from_index to_index None.

(** Lines 399-403. *)
Definition load_aspect_category (aspect_category_tag : Soup.node)
  : exn + AspectCategory :=
  let? category := Soup.getitem aspect_category_tag "category" in
  let? polarity := Soup.getitem aspect_category_tag "polarity" in
  Ok (mkAspectCategory (Some category) (Some polarity)).

(** [for x in xs: ys.append(f(x))] *)
Definition collect {A B : Type} (f : A → exn + B) (xs : list A) : exn + list B :=
  efold (fun ys x => let? y := f x in Ok (ys ++ [y])) [] xs.

(** Lines 386-405: one [sentence] element. *)
Definition load_sentence (sentence_tag : Soup.node) : exn + AbsaSentence :=
  let text := Soup.text sentence_tag in
  let? aspect_terms :=
    collect load_aspect_term (Soup.find_all "aspectterm" sentence_tag) in
  let? aspect_categories :=
    collect load_aspect_category (Soup.find_all "aspectcategory" sentence_tag) in
  Ok (AbsaSentence_default text None (Some aspect_categories) (Some aspect_terms)).

(** Lines 379-407: one file; every sentence becomes a document of its own. *)
Definition load_file (soup : option Soup.node) : exn + option (list AbsaDocument) :=
  match soup with
  | None => Ok None
  | Some soup =>
      let? sentences := collect load_sentence (Soup.find_all "sentence" soup) in
      Ok (Some (map (fun sentence =>
                       AbsaDocument_default (text sentence) None None None
                                            (Some [sentence]))
                    sentences))
  end.

(** [_load_semeval_by_filepath], on the parsed contents of the files; the
    files are read in the order train, test, dev. *)
Definition _load_semeval_by_filepath (train_soup test_soup val_soup : option Soup.node)
  : exn + partitions AbsaDocument :=
  let? train_data := load_file train_soup in
  let? test_data := load_file test_soup in
  let? dev_data := load_file val_soup in
  Ok (mkPartitions train_data dev_data test_data).

End Semeval2014Task4.

(** ** [Semeval2016Task5Sub2] *)

Module Semeval2016Task5Sub2.

(** Lines 750-761: as in [Semeval2015Task12], but the test is
    ['target' in opinion_tag], which looks at the contents of the element. *)
Definition load_opinion (acc : list AspectTerm * list AspectCategory)
    (opinion_tag : Soup.node) : exn + list AspectTerm * list AspectCategory :=
  let '(aspect_terms, aspect_categories) := acc in
  let? category := Soup.getitem opinion_tag "category" in
  let? polarity := Soup.getitem opinion_tag "polarity" in
  if Soup.contains "target" opinion_tag then
    let? term := Soup.getitem opinion_tag "target" in
    let? from_index := Soup.getitem opinion_tag "from" in
    let? to_index := Soup.getitem opinion_tag "to" in
    let? aspect_term :=
      AspectTerm_of_strings term (Some polarity) from_index to_index
                            (Some category) in
    Ok (aspect_terms ++ [aspect_term], aspect_categories)
  else
    Ok (aspect_terms,
        aspect_categories ++ [mkAspectCategory (Some category) (Some polarity)]).

(** Lines 737-763: one [review] element; the annotations belong to the
    document, the sentences carry none. *)
Definition load_review (doc_tag : Soup.node) : exn + AbsaDocument :=
  let sentences :=
    map (fun sentence_tag =>
           AbsaSentence_default (Soup.text sentence_tag) None None None)
        (Soup.find_all "sentence" doc_tag) in
  let? r := efold load_opinion ([], []) (Soup.find_all "opinion" doc_tag) in
  Ok (AbsaDocument_default (join_all (map text sentences)) None
                           (Some (snd r)) (Some (fst r)) (Some sentences)).

Definition load_file (soup : option Soup.node) : exn + option (list AbsaDocument) :=
  match soup with
  | None => Ok None
  | Some soup =>
      let? docs :=
        Semeval2014Task4.collect load_review (Soup.find_all "review" soup) in
      Ok (Some docs)
  end.

Definition _load_data_by_filepath (train_soup test_soup : option Soup.node)
  : exn + partitions AbsaDocument :=
  let? train_data := load_file train_soup in
  let? test_data := load_file test_soup in
  Ok (mkPartitions train_data None test_data).

End Semeval2016Task5Sub2.

(** ** [Semeval2016Task5ChCameSub1]

    [Semeval2016Task5ChPhnsSub1] and [Semeval2016Task5LaptSub1] define the
    same [generate_acd_and_sc_data]. *)

Module Semeval2016Task5ChCameSub1.

Abbreviation sample := (string * list (option string * option string))%type.

(** Lines 933-943. *)
Definition acd_and_sc_sentence
    (acc : list sample * (label_set * label_set)) (sentence : AbsaSentence)
  : exn + list sample * (label_set * label_set) :=
  let '(samples, vars) := acc in
  let content := Py.re_sub_class_plus " " (text sentence) in
  let? cats := iter (aspect_categories sentence) in
  let '(label, vars) :=
    fold_left (fun lv aspect_category =>
                 let category := category aspect_category in
                 let polarity := category_polarity aspect_category in
                 (fst lv ++ [(category, polarity)],
                  (fst (snd lv) ∪ {[category]}, snd (snd lv) ∪ {[polarity]})))
              cats ([], vars) in
  match label with
  | [] => Ok (samples, vars)
  | _ => Ok (samples ++ [(content, label)], vars)
  end.

Definition generate_acd_and_sc_data `{Sklearn} (self : partitions AbsaDocument)
    (dev_size : float)
  : M sample (partitions sample * list (option string) * list (option string)) :=
  let! _ := BaseDataset.new_result in
  let! vars := BaseDataset.for_each_partition
                 (BaseDataset.for_each_sentence acd_and_sc_sentence) self (∅, ∅) in
  let! _ := BaseDataset.generate_dev_data dev_size
              BaseDataset.default_random_state in
  let! distinct_categories := lift (sorted_labels (fst vars)) in
  let! distinct_polarities := lift (sorted_labels (snd vars)) in
  let! r := BaseDataset.get_result in
  mret (r, distinct_categories, distinct_polarities).

End Semeval2016Task5ChCameSub1.

(** ** The delimited-text adapter: [load_csv_data] and [Bdci2019InternetNews] *)

Module Bdci2019InternetNews.


(** Lines 1227-1232: row [i] of the data is paired with row [i] of the
    labels. *)
Definition load_sample (data_rows label_rows : list (list string)) (i : nat)
  : exn + Text :=
  let? data_row := Py.index data_rows i in
  let? sample_id := Py.index data_row 0 in
  let data := Py.join "。" (drop 1 data_row) in
  let? label_row := Py.index label_rows i in
  let? label := Py.index label_row 1 in
  Ok (mkText data label sample_id).

Definition load_samples (data_rows label_rows : list (list string))
  : exn + list Text :=
  efold (fun samples i =>
           let? sample := load_sample data_rows label_rows i in
           Ok (samples ++ [sample]))
        [] (seq 0 (length data_rows)).

(** [_load_data], on the rows of the four files. *)
Definition _load_data (train_rows train_label_rows test_rows test_label_rows
                       : list (list string)) : exn + partitions Text :=
  let? train_data := load_samples train_rows train_label_rows in
  let? test_data := load_samples test_rows test_label_rows in
  Ok (mkPartitions (Some train_data) None (Some test_data)).

End Bdci2019InternetNews.

(** ** Descriptions used to state further properties *)

(** Every character of a string satisfies [p]. *)
Fixpoint all_chars (p : ascii → bool) (s : string) : bool :=
  match s with
  | EmptyString => true
  | String c s' => p c && all_chars p s'
  end.

Definition no_upper (s : string) : bool :=
  all_chars (fun c => negb (Py.is_upper c)) s.

(** A document that holds one sentence with one aspect term and no
    categories, and has the text of that sentence. *)
Definition single_term_document (document : AbsaDocument) : Prop :=
  ∃ (s : AbsaSentence) (t : AspectTerm),
    absa_sentences document = Some [s]
    ∧ doc_text document = text s
    ∧ aspect_terms s = Some [t]
    ∧ aspect_categories s = None.

(** The elements of a list in the order of their first occurrence. *)
Fixpoint first_occurrences {A : Type} `{EqDecision A} (l : list A) : list A :=
  match l with
  | [] => []
  | x :: l' => x :: filter (fun y => y ≠ x) (first_occurrences l')
  end.

#[global] Instance conflict_votes_dec (V : label_set) : Decision (conflict_votes V).
Proof. unfold conflict_votes. apply _. Defined.

#[global] Instance positive_votes_dec (V : label_set) : Decision (positive_votes V).
Proof. unfold positive_votes. apply _. Defined.

(** The polarity that the reconciliation rule gives to a set of votes. *)
Definition vote_result (V : label_set) : option string :=
  match elements V with
  | [q] => q
  | _ =>
      if decide (conflict_votes V) then Some "conflict"
      else if decide (positive_votes V) then Some "positive"
      else Some "negative"
  end.

(** The label of a sentence of the term-derived category task: its
    categories in the order of their first occurrence, each with the polarity
    reconciled from its votes. *)
Definition label_of (terms : list AspectTerm)
  : list (option string * option string) :=
  map (fun c => (c, vote_result (votes_for c terms)))
      (first_occurrences (map term_category terms)).

(** The samples of the tasks, sentence by sentence. *)
Definition atsa_sample_of (s : AbsaSentence) : string * list AspectTerm :=
  (remove_crlf (text s), default [] (aspect_terms s)).

Definition task12_samples_of (s : AbsaSentence)
  : list (string * list (option string * option string)) :=
  match default [] (aspect_terms s) with
  | [] => []
  | terms => [(crlf_runs_to_space (text s), label_of terms)]
  end.

(** A partition that the sentence-level derivations can walk: every document
    has a list of sentences, and every sentence a list of aspect terms. *)
Definition has_terms (data : list AbsaDocument) : Prop :=
  Forall (fun document =>
            ∃ sentences,
              absa_sentences document = Some sentences
              ∧ Forall (fun s => is_Some (aspect_terms s)) sentences)
         data.

(** A partition whose documents have the text of their sentences. *)
Definition text_of_sentences (data : list AbsaDocument) : Prop :=
  Forall (fun document =>
            ∃ sentences,
              absa_sentences document = Some sentences
              ∧ doc_text document = join_all (map text sentences))
         data.

(** The loop over the partitions as a function of the record it fills and of
    the variables it carries: a partition that is [None] is skipped, the
    samples of the others are stored under their key. *)
Definition derive_partition {S V : Type}
    (per : V → list AbsaDocument → exn + list S * V)
    (data : option (list AbsaDocument)) (k : data_type)
    (acc : partitions S * V) : exn + partitions S * V :=
  match data with
  | None => Ok acc
  | Some data =>
      let? r := per (snd acc) data in
      Ok (setitem (fst acc) k (Some (fst r)), snd r)
  end.

Definition derive {S V : Type}
    (per : V → list AbsaDocument → exn + list S * V)
    (self : partitions AbsaDocument) (acc : partitions S * V)
  : exn + partitions S * V :=
  let? acc := derive_partition per (train self) Train acc in
  let? acc := derive_partition per (dev self) Dev acc in
  derive_partition per (test self) Test acc.

(** The polarities of the aspect terms of a partition. *)
Definition polarities_of (data : option (list AbsaDocument)) : label_set :=
  ⋃ (map (fun s => list_to_set (map term_polarity (default [] (aspect_terms s))))
         (sentences_of (default [] data))).

(** What the nested-markup dialect says about the aspect term, or the aspect
    category, made from an [opinion] element: the fields are the attributes
    of the element, the offsets are their integer values. *)
Definition term_of_opinion (o : Soup.node) (t : AspectTerm) : Prop :=
  ∃ target category polarity f f' i j,
    Soup.attrs_of o !! "target" = Some target
    ∧ Soup.attrs_of o !! "category" = Some category
    ∧ Soup.attrs_of o !! "polarity" = Some polarity
    ∧ Soup.attrs_of o !! "from" = Some f
    ∧ Soup.attrs_of o !! "to" = Some f'
    ∧ Py.int_of_str f = Ok i
    ∧ Py.int_of_str f' = Ok j
    ∧ t = mkAspectTerm target (Some polarity) i j (Some category).

Definition category_of_opinion (o : Soup.node) (c : AspectCategory) : Prop :=
  ∃ category polarity,
    Soup.attrs_of o !! "category" = Some category
    ∧ Soup.attrs_of o !! "polarity" = Some polarity
    ∧ c = mkAspectCategory (Some category) (Some polarity).

(** A partition as the nested-markup adapters build it: sentences with a
    list of aspect terms and a list of aspect categories, all of them with a
    category and a polarity. *)
Definition labelled_sentence (s : AbsaSentence) : Prop :=
  ∃ terms cats,
    aspect_terms s = Some terms
    ∧ aspect_categories s = Some cats
    ∧ Forall (fun t => is_Some (term_category t) ∧ is_Some (term_polarity t)) terms
    ∧ Forall (fun c => is_Some (category c) ∧ is_Some (category_polarity c)) cats.

Definition labelled (data : list AbsaDocument) : Prop :=
  Forall (fun document =>
            ∃ sentences,
              absa_sentences document = Some sentences
              ∧ doc_text document = join_all (map text sentences)
              ∧ Forall labelled_sentence sentences)
         data.

(** A review in the nested-markup dialect: two sentences, the first with an
    opinion on a target and an opinion without one. *)
Definition opinion_with_target : Soup.node :=
  Soup.Tag "opinion"
    (<["target" := "pizza"]> (<["category" := "FOOD#QUALITY"]>
       (<["polarity" := "positive"]> (<["from" := "6"]> {["to" := "11"]}))))
    [].

Definition opinion_without_target : Soup.node :=
  Soup.Tag "opinion"
    (<["category" := "RESTAURANT#GENERAL"]> {["polarity" := "negative"]}) [].

Definition pizza_sentence_markup : Soup.node :=
  Soup.Tag "sentence" {["id" := "1:0"]}
    [Soup.Tag "text" ∅ [Soup.NavigableString "great pizza"];
     Soup.Tag "opinions" ∅ [opinion_with_target; opinion_without_target]].

Definition review_tag : Soup.node :=
  Soup.Tag "review" {["rid" := "1"]}
    [Soup.Tag "sentences" ∅
       [pizza_sentence_markup;
        Soup.Tag "sentence" {["id" := "1:1"]}
          [Soup.Tag "text" ∅ [Soup.NavigableString " but never again"]]]].

Definition review_markup : Soup.node := Soup.Tag "reviews" ∅ [review_tag].

(** A document as [Semeval2015Task12] builds it from a [review] element: one
    sentence per [sentence] element, in order, the text of the document is the
    texts of the sentences joined, and the annotations stay with the
    sentences. *)
Definition review_document (doc_tag : Soup.node) (document : AbsaDocument) : Prop :=
  ∃ sentences,
    document = AbsaDocument_default (join_all (map text sentences)) None None None
                                    (Some sentences)
    ∧ Forall2 (fun sentence_tag s => Semeval2015Task12.load_sentence sentence_tag = Ok s)
              (Soup.find_all "sentence" doc_tag) sentences.

(** A partition as [Semeval2015Task12] builds it from a file. *)
Definition review_partition (soup : option Soup.node)
    (data : option (list AbsaDocument)) : Prop :=
  match soup with
  | None => data = None
  | Some soup =>
      ∃ documents,
        data = Some documents
        ∧ Forall2 review_document (Soup.find_all "review" soup) documents
  end.

(** The corpus the adapter loads from [review_markup] as its train file. *)
Definition review_corpus : partitions AbsaDocument :=
  mkPartitions
    (Some [AbsaDocument_default "great pizza but never again" None None None
             (Some [AbsaSentence_default "great pizza" None
                      (Some [mkAspectCategory (Some "RESTAURANT#GENERAL")
                                              (Some "negative")])
                      (Some [mkAspectTerm "pizza" (Some "positive") 6 11
                                          (Some "FOOD#QUALITY")]);
                    AbsaSentence_default " but never again" None (Some [])
                                         (Some [])])])
    None None.

(** The variables of the term-derived category task hold no [None]: neither
    of the two collected sets, nor the variable [polarity] once bound. *)
Definition no_None_labels (vs : Semeval2015Task12.vars) : Prop :=
  (None ∉ Semeval2015Task12.distinct_categories vs)
  ∧ (None ∉ Semeval2015Task12.distinct_polarities vs)
  ∧ Semeval2015Task12.polarity_var vs ≠ Some None.

(** Two sentence elements of one weibo, neither opinionated. *)
Definition weibo_sentence_tags : list Nlpcc2012WeiboSa.Tag :=
  [Nlpcc2012WeiboSa.mkTag {["id" := "1"]} "good phone. ";
   Nlpcc2012WeiboSa.mkTag ∅ "bad battery"].

(** What [line.split('\t')[2]] needs: the line is empty (and skipped) or has
    at least three tab-separated fields. *)
Definition annotation_line (line : string) : Prop :=
  line = "" ∨ (3 ≤ length (Py.split "009" line))%nat.

(** A partition as [Semeval2014Task4] builds it from a file: one document per
    [sentence] element, holding that one sentence; the aspect terms carry no
    category. *)
Definition sentence_partition (soup : option Soup.node)
    (data : option (list AbsaDocument)) : Prop :=
  match soup with
  | None => data = None
  | Some soup =>
      ∃ sentences,
        data = Some (map document_of sentences)
        ∧ Forall2
            (fun sentence_tag s =>
               text s = Soup.text sentence_tag
               ∧ polarity s = None
               ∧ ∃ terms cats,
                   aspect_terms s = Some terms
                   ∧ aspect_categories s = Some cats
                   ∧ Forall2 (fun tag t => Semeval2014Task4.load_aspect_term tag = Ok t)
                             (Soup.find_all "aspectterm" sentence_tag) terms
                   ∧ Forall2 (fun tag c =>
                                Semeval2014Task4.load_aspect_category tag = Ok c)
                             (Soup.find_all "aspectcategory" sentence_tag) cats
                   ∧ Forall (fun t => term_category t = None
                                      ∧ is_Some (term_polarity t)) terms)
            (Soup.find_all "sentence" soup) sentences
  end.

(** A file of the flat markup dialect with one sentence. *)
Definition sentences_markup : Soup.node :=
  Soup.Tag "sentences" ∅
    [Soup.Tag "sentence" {["id" := "813"]}
       [Soup.Tag "text" ∅ [Soup.NavigableString "great pizza"];
        Soup.Tag "aspectterms" ∅
          [Soup.Tag "aspectterm"
             (<["term" := "pizza"]> (<["polarity" := "positive"]>
                (<["from" := "6"]> {["to" := "11"]}))) []];
        Soup.Tag "aspectcategories" ∅
          [Soup.Tag "aspectcategory"
             (<["category" := "food"]> {["polarity" := "positive"]}) []]]].

Definition sentences_corpus : partitions AbsaDocument :=
  mkPartitions
    (Some [document_of
             (AbsaSentence_default "great pizza" None
                (Some [mkAspectCategory (Some "food") (Some "positive")])
                (Some [mkAspectTerm "pizza" (Some "positive") 6 11 None]))])
    None None.

(** The label and the samples that the category task of
    [Semeval2016Task5ChCameSub1] gives to a sentence: one pair per aspect
    category, and no sample for a sentence without one. *)
Definition category_label_of (s : AbsaSentence)
  : list (option string * option string) :=
  map (fun c => (category c, category_polarity c))
      (default [] (aspect_categories s)).

Definition category_samples_of (s : AbsaSentence)
  : list Semeval2016Task5ChCameSub1.sample :=
  match category_label_of s with
  | [] => []
  | label => [(Py.re_sub_class_plus " " (text s), label)]
  end.

(** The corpus that [Semeval2016Task5Sub2] loads from [review_markup] as its
    train file. *)
Definition sub2_corpus : partitions AbsaDocument :=
  mkPartitions
    (Some [AbsaDocument_default "great pizza but never again" None
             (Some [mkAspectCategory (Some "FOOD#QUALITY") (Some "positive");
                    mkAspectCategory (Some "RESTAURANT#GENERAL") (Some "negative")])
             (Some [])
             (Some [AbsaSentence_default "great pizza" None None None;
                    AbsaSentence_default " but never again" None None None])])
    None None.

(** The two sets of the category task hold no [None]. *)
Definition no_None_pair (vars : label_set * label_set) : Prop :=
  (None ∉ fst vars) ∧ (None ∉ snd vars).

(** * Facts about strings *)

Section StringFacts.
Implicit Types s t u : string.

Lemma app_cons c s t : String c s +:+ t = String c (s +:+ t).
Proof. reflexivity. Qed.

Lemma app_nil_l s : "" +:+ s = s.
Proof. reflexivity. Qed.

Lemma length_app s t :
  String.length (s +:+ t) = (String.length s + String.length t)%nat.
Proof.
  induction s as [|c s IH]; [done |].
  rewrite app_cons. simpl. by rewrite IH.
Qed.

Lemma substring_whole_prefix s t :
  String.substring 0 (String.length s) (s +:+ t) = s.
Proof.
  induction s as [|c s IH]; [by destruct t |].
  rewrite app_cons. simpl. by rewrite IH.
Qed.

Lemma substring_skip s t n m :
  String.substring (String.length s + n) m (s +:+ t) = String.substring n m t.
Proof. induction s as [|c s IH]; [done |]. rewrite app_cons. apply IH. Qed.

(** A slice that starts after a prefix and is as long as the next part
    gives back that part. *)
Lemma slice_middle s t u :
  Py.slice (s +:+ t +:+ u) (Py.len s) (Py.len s + Py.len t) = t.
Proof.
  unfold Py.slice, Py.clamp, Py.len.
  rewrite !length_app.
  destruct (Z.ltb_spec (Z.of_nat (String.length s)) 0); [lia |].
  destruct (Z.ltb_spec (Z.of_nat (String.length s) + Z.of_nat (String.length t)) 0);
    [lia |].
  rewrite !Z.min_l by lia.
  replace (Z.to_nat (Z.of_nat (String.length s)))
    with (String.length s + 0)%nat by lia.
  rewrite substring_skip.
  replace (Z.to_nat _) with (String.length t) by lia.
  apply substring_whole_prefix.
Qed.

Lemma app_assoc_str s t u : (s +:+ t) +:+ u = s +:+ (t +:+ u).
Proof. induction s as [|c s IH]; [done |]. rewrite !app_cons. by f_equal. Qed.

Lemma app_empty_r s : s +:+ "" = s.
Proof. induction s as [|c s IH]; [done |]. rewrite app_cons. by f_equal. Qed.
End StringFacts.

(** * The token-placeholder adapter *)

Section Asgcn.
Import AsgcnData.

(** The span computed for a record always holds the term. *)
Lemma build_text_span line0 line1 :
  Py.slice (fst (build_text line0 line1)) (snd (build_text line0 line1))
           (snd (build_text line0 line1) + Py.len (Py.strip (Py.lower line1)))
  = Py.strip (Py.lower line1).
Proof.
  unfold build_text.
  destruct (contexts line0) as [text_left text_right].
  set (aspect := Py.strip (Py.lower line1)).
  destruct (nonempty text_left) eqn:Hl; destruct (nonempty text_right) eqn:Hr;
    cbn [fst snd].
  - replace ((text_left +:+ " " +:+ aspect) +:+ " " +:+ text_right)
      with ((text_left +:+ " ") +:+ aspect +:+ (" " +:+ text_right))
      by (by rewrite !app_assoc_str).
    replace (Py.len text_left + 1) with (Py.len (text_left +:+ " "))
      by (unfold Py.len; rewrite length_app; simpl; lia).
    apply slice_middle.
  - replace (text_left +:+ " " +:+ aspect)
      with ((text_left +:+ " ") +:+ aspect +:+ "")
      by (by rewrite app_empty_r, !app_assoc_str).
    replace (Py.len text_left + 1) with (Py.len (text_left +:+ " "))
      by (unfold Py.len; rewrite length_app; simpl; lia).
    apply slice_middle.
  - apply (slice_middle "" aspect (" " +:+ text_right)).
  - replace aspect with ("" +:+ aspect +:+ "") at 1
      by (rewrite app_nil_l; apply app_empty_r).
    apply (slice_middle "" aspect "").
Qed.

Lemma span_mismatch_false line0 line1 : span_mismatch line0 line1 = false.
Proof.
  unfold span_mismatch.
  pose proof (build_text_span line0 line1) as H.
  destruct (build_text line0 line1) as [text from_index]; cbn [fst snd] in H.
  rewrite H. by rewrite String.eqb_refl.
Qed.
End Asgcn.

Section AsgcnClaims.
Import AsgcnData.

Lemma load_record_eq line0 line1 line2 :
  load_record line0 line1 line2 =
    match polarity_mapping (Py.strip line2) with
    | Some p =>
        Ok (AbsaSentence_default (fst (build_text line0 line1)) None None
              (Some [mkAspectTerm (Py.strip (Py.lower line1)) (Some p)
                       (snd (build_text line0 line1))
                       (snd (build_text line0 line1)
                        + Py.len (Py.strip (Py.lower line1)))
                       None]))
    | None => Raise KeyError
    end.
Proof.
  unfold load_record. rewrite span_mismatch_false.
  destruct (build_text line0 line1) as [text from_index]; cbn [fst snd ebind].
  reflexivity.
Qed.

Lemma load_record_no_TypeError line0 line1 line2 :
  raises TypeError (load_record line0 line1 line2) = false.
Proof.
  rewrite load_record_eq. by destruct (polarity_mapping _).
Qed.

Lemma load_sentences_no_TypeError lines :
  raises TypeError (load_sentences lines) = false.
Proof.
  remember (length lines) as n eqn:Hn.
  revert lines Hn. induction (lt_wf n) as [n _ IH]. intros lines ->.
  destruct lines as [|line0 [|line1 [|line2 rest]]]; try done.
  cbn [load_sentences].
  pose proof (load_record_no_TypeError line0 line1 line2) as Hr.
  destruct (load_record line0 line1 line2) as [e|s]; [exact Hr |].
  cbn [ebind].
  specialize (IH (length rest) ltac:(simpl; lia) rest eq_refl).
  by destruct (load_sentences rest).
Qed.

Lemma load_documents_no_TypeError lines :
  raises TypeError (load_documents lines) = false.
Proof.
  unfold load_documents.
  pose proof (load_sentences_no_TypeError lines).
  by destruct (load_sentences lines).
Qed.
End AsgcnClaims.

(** C5. In the token-placeholder adapter, the term of a loaded record starts
    at [len(left_context) + 1] when the left context is not empty and at [0]
    when it is, ends at the start plus the length of the term, and the text of
    the sentence holds the term at exactly that span. *)
Theorem asgcn_term_span (line0 line1 line2 : string) (s : AbsaSentence) :
  AsgcnData.load_record line0 line1 line2 = Ok s →
  ∃ t : AspectTerm,
    aspect_terms s = Some [t]
    ∧ term t = Py.strip (Py.lower line1)
    ∧ from_index t =
        (if String.eqb (fst (AsgcnData.contexts line0)) ""
         then 0 else Py.len (fst (AsgcnData.contexts line0)) + 1)
    ∧ to_index t = from_index t + Py.len (term t)
    ∧ Py.slice (text s) (from_index t) (to_index t) = term t.
Proof.
  rewrite load_record_eq.
  destruct (AsgcnData.polarity_mapping _) as [p|]; [| done].
  intros [= <-]. eexists. split; [reflexivity |].
  cbn [term from_index to_index text AbsaSentence_default].
  repeat split.
  - unfold AsgcnData.build_text.
    destruct (AsgcnData.contexts line0) as [text_left text_right]; cbn [fst].
    unfold AsgcnData.nonempty.
    by destruct (String.eqb text_left ""); destruct (negb (String.eqb text_right "")).
  - apply build_text_span.
Qed.

Lemma asgcn_term_span_witness :
  ∃ t : AspectTerm,
    Some [mkAspectTerm "pizza" (Some "positive") 6 11 None] = Some [t]
    ∧ term t = "pizza"
    ∧ from_index t = 6
    ∧ to_index t = from_index t + Py.len (term t)
    ∧ Py.slice "great pizza but slow service" (from_index t) (to_index t) = term t.
Proof.
  exact (asgcn_term_span "Great $T$ but slow service" "Pizza" "1"
           (AbsaSentence_default "great pizza but slow service" None None
              (Some [mkAspectTerm "pizza" (Some "positive") 6 11 None]))
           eq_refl).
Defined.

(** C2. In the token-placeholder adapter the reconstructed span never differs
    from the term, so the mismatch branch is never taken: every record whose
    polarity code is known is loaded with the aspect term at the computed
    span, and the load of a corpus never stops with the exception that the
    mismatch branch would raise. *)
Theorem asgcn_mismatch_never_aborts (train_lines test_lines : list string)
    (line0 line1 line2 : string) :
  AsgcnData.span_mismatch line0 line1 = false
  ∧ AsgcnData.load_record line0 line1 line2 =
      match AsgcnData.polarity_mapping (Py.strip line2) with
      | Some p =>
          Ok (AbsaSentence_default (fst (AsgcnData.build_text line0 line1))
                None None
                (Some [mkAspectTerm (Py.strip (Py.lower line1)) (Some p)
                         (snd (AsgcnData.build_text line0 line1))
                         (snd (AsgcnData.build_text line0 line1)
                          + Py.len (Py.strip (Py.lower line1)))
                         None]))
      | None => Raise KeyError
      end
  ∧ raises TypeError (AsgcnData._load_data_by_filepath train_lines test_lines)
    = false.
Proof.
  split; [apply span_mismatch_false |].
  split; [apply load_record_eq |].
  unfold AsgcnData._load_data_by_filepath.
  pose proof (load_documents_no_TypeError train_lines) as Htr.
  pose proof (load_documents_no_TypeError test_lines) as Hte.
  destruct (AsgcnData.load_documents train_lines); [exact Htr |].
  destruct (AsgcnData.load_documents test_lines); [exact Hte | done].
Qed.

(** * The attribute-enumerated adapter *)

Section Nlpcc.
Import Nlpcc2012WeiboSa.

Lemma attr_name_inj family : Inj (=) (=) (attr_name family).
Proof.
  intros m n Heq. unfold attr_name in Heq.
  apply (inj (String.app family)) in Heq.
  by apply (inj pretty) in Heq.
Qed.

(** Finitely many attributes: a run of [n] present indices needs [n]
    entries in the attribute map. *)
Lemma present_run_bounded family (n : nat) :
  ∀ (c : Z) (m : gmap string string),
    (∀ k : nat, (k < n)%nat → is_Some (m !! attr_name family (c + Z.of_nat k))) →
    (n ≤ size m)%nat.
Proof.
  induction n as [|n IH]; intros c m Hrun; [lia |].
  destruct (Hrun 0%nat ltac:(lia)) as [v Hv].
  rewrite Z.add_0_r in Hv.
  rewrite <- (insert_delete_id m _ _ Hv).
  rewrite map_size_insert_None by apply lookup_delete_eq.
  apply le_n_S, (IH (c + 1)).
  intros k Hk.
  rewrite lookup_delete_ne.
  - replace (c + 1 + Z.of_nat k) with (c + Z.of_nat (S k)) by lia.
    apply Hrun. lia.
  - intros Heq%attr_name_inj. lia.
Qed.

Lemma get_or_nonempty tag key :
  get_or tag key "" ≠ "" → attrs tag !! key = Some (get_or tag key "").
Proof. unfold get_or. by destruct (attrs tag !! key). Qed.

(** When the loop runs out of fuel, every index it visited was present. *)
Lemma scan_targets_None (fuel : nat) :
  ∀ tag c acc,
    scan_targets fuel tag c acc = None →
    ∀ k : nat, (k < fuel)%nat →
      is_Some (attrs tag !! attr_name "target_word_" (c + Z.of_nat k)).
Proof.
  induction fuel as [|fuel IH]; intros tag c acc Hscan k Hk; [lia |].
  cbn [scan_targets] in Hscan.
  destruct (get_or tag (attr_name "target_word_" c) "") as [|a w] eqn:Hw;
    [done |].
  destruct (ebind _ _) as [e|aspect_term] in Hscan; [done |].
  destruct k as [|k].
  - rewrite Z.add_0_r. exists (String a w). rewrite <- Hw.
    apply get_or_nonempty. by rewrite Hw.
  - replace (c + Z.of_nat (S k)) with (c + 1 + Z.of_nat k) by lia.
    eapply IH; [exact Hscan | lia].
Qed.

(** The loop stops before its fuel does. *)
Lemma scan_targets_total tag c acc :
  is_Some (scan_targets (enough_fuel tag) tag c acc).
Proof.
  destruct (scan_targets (enough_fuel tag) tag c acc) as [r|] eqn:Hscan;
    [by eexists |].
  pose proof (present_run_bounded "target_word_" (enough_fuel tag) c (attrs tag)
                (scan_targets_None _ _ _ _ Hscan)) as Hle.
  unfold enough_fuel in Hle. lia.
Qed.

(** What the loop adds to the list: one term per index from the cursor on,
    up to the first index whose word is absent or empty. *)
Lemma scan_targets_spec (fuel : nat) :
  ∀ tag c acc ts,
    scan_targets fuel tag c acc = Some (Ok ts) →
    ∃ new,
      ts = acc ++ new
      ∧ (∀ (i : nat) t, new !! i = Some t → term_of_index tag (c + Z.of_nat i) t)
      ∧ get_or tag (attr_name "target_word_" (c + Z.of_nat (length new))) "" = "".
Proof.
  induction fuel as [|fuel IH]; intros tag c acc ts Hscan; [done |].
  cbn [scan_targets] in Hscan.
  destruct (get_or tag (attr_name "target_word_" c) "") as [|a w] eqn:Hw.
  - injection Hscan as <-. exists []. rewrite app_nil_r, Z.add_0_r.
    split; [done |]. split; [| by rewrite Hw].
    intros i t Hi. by rewrite lookup_nil in Hi.
  - destruct (Py.int (get tag (attr_name "target_begin_" c)))
      as [e|target_begin] eqn:Hb; [done |].
    destruct (Py.int (get tag (attr_name "target_end_" c)))
      as [e|target_end] eqn:He; [done |].
    cbn [ebind] in Hscan.
    apply IH in Hscan as (new & -> & Hnew & Hstop).
    eexists (_ :: new). split; [by rewrite <- app_assoc |]. split.
    + intros [|i] t Hi.
      * injection Hi as <-. rewrite Z.add_0_r.
        unfold term_of_index; cbn [term from_index to_index term_polarity].
        split; [| split; [done | split; [done | split; [by eexists | done]]]].
        unfold get. rewrite <- Hw. apply get_or_nonempty. by rewrite Hw.
      * replace (c + Z.of_nat (S i)) with (c + 1 + Z.of_nat i) by lia.
        by apply Hnew.
    + cbn [length].
      by replace (c + Z.of_nat (S (length new)))
           with (c + 1 + Z.of_nat (length new)) by lia.
Qed.
End Nlpcc.

(** C6. In the attribute-enumerated adapter the scan of a sentence element
    always ends; when the sentence is loaded, it has aspect terms and a
    polarity only if its [opinionated] attribute is ['Y'], and then it has
    exactly one aspect term for each index from 1 up to the first index whose
    [target_word_N] is absent or empty, with the end offset [target_end_N]
    plus one. *)
Theorem nlpcc_sentence_terms (sentence_tag : Nlpcc2012WeiboSa.Tag)
    (sentence_start_index : Z) :
  ∃ r : exn + AbsaSentence,
    Nlpcc2012WeiboSa.load_sentence sentence_tag sentence_start_index = Some r
    ∧ ∀ s : AbsaSentence, r = Ok s →
        (Nlpcc2012WeiboSa.get_or sentence_tag "opinionated" "" ≠ "Y" →
           aspect_terms s = Some [] ∧ polarity s = None)
        ∧ (Nlpcc2012WeiboSa.get_or sentence_tag "opinionated" "" = "Y" →
           ∃ ts : list AspectTerm,
             aspect_terms s = Some ts
             ∧ (∀ (i : nat) (t : AspectTerm),
                  ts !! i = Some t → term_of_index sentence_tag (1 + Z.of_nat i) t)
             ∧ Nlpcc2012WeiboSa.get_or sentence_tag
                 (Nlpcc2012WeiboSa.attr_name "target_word_"
                    (1 + Z.of_nat (length ts))) "" = "").
Proof.
  unfold Nlpcc2012WeiboSa.load_sentence.
  destruct (String.eqb_spec
              (Nlpcc2012WeiboSa.get_or sentence_tag "opinionated" "") "Y")
    as [HY|HN].
  - destruct (scan_targets_total sentence_tag 1 []) as [r Hr]. rewrite Hr.
    destruct r as [e|ts].
    + eexists. split; [reflexivity | done].
    + eexists. split; [reflexivity |]. intros s [= <-].
      split; [done |]. intros _.
      apply scan_targets_spec in Hr as (new & -> & Hnew & Hstop).
      exists new. by cbn [aspect_terms].
  - eexists. split; [reflexivity |]. intros s [= <-].
    split; [done | done].
Qed.

(** * The split generator *)

Section DevData.
Context `{Sklearn} {S : Type}.
Implicit Types (st : store S) (r : partitions S).

(** A seeded split is a function of the seed: the state of the process-wide
    generator neither matters nor changes. *)
Lemma train_test_split_seeded (samples : option (list S)) test_size seed st :
  train_test_split samples test_size (Some seed) st =
    (match samples with
     | None => Raise TypeError
     | Some l => fst (shuffle_split S (RandomState seed) test_size l)
     end, st).
Proof. unfold train_test_split. by destruct samples. Qed.

(** The three ways through [generate_dev_data]. *)
Lemma generate_dev_data_present dev_size random_state st samples :
  dev (result st) = Some samples →
  BaseDataset.generate_dev_data dev_size random_state st = (Ok tt, st).
Proof.
  intros Hdev. unfold BaseDataset.generate_dev_data, mbind, read, mret.
  cbn [getitem]. by rewrite Hdev.
Qed.

Lemma generate_dev_data_alias dev_size random_state st :
  dev (result st) = None →
  nonzero dev_size = false →
  BaseDataset.generate_dev_data dev_size random_state st =
    (Ok tt, mkStore (mkPartitions (train (result st)) (test (result st))
                                  (test (result st)))
                    (np_random st)).
Proof.
  intros Hdev Hz. unfold BaseDataset.generate_dev_data, mbind, read, write.
  cbn [getitem]. rewrite Hdev, Hz. reflexivity.
Qed.

Lemma generate_dev_data_split dev_size random_state st :
  dev (result st) = None →
  nonzero dev_size = true →
  BaseDataset.generate_dev_data dev_size random_state st =
    match train (result st) with
    | None => (Raise TypeError, st)
    | Some l =>
        match fst (shuffle_split S (RandomState random_state) (Some dev_size) l) with
        | inl e => (Raise e, st)
        | inr split =>
            (Ok tt, mkStore (mkPartitions (Some (fst split)) (Some (snd split))
                                          (test (result st)))
                            (np_random st))
        end
    end.
Proof.
  intros Hdev Hnz. unfold BaseDataset.generate_dev_data, mbind, read, write.
  cbn [getitem]. rewrite Hdev, Hnz, train_test_split_seeded.
  destruct (train (result st)) as [l|]; [| done].
  by destruct (fst (shuffle_split S _ _ l)) as [e|[tr dv]].
Qed.
End DevData.

(** C4. When [result['dev']] is [None] and the dev fraction is [0.0],
    [generate_dev_data] returns normally with [result['dev']] set to
    [result['test']]; [result['train']] and [result['test']] are as before. *)
Theorem generate_dev_data_zero_aliases_test `{Sklearn} {S : Type}
    (st : store S) (random_state : Z) :
  dev (result st) = None →
  BaseDataset.generate_dev_data 0%float random_state st =
    (Ok tt, mkStore (mkPartitions (train (result st)) (test (result st))
                                  (test (result st)))
                    (np_random st)).
Proof. intros Hdev. by apply generate_dev_data_alias. Qed.

Lemma generate_dev_data_zero_aliases_test_witness :
  BaseDataset.generate_dev_data 0%float 1234
    (@mkStore rotating_sklearn string
       (mkPartitions (Some ["a"; "b"; "c"]) None (Some ["d"; "e"])) 7) =
    (Ok tt, @mkStore rotating_sklearn string
              (mkPartitions (Some ["a"; "b"; "c"]) (Some ["d"; "e"])
                            (Some ["d"; "e"])) 7).
Proof.
  exact (generate_dev_data_zero_aliases_test
           (@mkStore rotating_sklearn string
              (mkPartitions (Some ["a"; "b"; "c"]) None (Some ["d"; "e"])) 7)
           1234 eq_refl).
Defined.

(** C7. With a dev fraction other than zero, [generate_dev_data] is a function
    of the result record and of [random_state]: whatever the state of the
    process-wide generator, two calls give the same outcome and the same
    [(train', dev)] partitions, and leave that generator as it was. *)
Theorem generate_dev_data_deterministic `{Sklearn} {S : Type}
    (r : partitions S) (dev_size : float) (random_state : Z) (g1 g2 : rng) :
  nonzero dev_size = true →
  fst (BaseDataset.generate_dev_data dev_size random_state (mkStore r g1))
  = fst (BaseDataset.generate_dev_data dev_size random_state (mkStore r g2))
  ∧ result (snd (BaseDataset.generate_dev_data dev_size random_state (mkStore r g1)))
    = result (snd (BaseDataset.generate_dev_data dev_size random_state (mkStore r g2)))
  ∧ np_random (snd (BaseDataset.generate_dev_data dev_size random_state (mkStore r g1)))
    = g1.
Proof.
  intros Hnz. destruct (dev r) as [samples|] eqn:Hdev.
  - rewrite !(generate_dev_data_present _ _ _ samples) by done. done.
  - rewrite !generate_dev_data_split by done. cbn [result np_random].
    destruct (train r) as [l|]; [| done].
    by destruct (fst (shuffle_split S _ _ l)) as [e|[tr dv]].
Qed.

Lemma generate_dev_data_deterministic_witness :
  fst (BaseDataset.generate_dev_data 0.5%float 2
         (@mkStore rotating_sklearn string
            (mkPartitions (Some ["a"; "b"; "c"]) None (Some ["d"])) 0))
  = fst (BaseDataset.generate_dev_data 0.5%float 2
           (@mkStore rotating_sklearn string
              (mkPartitions (Some ["a"; "b"; "c"]) None (Some ["d"])) 1))
  ∧ result (snd (BaseDataset.generate_dev_data 0.5%float 2
                   (@mkStore rotating_sklearn string
                      (mkPartitions (Some ["a"; "b"; "c"]) None (Some ["d"])) 0)))
    = result (snd (BaseDataset.generate_dev_data 0.5%float 2
                     (@mkStore rotating_sklearn string
                        (mkPartitions (Some ["a"; "b"; "c"]) None (Some ["d"])) 1)))
  ∧ np_random (snd (BaseDataset.generate_dev_data 0.5%float 2
                      (@mkStore rotating_sklearn string
                         (mkPartitions (Some ["a"; "b"; "c"]) None (Some ["d"])) 0)))
    = 0.
Proof.
  exact (@generate_dev_data_deterministic rotating_sklearn string
           (mkPartitions (Some ["a"; "b"; "c"]) None (Some ["d"]))
           0.5%float 2 0 1 eq_refl).
Defined.

(** C10. [generate_dev_data] never changes [result['test']], and when
    [result['dev']] is not [None] it changes nothing at all. *)
Theorem generate_dev_data_frame `{Sklearn} {S : Type} (st : store S)
    (dev_size : float) (random_state : Z) :
  test (result (snd (BaseDataset.generate_dev_data dev_size random_state st)))
  = test (result st)
  ∧ (dev (result st) ≠ None →
     BaseDataset.generate_dev_data dev_size random_state st = (Ok tt, st)).
Proof.
  split.
  - destruct (dev (result st)) as [samples|] eqn:Hdev.
    + by rewrite (generate_dev_data_present _ _ _ samples).
    + destruct (nonzero dev_size) eqn:Hnz.
      * rewrite generate_dev_data_split by done.
        destruct (train (result st)) as [l|]; [| done].
        by destruct (fst (shuffle_split S _ _ l)) as [e|[tr dv]].
      * by rewrite generate_dev_data_alias.
  - destruct (dev (result st)) as [samples|] eqn:Hdev; [| done].
    intros _. by apply (generate_dev_data_present _ _ _ samples).
Qed.

(** * Insertion-ordered dictionaries *)

Section DictFacts.
Context {K V : Type} `{EqDecision K}.
Implicit Types (d : list (K * V)) (k : K) (v : V).

Lemma dict_in_spec k d : dict_in k d = true ↔ k ∈ map fst d.
Proof.
  induction d as [|[k' v'] d IH]; simpl.
  - split; [done | by intros ?%elem_of_nil].
  - rewrite elem_of_cons. destruct (decide (k' = k)) as [->|Hne].
    + by split; [left |].
    + rewrite IH. split; [by right | intros [?|?]; congruence].
Qed.

Lemma dict_get_set k v k' d :
  dict_get k' (dict_set k v d) = if decide (k = k') then Ok v else dict_get k' d.
Proof.
  induction d as [|[k0 v0] d IH]; simpl.
  - destruct (decide (k = k')); done.
  - destruct (decide (k0 = k)) as [->|Hne]; simpl.
    + destruct (decide (k = k')); done.
    + destruct (decide (k0 = k')) as [->|Hne'].
      * by destruct (decide (k = k')); [congruence |].
      * exact IH.
Qed.

Lemma dict_set_keys k v d :
  map fst (dict_set k v d) = if dict_in k d then map fst d else map fst d ++ [k].
Proof.
  induction d as [|[k0 v0] d IH]; simpl; [done |].
  destruct (decide (k0 = k)); simpl; [done |].
  rewrite IH. by destruct (dict_in k d).
Qed.

Lemma dict_get_not_in k d : dict_in k d = false → dict_get k d = Raise KeyError.
Proof.
  induction d as [|[k0 v0] d IH]; simpl; [done |].
  by destruct (decide (k0 = k)).
Qed.

Lemma dict_get_in k d : dict_in k d = true → ∃ v, dict_get k d = Ok v.
Proof.
  induction d as [|[k0 v0] d IH]; simpl; [done |].
  destruct (decide (k0 = k)); [by eexists | done].
Qed.

Lemma dict_get_elem_of k v d :
  NoDup (map fst d) → (k, v) ∈ d → dict_get k d = Ok v.
Proof.
  induction d as [|[k0 v0] d IH]; simpl; intros Hnd Hin.
  - by apply elem_of_nil in Hin.
  - apply NoDup_cons in Hnd as [Hk0 Hnd].
    apply elem_of_cons in Hin as [[= -> ->]|Hin].
    + by destruct (decide (k0 = k0)).
    + destruct (decide (k0 = k)) as [->|Hne]; [| by apply IH].
      exfalso. apply Hk0. change k with (fst (k, v)). by apply (list_elem_of_fmap_2 fst) in Hin.
Qed.
End DictFacts.

(** * The reconciliation of the votes *)

Section Reconciliation.
Import Semeval2015Task12.
Implicit Types (d : buckets) (c p : option string) (V : label_set).

Lemma votes_for_cons c t terms :
  votes_for c (t :: terms) =
    if decide (term_category t = c) then {[term_polarity t]} ∪ votes_for c terms
    else votes_for c terms.
Proof.
  unfold votes_for. rewrite filter_cons.
  by destruct (decide (term_category t = c)).
Qed.

(** One vote: the category gets a bucket if it has none, and the bucket
    gets the polarity. *)
Lemma vote_step d pv t :
  ∃ d',
    vote (d, pv) t = Ok (d', Some (term_polarity t))
    ∧ map fst d' =
        (if dict_in (term_category t) d then map fst d
         else map fst d ++ [term_category t])
    ∧ ∀ c, dict_votes c d' =
             if decide (term_category t = c)
             then dict_votes c d ∪ {[term_polarity t]}
             else dict_votes c d.
Proof.
  unfold vote; cbn [fst].
  destruct (dict_in (term_category t) d) eqn:Hin.
  - destruct (dict_get_in _ _ Hin) as [V HV]. rewrite HV; cbn [ebind].
    eexists. split; [reflexivity |]. split.
    + by rewrite dict_set_keys, Hin.
    + intros c. unfold dict_votes. rewrite dict_get_set.
      destruct (decide (term_category t = c)) as [<-|]; [by rewrite HV | done].
  - rewrite dict_get_set. destruct (decide _) as [_|]; [| done]. cbn [ebind].
    eexists. split; [reflexivity |]. split.
    + rewrite !dict_set_keys, Hin.
      assert (dict_in (term_category t) (dict_set (term_category t) ∅ d) = true)
        as ->; [| done].
      apply dict_in_spec. rewrite dict_set_keys, Hin.
      apply elem_of_app. right. by apply list_elem_of_singleton.
    + intros c. unfold dict_votes. rewrite !dict_get_set.
      destruct (decide (term_category t = c)) as [<-|]; [| done].
      by rewrite (dict_get_not_in _ _ Hin).
Qed.

(** The loop over the aspect terms never raises; it keeps the keys distinct
    and collects, for every category, the votes of the terms. *)
Lemma vote_fold terms :
  ∀ d pv,
    NoDup (map fst d) →
    ∃ d' pv',
      efold vote (d, pv) terms = Ok (d', pv')
      ∧ NoDup (map fst d')
      ∧ (∀ c, c ∈ map fst d' ↔ c ∈ map fst d ∨ c ∈ map term_category terms)
      ∧ (∀ c, dict_votes c d' = dict_votes c d ∪ votes_for c terms)
      ∧ (terms ≠ [] ∨ is_Some pv → is_Some pv').
Proof.
  induction terms as [|t terms IH]; intros d pv Hnd.
  - exists d, pv. split; [done |]. split; [done |]. split.
    + intros c. split; [by left | intros [?|?%elem_of_nil]; done].
    + split; [intros c; unfold votes_for; simpl; by rewrite (right_id_L ∅ (∪)) |].
      by intros [?|?].
  - cbn [efold]. destruct (vote_step d pv t) as (d1 & -> & Hkeys & Hvotes).
    cbn [ebind].
    assert (NoDup (map fst d1)) as Hnd1.
    { rewrite Hkeys. destruct (dict_in (term_category t) d) eqn:Hin; [done |].
      apply NoDup_app. split; [done |]. split; [| apply NoDup_singleton].
      intros c Hc ->%list_elem_of_singleton.
      apply dict_in_spec in Hc. congruence. }
    destruct (IH d1 (Some (term_polarity t)) Hnd1)
      as (d' & pv' & -> & Hnd' & Hkeys' & Hvotes' & Hpv').
    exists d', pv'. split; [done |]. split; [done |]. split; [| split].
    + intros c. rewrite Hkeys', Hkeys. cbn [map]. rewrite elem_of_cons.
      destruct (dict_in (term_category t) d) eqn:Hin.
      * apply dict_in_spec in Hin. split; [tauto |].
        intros [?|[->|?]]; tauto.
      * rewrite elem_of_app, list_elem_of_singleton. tauto.
    + intros c. rewrite Hvotes', Hvotes, votes_for_cons.
      destruct (decide (term_category t = c)); [| done].
      by rewrite (assoc_L (∪)).
    + intros _. apply Hpv'. by right.
Qed.

(** One bucket emits one pair, chosen by the reconciliation rule. *)
Lemma reconcile_step lbl vs c V :
  is_Some (polarity_var vs) →
  ∃ p vs',
    reconcile (lbl, vs) (c, V) = Ok (lbl ++ [(c, p)], vs')
    ∧ reconciled V p
    ∧ polarity_var vs' = polarity_var vs.
Proof.
  intros [pv Hpv]. unfold reconcile.
  destruct (decide (size V = 1%nat)) as [Hone|Hmany].
  - apply size_1_elem_of in Hone as [q Hq]. apply leibniz_equiv in Hq as ->.
    unfold set_pop. rewrite elements_singleton, Hpv. cbn [ebind].
    eexists _, _. split; [reflexivity |]. split; [by constructor | done].
  - assert (∀ q, V ≠ {[q]}) as Hne.
    { intros q ->. by rewrite size_singleton in Hmany. }
    destruct (bool_decide (Some "positive" ∈ V)) eqn:Hpos;
      destruct (bool_decide (Some "negative" ∈ V)) eqn:Hneg;
      destruct (bool_decide (Some "conflict" ∈ V)) eqn:Hcon;
      destruct (bool_decide (Some "neutral" ∈ V)) eqn:Hneu;
      cbn [andb orb];
      repeat match goal with
        | H : bool_decide _ = true |- _ => apply bool_decide_eq_true in H
        | H : bool_decide _ = false |- _ => apply bool_decide_eq_false in H
        end;
      eexists _, _; (split; [reflexivity |]); (split; [| done]);
      first [ apply reconciled_conflict; [done | unfold conflict_votes; tauto]
            | apply reconciled_positive;
              [done | unfold conflict_votes; tauto | unfold positive_votes; tauto]
            | apply reconciled_negative;
              [done | unfold conflict_votes; tauto | unfold positive_votes; tauto] ].
Qed.

(** The loop over the buckets: one pair per bucket, in the order of the
    buckets. *)
Lemma reconcile_fold d :
  ∀ lbl vs,
    is_Some (polarity_var vs) ∨ d = [] →
    ∃ lbl' vs',
      efold reconcile (lbl, vs) d = Ok (lbl', vs')
      ∧ map fst lbl' = map fst lbl ++ map fst d
      ∧ ∀ c p, (c, p) ∈ lbl' →
          (c, p) ∈ lbl ∨ ∃ V, (c, V) ∈ d ∧ reconciled V p.
Proof.
  induction d as [|[c0 V0] d IH]; intros lbl vs Hpv.
  - exists lbl, vs. split; [done |]. split; [by rewrite app_nil_r | by left].
  - destruct Hpv as [Hpv|?]; [| done]. cbn [efold].
    destruct (reconcile_step lbl vs c0 V0 Hpv) as (p0 & vs1 & -> & Hrec & Hpv1).
    cbn [ebind].
    destruct (IH (lbl ++ [(c0, p0)]) vs1) as (lbl' & vs' & -> & Hkeys & Hin).
    { left. by rewrite Hpv1. }
    exists lbl', vs'. split; [done |]. split.
    + rewrite Hkeys, map_app. cbn [map fst]. by rewrite <- app_assoc.
    + intros c p [Hold|(V & HV & HVp)]%Hin.
      * apply elem_of_app in Hold as [?|[= -> ->]%list_elem_of_singleton];
          [by left |].
        right. exists V0. split; [left | done].
      * right. exists V. split; [by right | done].
Qed.
End Reconciliation.

(** C1. For a sentence of the term-derived category task, the label has
    exactly one pair for each category that occurs on its aspect terms, and the
    polarity of the pair follows the reconciliation rule on the set of
    polarities voted for the category: a single vote is emitted as it is;
    otherwise [conflict] when [positive] and [negative] are both present or
    [conflict] is; otherwise [positive] when [positive] and [neutral] are
    present; otherwise [negative]. *)
Theorem reconciliation_rule (vs : Semeval2015Task12.vars)
    (sentence : AbsaSentence) (terms : list AspectTerm) :
  aspect_terms sentence = Some terms →
  ∃ (lbl : list (option string * option string)) (vs' : Semeval2015Task12.vars),
    Semeval2015Task12.sentence_label vs sentence = Ok (lbl, vs')
    ∧ NoDup (map fst lbl)
    ∧ (∀ c, c ∈ map fst lbl ↔ c ∈ map term_category terms)
    ∧ (∀ c p, (c, p) ∈ lbl → reconciled (votes_for c terms) p).
Proof.
  intros Hterms. unfold Semeval2015Task12.sentence_label.
  rewrite Hterms; cbn [iter ebind].
  destruct (vote_fold terms [] (Semeval2015Task12.polarity_var vs))
    as (d & pv & -> & Hnd & Hkeys & Hvotes & Hpv); [constructor |].
  cbn [ebind fst snd].
  destruct (reconcile_fold d []
              (Semeval2015Task12.mkVars (Semeval2015Task12.distinct_categories vs)
                 (Semeval2015Task12.distinct_polarities vs) pv))
    as (lbl & vs' & -> & Hlk & Hin).
  { cbn [Semeval2015Task12.polarity_var].
    destruct terms as [|t terms].
    - right. destruct d as [|[c V] d]; [done |].
      exfalso. specialize (Hkeys c). cbn [map fst] in Hkeys.
      destruct Hkeys as [[?%elem_of_nil|?%elem_of_nil] _]; [left | done..].
    - left. apply Hpv. by left. }
  exists lbl, vs'. cbn [map app] in Hlk.
  split; [done |]. split; [by rewrite Hlk |]. split.
  - intros c. rewrite Hlk, Hkeys. cbn [map]. rewrite elem_of_nil. tauto.
  - intros c p [?%elem_of_nil|(V & HV & Hrec)]%Hin; [done |].
    apply (dict_get_elem_of _ _ _ Hnd) in HV as Hget.
    specialize (Hvotes c). unfold dict_votes in Hvotes.
    rewrite Hget in Hvotes; cbn [dict_get] in Hvotes.
    replace (votes_for c terms) with V; [done |].
    by rewrite Hvotes, (left_id_L ∅ (∪)).
Qed.

Lemma reconciliation_rule_witness :
  ∃ (lbl : list (option string * option string)) (vs' : Semeval2015Task12.vars),
    Semeval2015Task12.sentence_label (Semeval2015Task12.mkVars ∅ ∅ None)
      mixed_sentence = Ok (lbl, vs')
    ∧ NoDup (map fst lbl)
    ∧ (∀ c, c ∈ map fst lbl ↔
            c ∈ map term_category (default [] (aspect_terms mixed_sentence)))
    ∧ (∀ c p, (c, p) ∈ lbl →
              reconciled (votes_for c (default [] (aspect_terms mixed_sentence))) p).
Proof.
  exact (reconciliation_rule (Semeval2015Task12.mkVars ∅ ∅ None) mixed_sentence
           (default [] (aspect_terms mixed_sentence)) eq_refl).
Defined.

(** * Text normalisation *)

Section Normalisation.
Implicit Types s : string.

Lemma re_sub_class_empty s : Py.re_sub_class "" s = remove_crlf s.
Proof.
  induction s as [|c s IH]; [done |]. cbn [Py.re_sub_class remove_crlf].
  rewrite IH. by destruct (Py.is_crlf c).
Qed.

Lemma re_sub_class_space s : Py.re_sub_class " " s = crlf_to_space s.
Proof.
  induction s as [|c s IH]; [done |]. cbn [Py.re_sub_class crlf_to_space].
  rewrite IH. by destruct (Py.is_crlf c).
Qed.

(** The scan with its flag and the description by look-ahead agree; inside
    a run, the scan has already written the space of the run. *)
Lemma re_sub_class_plus_from_runs s :
  Py.re_sub_class_plus_from false " " s = crlf_runs_to_space s
  ∧ ∀ c, Py.is_crlf c = true →
      String " " (Py.re_sub_class_plus_from true " " s)
      = crlf_runs_to_space (String c s).
Proof.
  induction s as [|c0 s [IHout IHin]].
  - split; [done |]. intros c Hc. cbn. by rewrite Hc.
  - split.
    + cbn [Py.re_sub_class_plus_from].
      destruct (Py.is_crlf c0) eqn:Hc0.
      * by rewrite <- (IHin c0 Hc0).
      * cbn [crlf_runs_to_space]. by rewrite Hc0, IHout.
    + intros c Hc. cbn [Py.re_sub_class_plus_from].
      destruct (Py.is_crlf c0) eqn:Hc0.
      * rewrite (IHin c0 Hc0).
        change (crlf_runs_to_space (String c (String c0 s)))
          with (if Py.is_crlf c
                then if Py.is_crlf c0 then crlf_runs_to_space (String c0 s)
                     else String " " (crlf_runs_to_space (String c0 s))
                else String c (crlf_runs_to_space (String c0 s))).
        by rewrite Hc, Hc0.
      * change (crlf_runs_to_space (String c (String c0 s)))
          with (if Py.is_crlf c
                then if Py.is_crlf c0 then crlf_runs_to_space (String c0 s)
                     else String " " (crlf_runs_to_space (String c0 s))
                else String c (crlf_runs_to_space (String c0 s))).
        rewrite Hc, Hc0. cbn [crlf_runs_to_space]. by rewrite Hc0, IHout.
Qed.

Lemma re_sub_class_plus_space s :
  Py.re_sub_class_plus " " s = crlf_runs_to_space s.
Proof. apply re_sub_class_plus_from_runs. Qed.
End Normalisation.

(** * The samples of a partition *)

Section Samples.
Context {S V : Type}.

Lemma fold_left_label {A B W : Type} (h : A → B) (F : list B * W → A → W)
    (xs : list A) :
  ∀ l0 w0,
    fst (fold_left (fun lv x => (fst lv ++ [h x], F lv x)) xs (l0, w0))
    = l0 ++ map h xs.
Proof.
  induction xs as [|x xs IH]; intros l0 w0; cbn [fold_left map].
  - by rewrite app_nil_r.
  - rewrite IH. cbn [fst]. by rewrite <- app_assoc.
Qed.

Lemma efold_samples {B : Type} (per : list S * V → B → exn + list S * V)
    (g : B → list S) :
  (∀ samples v x r, per (samples, v) x = Ok r → fst r = samples ++ g x) →
  ∀ xs samples v r,
    efold per (samples, v) xs = Ok r → fst r = samples ++ concat (map g xs).
Proof.
  intros Hper. induction xs as [|x xs IH]; intros samples v r Hr.
  - injection Hr as <-. cbn. by rewrite app_nil_r.
  - cbn [efold] in Hr.
    destruct (per (samples, v) x) as [e|[samples1 v1]] eqn:Hx; [done |].
    cbn [ebind] in Hr. apply IH in Hr as ->.
    apply Hper in Hx. cbn [fst] in Hx. subst samples1.
    cbn [map concat]. by rewrite <- app_assoc.
Qed.

(** When every sentence adds the samples [g sentence], the partition gets
    the samples of its sentences, in order. *)
Lemma for_each_sentence_samples
    (per : list S * V → AbsaSentence → exn + list S * V)
    (g : AbsaSentence → list S) :
  (∀ samples v x r, per (samples, v) x = Ok r → fst r = samples ++ g x) →
  ∀ data vars r,
    BaseDataset.for_each_sentence per vars data = Ok r →
    fst r = concat (map g (sentences_of data)).
Proof.
  intros Hper data vars r Hr. unfold BaseDataset.for_each_sentence in Hr.
  apply (efold_samples _
           (fun document =>
              concat (map g (default [] (absa_sentences document))))) in Hr.
  - rewrite Hr. cbn [app]. unfold sentences_of. clear Hr.
    induction data as [|document data IH]; [done |].
    cbn [map concat]. by rewrite map_app, concat_app, IH.
  - clear Hr. intros samples v document r' Hr'.
    destruct (absa_sentences document) as [sentences|]; [| done].
    cbn [iter ebind default] in *. by apply (efold_samples per g Hper) in Hr'.
Qed.
End Samples.

Lemma atsa_sentence_sample samples d sentence r :
  BaseDataset.atsa_sentence (samples, d) sentence = Ok r →
  fst r = samples ++ [(remove_crlf (text sentence),
                       default [] (aspect_terms sentence))].
Proof.
  unfold BaseDataset.atsa_sentence.
  destruct (aspect_terms sentence) as [terms|]; [| done].
  cbn [iter ebind default].
  pose proof (fold_left_label (fun t : AspectTerm => t)
                (fun lv t => snd lv ∪ {[term_polarity t]}) terms [] d) as Hl.
  destruct (fold_left _ terms ([], d)) as [label d'].
  intros [= <-]. cbn [fst] in *. rewrite Hl, re_sub_class_empty.
  cbn [app]. by rewrite map_id.
Qed.

Lemma acd_sentence_sample samples d sentence r :
  Semeval2016Task5Sub1.acd_sentence (samples, d) sentence = Ok r →
  fst r = samples ++ [(crlf_to_space (text sentence),
                       map category (default [] (aspect_categories sentence)))].
Proof.
  unfold Semeval2016Task5Sub1.acd_sentence.
  destruct (aspect_categories sentence) as [cats|]; [| done].
  cbn [iter ebind default].
  pose proof (fold_left_label category
                (fun lv c => snd lv ∪ {[category c]}) cats [] d) as Hl.
  destruct (fold_left _ cats ([], d)) as [label d'].
  intros [= <-]. cbn [fst] in *. by rewrite Hl, re_sub_class_space.
Qed.

Lemma concat_map_singleton {A B : Type} (f : A → B) (l : list A) :
  concat (map (fun x => [f x]) l) = map f l.
Proof. induction l as [|x l IH]; [done |]. cbn. by rewrite IH. Qed.

(** C3, as the code has it. The term task and the category-detection task
    give every sentence of a partition exactly one sample, whether its label
    is empty or not: the samples are the sentences' contents and labels in
    order, so they are as many as the sentences. *)
Theorem every_sentence_gives_a_sample (data_terms data_cats : list AbsaDocument)
    (polarities categories : label_set)
    (r_terms : list (string * list AspectTerm) * label_set)
    (r_cats : list (string * list (option string)) * label_set) :
  BaseDataset.atsa_samples polarities data_terms = Ok r_terms →
  Semeval2016Task5Sub1.acd_samples categories data_cats = Ok r_cats →
  fst r_terms =
    map (fun s => (remove_crlf (text s), default [] (aspect_terms s)))
        (sentences_of data_terms)
  ∧ length (fst r_terms) = length (sentences_of data_terms)
  ∧ fst r_cats =
      map (fun s => (crlf_to_space (text s),
                     map category (default [] (aspect_categories s))))
          (sentences_of data_cats)
  ∧ length (fst r_cats) = length (sentences_of data_cats).
Proof.
  intros Hterms Hcats.
  apply (for_each_sentence_samples _ _ atsa_sentence_sample) in Hterms.
  apply (for_each_sentence_samples _ _ acd_sentence_sample) in Hcats.
  rewrite concat_map_singleton in Hterms.
  rewrite concat_map_singleton in Hcats.
  rewrite Hterms, Hcats, !length_map. done.
Qed.

Lemma every_sentence_gives_a_sample_witness :
  [("it was fine", []);
   ("great pizza but slow service", default [] (aspect_terms pizza_sentence))] =
    map (fun s => (remove_crlf (text s), default [] (aspect_terms s)))
        (sentences_of [document_of plain_sentence; document_of pizza_sentence])
  ∧ length [("it was fine", @nil AspectTerm);
            ("great pizza but slow service",
             default [] (aspect_terms pizza_sentence))]
    = length (sentences_of [document_of plain_sentence; document_of pizza_sentence])
  ∧ [("it was fine", [])] =
      map (fun s => (crlf_to_space (text s),
                     map category (default [] (aspect_categories s))))
          (sentences_of [document_of plain_sentence])
  ∧ length [("it was fine", @nil (option string))]
    = length (sentences_of [document_of plain_sentence]).
Proof.
  exact (every_sentence_gives_a_sample
           [document_of plain_sentence; document_of pizza_sentence]
           [document_of plain_sentence] ∅ ∅
           ([("it was fine", []);
             ("great pizza but slow service",
              default [] (aspect_terms pizza_sentence))],
            {[Some "positive"; Some "negative"]})
           ([("it was fine", [])], ∅)
           eq_refl eq_refl).
Defined.

(** C3, as the specification states it, fails: a sentence without aspect terms is in the
    output of the term task, with an empty label. *)
Lemma empty_label_dropped_counterexample :
  ¬ (∀ (polarities : label_set) (data : list AbsaDocument)
       (r : list (string * list AspectTerm) * label_set),
       BaseDataset.atsa_samples polarities data = Ok r →
       ∀ sample, sample ∈ fst r → snd sample ≠ []).
Proof.
  intros Hclaim.
  apply (Hclaim ∅ [document_of plain_sentence] ([("it was fine", [])], ∅)
           eq_refl ("it was fine", [])); [left | done].
Qed.

(** C8, as the code has it. The term task removes every CR and LF of the
    text. The category task of [Semeval2014Task4Rest] turns each CR and each
    LF into one space. The term-derived category task of [Semeval2015Task12]
    turns each maximal run of CR and LF characters into one space (and gives
    no sample when the label is empty). *)
Theorem text_normalisation (sentence : AbsaSentence)
    (acc_terms : list (string * list AspectTerm) * label_set)
    (acc_rest : list Semeval2014Task4Rest.sample * (label_set * label_set))
    (acc_task12 : list Semeval2015Task12.sample * Semeval2015Task12.vars)
    r_terms r_rest r_task12 :
  BaseDataset.atsa_sentence acc_terms sentence = Ok r_terms →
  Semeval2014Task4Rest.acd_and_sc_sentence acc_rest sentence = Ok r_rest →
  Semeval2015Task12.acd_and_sc_sentence acc_task12 sentence = Ok r_task12 →
  (∃ label,
     fst r_terms = fst acc_terms ++ [(remove_crlf (text sentence), label)])
  ∧ (∃ label,
       fst r_rest = fst acc_rest ++ [(crlf_to_space (text sentence), label)])
  ∧ (fst r_task12 = fst acc_task12
     ∨ ∃ label,
         fst r_task12 =
           fst acc_task12 ++ [(crlf_runs_to_space (text sentence), label)]).
Proof.
  destruct acc_terms as [samples1 d1], acc_rest as [samples2 vars2],
    acc_task12 as [samples3 vs3].
  intros Hterms Hrest Htask12. split; [| split].
  - apply atsa_sentence_sample in Hterms. by eexists.
  - unfold Semeval2014Task4Rest.acd_and_sc_sentence in Hrest.
    destruct (iter (aspect_categories sentence)) as [e|cats]; [done |].
    cbn [ebind] in Hrest.
    destruct (fold_left _ cats ([], vars2)) as [label vars2'].
    injection Hrest as <-. rewrite re_sub_class_space. by eexists.
  - unfold Semeval2015Task12.acd_and_sc_sentence in Htask12.
    destruct (Semeval2015Task12.sentence_label vs3 sentence) as [e|[lbl vs3']];
      [done |].
    cbn [ebind fst snd] in Htask12. destruct lbl as [|pair lbl].
    + injection Htask12 as <-. by left.
    + injection Htask12 as <-. right. rewrite re_sub_class_plus_space.
      by eexists.
Qed.

Lemma text_normalisation_witness :
  (∃ label,
     [("good foodslow waiter", default [] (aspect_terms two_line_sentence))]
     = [] ++ [(remove_crlf (text two_line_sentence), label)])
  ∧ (∃ label,
       [("good food  slow waiter", [(Some "FOOD#QUALITY", Some "positive")])]
       = [] ++ [(crlf_to_space (text two_line_sentence), label)])
  ∧ ([("good food slow waiter", [(Some "FOOD#QUALITY", Some "positive")])] = []
     ∨ ∃ label,
         [("good food slow waiter", [(Some "FOOD#QUALITY", Some "positive")])]
         = [] ++ [(crlf_runs_to_space (text two_line_sentence), label)]).
Proof.
  exact (text_normalisation two_line_sentence
           ([], ∅) ([], (∅, ∅)) ([], Semeval2015Task12.mkVars ∅ ∅ None)
           ([("good foodslow waiter", default [] (aspect_terms two_line_sentence))],
            {[Some "positive"]})
           ([("good food  slow waiter", [(Some "FOOD#QUALITY", Some "positive")])],
            ({[Some "FOOD#QUALITY"]}, {[Some "positive"]}))
           ([("good food slow waiter", [(Some "FOOD#QUALITY", Some "positive")])],
            Semeval2015Task12.mkVars {[Some "FOOD#QUALITY"]} {[Some "positive"]}
              (Some (Some "positive")))
           eq_refl eq_refl eq_refl).
Defined.

(** C8, as the specification states it, fails for [Semeval2015Task12]: a CR followed by
    an LF gives one space there, not one space for each of them. *)
Lemma one_space_per_character_counterexample :
  ¬ (∀ (acc : list Semeval2015Task12.sample * Semeval2015Task12.vars)
       (sentence : AbsaSentence) r,
       Semeval2015Task12.acd_and_sc_sentence acc sentence = Ok r →
       ∀ sample, sample ∈ fst r →
         sample ∈ fst acc ∨ fst sample = crlf_to_space (text sentence)).
Proof.
  intros Hclaim.
  destruct (Hclaim ([], Semeval2015Task12.mkVars ∅ ∅ None) two_line_sentence
              ([("good food slow waiter", [(Some "FOOD#QUALITY", Some "positive")])],
               Semeval2015Task12.mkVars {[Some "FOOD#QUALITY"]} {[Some "positive"]}
                 (Some (Some "positive")))
              eq_refl
              ("good food slow waiter", [(Some "FOOD#QUALITY", Some "positive")]))
    as [Hin|Heq]; [left | by apply elem_of_nil in Hin | done].
Qed.

(** * The vocabularies *)

#[local] Instance label_le_total : Total label_le.
Proof.
  intros [x|] [y|]; simpl; auto.
  destruct (String.leb_total x y); auto.
Qed.

(** Sorting is right: when the sort does not raise, the list is sorted and has
    exactly the labels that were collected. *)
Lemma sorted_labels_vocabulary (s : label_set) (l : list (option string)) :
  sorted_labels s = Ok l → vocabulary_of s l.
Proof.
  unfold sorted_labels, vocabulary_of.
  destruct (decide (2 ≤ size s)%nat) as [Hbig|Hsmall].
  - destruct (decide (None ∈ s)); [done |]. intros [= <-].
    split; [by apply Sorted_merge_sort, _ |].
    split.
    + rewrite merge_sort_Permutation. apply NoDup_elements.
    + intros x. by rewrite merge_sort_Permutation, elem_of_elements.
  - intros [= <-]. split; [| split].
    + unfold size, set_size in Hsmall. cbn in Hsmall.
      destruct (elements s) as [|x [|y l]]; [constructor | | simpl in Hsmall; lia].
      by repeat constructor.
    + apply NoDup_elements.
    + intros x. apply elem_of_elements.
Qed.

(** What a derivation collects: when every sentence adds the labels
    [h sentence] to the set, the partition adds the labels of all its
    sentences. *)
Lemma efold_labels {S B : Type}
    (per : list S * label_set → B → exn + list S * label_set)
    (h : B → label_set) :
  (∀ samples v x r, per (samples, v) x = Ok r → snd r = v ∪ h x) →
  ∀ xs samples v r,
    efold per (samples, v) xs = Ok r → snd r = v ∪ ⋃ (map h xs).
Proof.
  intros Hper. induction xs as [|x xs IH]; intros samples v r Hr.
  - injection Hr as <-. cbn. by rewrite (right_id_L ∅ (∪)).
  - cbn [efold] in Hr.
    destruct (per (samples, v) x) as [e|[samples1 v1]] eqn:Hx; [done |].
    cbn [ebind] in Hr. apply IH in Hr as ->.
    apply Hper in Hx. cbn [snd] in Hx. subst v1.
    simpl. by rewrite (assoc_L (∪)).
Qed.

Lemma for_each_sentence_labels {S : Type}
    (per : list S * label_set → AbsaSentence → exn + list S * label_set)
    (h : AbsaSentence → label_set) :
  (∀ samples v x r, per (samples, v) x = Ok r → snd r = v ∪ h x) →
  ∀ data vars r,
    BaseDataset.for_each_sentence per vars data = Ok r →
    snd r = vars ∪ ⋃ (map h (sentences_of data)).
Proof.
  intros Hper data vars r Hr. unfold BaseDataset.for_each_sentence in Hr.
  apply (efold_labels _
           (fun document => ⋃ (map h (default [] (absa_sentences document)))))
    in Hr.
  - rewrite Hr. f_equal. unfold sentences_of. clear Hr.
    induction data as [|document data IH]; [done |].
    cbn [map concat]. rewrite map_app, union_list_app_L, <- IH. done.
  - clear Hr. intros samples v document r' Hr'.
    destruct (absa_sentences document) as [sentences|]; [| done].
    cbn [iter ebind default] in *. by apply (efold_labels per h Hper) in Hr'.
Qed.

Lemma fold_left_collect {A W : Type} (p : A → option string)
    (F : list W * label_set → A → list W) (xs : list A) :
  ∀ l0 (d0 : label_set),
    snd (fold_left (fun lv x => (F lv x, snd lv ∪ {[p x]})) xs (l0, d0))
    = d0 ∪ list_to_set (map p xs).
Proof.
  induction xs as [|x xs IH]; intros l0 d0; cbn [fold_left map list_to_set].
  - by rewrite (right_id_L ∅ (∪)).
  - rewrite IH. cbn [snd]. by rewrite (assoc_L (∪)).
Qed.

(** The polarity vocabulary of the term task is right: a partition adds
    exactly the polarities of the aspect terms of its sentences, which are
    its labels. *)
Lemma atsa_samples_polarities (data : list AbsaDocument)
    (polarities : label_set) r :
  BaseDataset.atsa_samples polarities data = Ok r →
  snd r =
    polarities
    ∪ ⋃ (map (fun s => list_to_set
                         (map term_polarity (default [] (aspect_terms s))))
             (sentences_of data)).
Proof.
  apply for_each_sentence_labels. clear.
  intros samples d sentence r. unfold BaseDataset.atsa_sentence.
  destruct (aspect_terms sentence) as [terms|]; [| done].
  cbn [iter ebind default].
  pose proof (fold_left_collect term_polarity
                (fun lv t => fst lv ++ [t]) terms [] d) as Hd.
  destruct (fold_left _ terms ([], d)) as [label d'].
  intros [= <-]. exact Hd.
Qed.

(** The category vocabulary of the term-derived category task is right: a
    sentence adds exactly the categories of its label. *)
Lemma reconcile_categories lbl vs bucket r :
  Semeval2015Task12.reconcile (lbl, vs) bucket = Ok r →
  ∃ p,
    fst r = lbl ++ [(fst bucket, p)]
    ∧ Semeval2015Task12.distinct_categories (snd r)
      = Semeval2015Task12.distinct_categories vs ∪ {[fst bucket]}.
Proof.
  destruct bucket as [c V]. unfold Semeval2015Task12.reconcile.
  destruct (decide (size V = 1%nat)) as [Hone|Hmany].
  - destruct (set_pop V) as [e|popped]; [done |].
    destruct (Semeval2015Task12.polarity_var vs) as [p|]; [| done].
    intros [= <-]. by eexists.
  - destruct (_ || _); [intros [= <-]; by eexists |].
    destruct (_ && _); intros [= <-]; by eexists.
Qed.

Lemma reconcile_fold_categories d :
  ∀ lbl0 vs0 lbl vs',
    efold Semeval2015Task12.reconcile (lbl0, vs0) d = Ok (lbl, vs') →
    ∃ new,
      lbl = lbl0 ++ new
      ∧ Semeval2015Task12.distinct_categories vs'
        = Semeval2015Task12.distinct_categories vs0 ∪ list_to_set (map fst new).
Proof.
  induction d as [|bucket d IH]; intros lbl0 vs0 lbl vs' Hr.
  - injection Hr as <- <-. exists []. rewrite app_nil_r. simpl.
    by rewrite (right_id_L ∅ (∪)).
  - cbn [efold] in Hr.
    destruct (Semeval2015Task12.reconcile (lbl0, vs0) bucket)
      as [e|[lbl1 vs1]] eqn:Hb; [done |].
    cbn [ebind] in Hr. apply IH in Hr as (new & -> & ->).
    apply reconcile_categories in Hb as (p & Hl & Hc). cbn [fst snd] in Hl, Hc.
    subst lbl1. rewrite Hc. exists ((fst bucket, p) :: new).
    split; [by rewrite <- app_assoc |].
    cbn [map list_to_set fst]. by rewrite (assoc_L (∪)).
Qed.

Lemma sentence_label_categories vs sentence lbl vs' :
  Semeval2015Task12.sentence_label vs sentence = Ok (lbl, vs') →
  Semeval2015Task12.distinct_categories vs'
  = Semeval2015Task12.distinct_categories vs ∪ list_to_set (map fst lbl).
Proof.
  unfold Semeval2015Task12.sentence_label.
  destruct (iter (aspect_terms sentence)) as [e|terms]; [done |].
  cbn [ebind].
  destruct (efold Semeval2015Task12.vote _ terms) as [e'|[d pv]]; [done |].
  cbn [ebind fst snd].
  intros (new & -> & ->)%reconcile_fold_categories. done.
Qed.

(** The scenarios of the specification: two terms of one category that vote
    [positive] and [neutral] give [positive]; [positive] and [negative] give
    [conflict]. *)
Example positive_and_neutral_reconcile_to_positive :
  (let? r :=
     Semeval2015Task12.sentence_label (Semeval2015Task12.mkVars ∅ ∅ None)
       (AbsaSentence_default "fresh fish, plain rice" None (Some [])
          (Some [mkAspectTerm "fish" (Some "positive") 6 10 (Some "FOOD#QUALITY");
                 mkAspectTerm "rice" (Some "neutral") 18 22 (Some "FOOD#QUALITY")]))
   in Ok (fst r))
  = Ok [(Some "FOOD#QUALITY", Some "positive")].
Proof. reflexivity. Qed.

Example positive_and_negative_reconcile_to_conflict :
  (let? r :=
     Semeval2015Task12.sentence_label (Semeval2015Task12.mkVars ∅ ∅ None)
       (AbsaSentence_default "fresh fish, stale rice" None (Some [])
          (Some [mkAspectTerm "fish" (Some "positive") 6 10 (Some "FOOD#QUALITY");
                 mkAspectTerm "rice" (Some "negative") 18 22 (Some "FOOD#QUALITY")]))
   in Ok (fst r))
  = Ok [(Some "FOOD#QUALITY", Some "conflict")].
Proof. reflexivity. Qed.

(** C9. On the corpus of the pizza sentence, whose two terms have different
    categories, the term-derived category task emits the polarities
    [positive], [negative] and [conflict], and returns a polarity vocabulary
    without [positive]: the single-vote branch adds the polarity of the last
    aspect term of the sentence to the vocabulary, not the polarity it
    emits. *)
Theorem polarity_vocabulary_misses_emitted_label `{Sklearn}
    (st : store Semeval2015Task12.sample) :
  fst (Semeval2015Task12.generate_acd_and_sc_data pizza_corpus 0%float st) =
    Ok (mkPartitions
          (Some [("great pizza but slow service",
                  [(Some "FOOD#QUALITY", Some "positive");
                   (Some "SERVICE#GENERAL", Some "negative")])])
          (Some [("nice pasta, cold soup, rude staff",
                  [(Some "FOOD#QUALITY", Some "conflict");
                   (Some "SERVICE#GENERAL", Some "negative")])])
          (Some [("nice pasta, cold soup, rude staff",
                  [(Some "FOOD#QUALITY", Some "conflict");
                   (Some "SERVICE#GENERAL", Some "negative")])]),
        [Some "FOOD#QUALITY"; Some "SERVICE#GENERAL"],
        [Some "conflict"; Some "negative"]).
Proof. reflexivity. Qed.

(** * Further properties of the token-placeholder adapter *)

Lemma asgcn_load_record_shape line0 line1 line2 s :
  AsgcnData.load_record line0 line1 line2 = Ok s →
  ∃ t, aspect_terms s = Some [t] ∧ aspect_categories s = None.
Proof.
  rewrite load_record_eq.
  destruct (AsgcnData.polarity_mapping _); [| done].
  intros [= <-]. by eexists.
Qed.

Lemma asgcn_load_sentences_shape lines :
  ∀ sentences,
    AsgcnData.load_sentences lines = Ok sentences →
    length lines = (3 * length sentences)%nat
    ∧ Forall (fun s => ∃ t, aspect_terms s = Some [t] ∧ aspect_categories s = None)
             sentences.
Proof.
  remember (length lines) as n eqn:Hn.
  revert lines Hn. induction (lt_wf n) as [n _ IH]. intros lines -> sentences.
  destruct lines as [|line0 [|line1 [|line2 rest]]]; try done.
  - intros [= <-]. by split.
  - cbn [AsgcnData.load_sentences].
    destruct (AsgcnData.load_record line0 line1 line2) as [e|s] eqn:Hs; [done |].
    cbn [ebind].
    destruct (AsgcnData.load_sentences rest) as [e|ss] eqn:Hss; [done |].
    intros [= <-].
    destruct (IH (length rest) ltac:(simpl; lia) rest eq_refl ss Hss) as [Hlen Hall].
    split; [simpl in *; lia |].
    constructor; [by eapply asgcn_load_record_shape | done].
Qed.

(** X1. A corpus loaded by the token-placeholder adapter has no dev
    partition; each file of [3 * n] lines gives [n] documents, and every
    document holds one sentence with one aspect term, no categories, and the
    text of that sentence. *)
Theorem asgcn_corpus_shape (train_lines test_lines : list string)
    (self : partitions AbsaDocument) :
  AsgcnData._load_data_by_filepath train_lines test_lines = Ok self →
  dev self = None
  ∧ ∃ train_data test_data,
      train self = Some train_data
      ∧ test self = Some test_data
      ∧ length train_lines = (3 * length train_data)%nat
      ∧ length test_lines = (3 * length test_data)%nat
      ∧ Forall single_term_document (train_data ++ test_data).
Proof.
  unfold AsgcnData._load_data_by_filepath, AsgcnData.load_documents.
  destruct (AsgcnData.load_sentences train_lines) as [e|tr] eqn:Htr; [done |].
  destruct (AsgcnData.load_sentences test_lines) as [e|te] eqn:Hte; [done |].
  cbn [ebind]. intros [= <-]. split; [done |].
  apply asgcn_load_sentences_shape in Htr as [Hltr Htr].
  apply asgcn_load_sentences_shape in Hte as [Hlte Hte].
  eexists _, _. split; [reflexivity |]. split; [reflexivity |].
  rewrite !length_map. split; [done |]. split; [done |].
  rewrite <- map_app. apply Forall_forall.
  intros document Hdoc. apply list_elem_of_In, in_map_iff in Hdoc as (s & <- & Hs).
  assert (s ∈ tr ++ te) as Hin by by apply list_elem_of_In.
  assert (∃ t, aspect_terms s = Some [t] ∧ aspect_categories s = None)
    as (t & Ht & Hc).
  { apply elem_of_app in Hin as [Hin|Hin];
      [eapply (proj1 (Forall_forall _ _) Htr) | eapply (proj1 (Forall_forall _ _) Hte)];
      done. }
  by exists s, t.
Qed.

Lemma asgcn_corpus_shape_witness :
  None = @None (list AbsaDocument)
  ∧ ∃ train_data test_data,
      Some [document_of (AbsaSentence_default "great pizza but slow service" None None
              (Some [mkAspectTerm "pizza" (Some "positive") 6 11 None]))]
      = Some train_data
      ∧ Some [] = Some test_data
      ∧ length ["Great $T$ but slow service"; "Pizza"; "1"] = (3 * length train_data)%nat
      ∧ length (@nil string) = (3 * length test_data)%nat
      ∧ Forall single_term_document (train_data ++ test_data).
Proof.
  exact (asgcn_corpus_shape ["Great $T$ but slow service"; "Pizza"; "1"] []
           (mkPartitions
              (Some [document_of (AbsaSentence_default "great pizza but slow service"
                       None None
                       (Some [mkAspectTerm "pizza" (Some "positive") 6 11 None]))])
              None (Some []))
           eq_refl).
Defined.

Section Lowercase.
Implicit Types (s t : string) (p : ascii → bool).

Lemma all_chars_app p s t :
  all_chars p (s +:+ t) = all_chars p s && all_chars p t.
Proof.
  induction s as [|c s IH]; [done |].
  rewrite app_cons. cbn [all_chars]. by rewrite IH, andb_assoc.
Qed.

Lemma lower_char_not_upper c : Py.is_upper (Py.lower_char c) = false.
Proof. by destruct c as [[] [] [] [] [] [] [] []]. Qed.

Lemma lower_no_upper s : no_upper (Py.lower s) = true.
Proof.
  induction s as [|c s IH]; [done |].
  unfold no_upper in *. cbn [Py.lower all_chars].
  by rewrite lower_char_not_upper, IH.
Qed.

Lemma lstrip_all_chars p s : all_chars p s = true → all_chars p (Py.lstrip s) = true.
Proof.
  induction s as [|c s IH]; [done |]. cbn [Py.lstrip].
  destruct (Py.is_space c); [| done].
  cbn [all_chars]. intros [_ ?]%andb_true_iff. by apply IH.
Qed.

Lemma rstrip_all_chars p s : all_chars p s = true → all_chars p (Py.rstrip s) = true.
Proof.
  induction s as [|c s IH]; [done |]. cbn [all_chars Py.rstrip].
  intros [Hc Hs]%andb_true_iff. specialize (IH Hs).
  destruct (Py.rstrip s) as [|c' r].
  - destruct (Py.is_space c); [done |]. cbn [all_chars]. by rewrite Hc.
  - cbn [all_chars] in *. by rewrite Hc, IH.
Qed.

Lemma strip_lower_no_upper s : no_upper (Py.strip (Py.lower s)) = true.
Proof.
  unfold Py.strip, no_upper.
  apply rstrip_all_chars, lstrip_all_chars, lower_no_upper.
Qed.

Lemma build_text_no_upper line0 line1 :
  no_upper (fst (AsgcnData.build_text line0 line1)) = true.
Proof.
  unfold AsgcnData.build_text, AsgcnData.contexts.
  destruct (Py.partition "$T$" line0) as [[l found] r].
  pose proof (strip_lower_no_upper l) as Hl.
  pose proof (strip_lower_no_upper r) as Hr.
  pose proof (strip_lower_no_upper line1) as Ha.
  unfold no_upper in *.
  destruct (AsgcnData.nonempty _); destruct (AsgcnData.nonempty _); cbn [fst];
    rewrite ?all_chars_app, ?Hl, ?Hr, ?Ha; done.
Qed.
End Lowercase.

(** X2. The sentences loaded by the token-placeholder adapter are lower-case:
    neither the text nor the term has an ASCII upper-case letter, and the span
    of the term lies inside the text. *)
Theorem asgcn_text_is_lower_case (line0 line1 line2 : string) (s : AbsaSentence) :
  AsgcnData.load_record line0 line1 line2 = Ok s →
  no_upper (text s) = true
  ∧ ∃ t,
      aspect_terms s = Some [t]
      ∧ no_upper (term t) = true
      ∧ 0 ≤ from_index t ≤ to_index t
      ∧ to_index t ≤ Py.len (text s).
Proof.
  rewrite load_record_eq.
  destruct (AsgcnData.polarity_mapping _); [| done].
  intros [= <-]. cbn [text AbsaSentence_default aspect_terms].
  split; [apply build_text_no_upper |].
  eexists. split; [reflexivity |].
  cbn [term from_index to_index].
  split; [apply strip_lower_no_upper |].
  unfold AsgcnData.build_text.
  destruct (AsgcnData.contexts line0) as [text_left text_right].
  unfold Py.len.
  destruct (AsgcnData.nonempty text_left); destruct (AsgcnData.nonempty text_right);
    cbn [fst snd]; rewrite ?length_app; simpl; lia.
Qed.

Lemma asgcn_text_is_lower_case_witness :
  no_upper "great pizza but slow service" = true
  ∧ ∃ t,
      Some [mkAspectTerm "pizza" (Some "positive") 6 11 None] = Some [t]
      ∧ no_upper (term t) = true
      ∧ 0 ≤ from_index t ≤ to_index t
      ∧ to_index t ≤ Py.len "great pizza but slow service".
Proof.
  exact (asgcn_text_is_lower_case "Great $T$ but slow service" "Pizza" "1"
           (AbsaSentence_default "great pizza but slow service" None None
              (Some [mkAspectTerm "pizza" (Some "positive") 6 11 None]))
           eq_refl).
Defined.
(** * Further properties of the split generator *)

(** X3. Calling [generate_dev_data] a second time changes nothing: the call
    followed by another call with the same arguments has the outcome and the
    final store of the single call. *)
Theorem generate_dev_data_idempotent `{Sklearn} {S : Type} (st : store S)
    (dev_size : float) (random_state : Z) :
  (let! _ := BaseDataset.generate_dev_data dev_size random_state in
   BaseDataset.generate_dev_data dev_size random_state) st
  = BaseDataset.generate_dev_data dev_size random_state st.
Proof.
  unfold mbind at 1.
  destruct (dev (result st)) as [samples|] eqn:Hdev.
  - rewrite (generate_dev_data_present _ _ _ samples) by done.
    by rewrite (generate_dev_data_present _ _ _ samples).
  - destruct (nonzero dev_size) eqn:Hnz.
    + rewrite generate_dev_data_split by done.
      destruct (train (result st)) as [l|]; [| done].
      destruct (fst (shuffle_split S _ _ l)) as [e|[tr dv]]; [done |].
      by rewrite (generate_dev_data_present _ _ _ dv).
    + rewrite generate_dev_data_alias by done.
      destruct (test (result st)) as [samples|] eqn:Htest.
      * by rewrite (generate_dev_data_present _ _ _ samples).
      * by rewrite generate_dev_data_alias.
Qed.

(** * The loop over the partitions *)

Section ForEachPartition.
Context `{Sklearn} {S V : Type}.
Implicit Types (per : V → list AbsaDocument → exn + list S * V)
  (self : partitions AbsaDocument) (st : store S).

(** The loop in the store and the loop as a function agree; the generator is
    not touched. *)
Lemma for_each_partition_derive per self vars st :
  fst (BaseDataset.for_each_partition per self vars st)
  = (let? r := derive per self (result st, vars) in Ok (snd r))
  ∧ np_random (snd (BaseDataset.for_each_partition per self vars st))
    = np_random st
  ∧ ∀ r, derive per self (result st, vars) = Ok r →
         result (snd (BaseDataset.for_each_partition per self vars st)) = fst r.
Proof.
  unfold BaseDataset.for_each_partition, BaseDataset.get_data_type_and_data_dict,
    derive, derive_partition.
  cbn [mfold fst snd]. unfold mbind, mret, lift, write.
  destruct st as [r0 g]. cbn [result np_random].
  destruct (train self) as [tr|]; [destruct (per vars tr) as [e|[s1 v1]] |];
    cbn [ebind fst snd result np_random]; [by repeat split | |];
    (destruct (dev self) as [dv|];
     [destruct (per _ dv) as [e|[s2 v2]] |];
     cbn [ebind fst snd result np_random]; [by repeat split | |]);
    (destruct (test self) as [te|];
     [destruct (per _ te) as [e|[s3 v3]] |];
     cbn [ebind fst snd result np_random]; repeat split; try done;
     by intros ? [= <-]).
Qed.
End ForEachPartition.

Section Derive.
Context {S V : Type}.
Implicit Types (per : V → list AbsaDocument → exn + list S * V)
  (self : partitions AbsaDocument).

(** What the loop stores: the samples of the partitions that are present;
    the entries of the others are left as they were. *)
Lemma derive_entries per (F : list AbsaDocument → list S) self acc r :
  (∀ v data x, per v data = Ok x → fst x = F data) →
  derive per self acc = Ok r →
  ∀ k, getitem (fst r) k =
         match getitem self k with
         | Some data => Some (F data)
         | None => getitem (fst acc) k
         end.
Proof.
  intros Hper. unfold derive, derive_partition. destruct acc as [r0 v0]. cbn [fst snd].
  destruct (train self) as [tr|] eqn:Htr;
    [destruct (per v0 tr) as [e|[s1 v1]] eqn:H1; [done |];
     apply Hper in H1; cbn [fst] in H1; subst s1 |];
    cbn [ebind fst snd];
    (destruct (dev self) as [dv|] eqn:Hdv;
     [destruct (per _ dv) as [e|[s2 v2]] eqn:H2; [done |];
      apply Hper in H2; cbn [fst] in H2; subst s2 |];
     cbn [ebind fst snd]);
    (destruct (test self) as [te|] eqn:Hte;
     [destruct (per _ te) as [e|[s3 v3]] eqn:H3; [done |];
      apply Hper in H3; cbn [fst] in H3; subst s3 |];
     cbn [ebind fst snd]);
    intros [= <-] [| |]; cbn [getitem setitem fst train dev test];
    by rewrite ?Htr, ?Hdv, ?Hte.
Qed.

(** A loop whose body raises only [e] raises only [e]. *)
Lemma derive_raises per self acc (e e' : exn) :
  (∀ v data e'', per v data = Raise e'' → e'' = e) →
  derive per self acc = Raise e' → e' = e.
Proof.
  intros Hper. unfold derive, derive_partition. destruct acc as [r0 v0]. cbn [fst snd].
  destruct (train self) as [tr|];
    [destruct (per v0 tr) as [e1|[s1 v1]] eqn:H1;
     [apply Hper in H1; by intros [= <-] |] |];
    cbn [ebind fst snd];
    (destruct (dev self) as [dv|];
     [destruct (per _ dv) as [e2|[s2 v2]] eqn:H2;
      [apply Hper in H2; by intros [= <-] |] |];
     cbn [ebind fst snd]);
    (destruct (test self) as [te|];
     [destruct (per _ te) as [e3|[s3 v3]] eqn:H3;
      [apply Hper in H3; by intros [= <-] |] |];
     cbn [ebind fst snd]); done.
Qed.

(** A partition on which the body raises makes the loop raise. *)
Lemma derive_fails per self acc k data :
  getitem self k = Some data →
  (∀ v, ∃ e, per v data = Raise e) →
  ∃ e, derive per self acc = Raise e.
Proof.
  intros Hk Hfail. unfold derive, derive_partition. destruct acc as [r0 v0]. cbn [fst snd].
  destruct k; cbn [getitem] in Hk; rewrite Hk.
  - destruct (Hfail v0) as [e ->]. by eexists.
  - destruct (train self) as [tr|];
      [destruct (per v0 tr) as [e1|[s1 v1]]; [by eexists |] |];
      cbn [ebind fst snd];
      match goal with |- context [per ?v data] => destruct (Hfail v) as [e ->] end;
      by eexists.
  - destruct (train self) as [tr|];
      [destruct (per v0 tr) as [e1|[s1 v1]]; [by eexists |] |];
      cbn [ebind fst snd];
      (destruct (dev self) as [dv|];
       [destruct (per _ dv) as [e2|[s2 v2]]; [by eexists |] |];
       cbn [ebind fst snd]);
      match goal with |- context [per ?v data] => destruct (Hfail v) as [e ->] end;
      by eexists.
Qed.
End Derive.

(** What the loop collects, when the body adds the labels [G data] of a
    partition to a set. *)
Lemma derive_labels {S : Type}
    (per : label_set → list AbsaDocument → exn + list S * label_set)
    (G : list AbsaDocument → label_set) self acc r :
  (∀ v data x, per v data = Ok x → snd x = v ∪ G data) →
  derive per self acc = Ok r →
  snd r = snd acc ∪ default ∅ (G <$> train self) ∪ default ∅ (G <$> dev self)
          ∪ default ∅ (G <$> test self).
Proof.
  intros Hper. unfold derive, derive_partition. destruct acc as [r0 v0]. cbn [fst snd].
  destruct (train self) as [tr|];
    [destruct (per v0 tr) as [e|[s1 v1]] eqn:H1; [done |];
     apply Hper in H1; cbn [snd] in H1; subst v1 |];
    cbn [ebind fst snd];
    (destruct (dev self) as [dv|];
     [destruct (per _ dv) as [e|[s2 v2]] eqn:H2; [done |];
      apply Hper in H2; cbn [snd] in H2; subst v2 |];
     cbn [ebind fst snd]);
    (destruct (test self) as [te|];
     [destruct (per _ te) as [e|[s3 v3]] eqn:H3; [done |];
      apply Hper in H3; cbn [snd] in H3; subst v3 |];
     cbn [ebind fst snd]);
    intros [= <-]; simpl; by rewrite ?(right_id_L ∅ (∪)).
Qed.
(** * The label of the term-derived category task, in closed form *)

Section LabelOf.
Implicit Types (d : Semeval2015Task12.buckets) (c p : option string)
  (V : label_set) (terms : list AspectTerm).

(** The buckets are in the order in which the categories first occur. *)
Lemma vote_fold_order terms :
  ∀ d pv d' pv',
    efold Semeval2015Task12.vote (d, pv) terms = Ok (d', pv') →
    map fst d' =
      map fst d
      ++ filter (fun c => c ∉ map fst d)
                (first_occurrences (map term_category terms)).
Proof.
  induction terms as [|t terms IH]; intros d pv d' pv' Hfold.
  - injection Hfold as <- <-. cbn. by rewrite app_nil_r.
  - cbn [efold] in Hfold.
    destruct (vote_step d pv t) as (d1 & Hstep & Hkeys & _).
    rewrite Hstep in Hfold. cbn [ebind] in Hfold.
    apply IH in Hfold. rewrite Hfold, Hkeys. clear Hfold Hstep Hkeys.
    cbn [map first_occurrences]. rewrite filter_cons.
    set (c := term_category t).
    set (Y := first_occurrences (map term_category terms)).
    destruct (dict_in c d) eqn:Hin.
    + apply dict_in_spec in Hin.
      destruct (decide (c ∉ map fst d)) as [?|_]; [done |].
      f_equal. rewrite list_filter_filter. apply list_filter_iff.
      intros y. split; [| tauto]. intros Hy. split; [done |].
      by intros ->.
    + assert (c ∉ map fst d) as Hnin.
      { intros Hc%dict_in_spec. congruence. }
      destruct (decide (c ∉ map fst d)) as [_|?]; [| done].
      rewrite <- app_assoc. cbn [app]. do 2 f_equal.
      rewrite list_filter_filter. apply list_filter_iff.
      intros y. rewrite elem_of_app, list_elem_of_singleton. tauto.
Qed.

(** The rule chooses one polarity. *)
Lemma reconciled_vote_result V p : reconciled V p → p = vote_result V.
Proof.
  assert (∀ q, elements V = [q] → V = {[q]}) as Hsingle.
  { intros q Hq. apply set_eq. intros x.
    by rewrite <- elem_of_elements, Hq, list_elem_of_singleton, elem_of_singleton. }
  unfold vote_result. intros [q -> | Hne Hc | Hne Hc Hp | Hne Hc Hp].
  - by rewrite elements_singleton.
  - destruct (elements V) as [|q [|q' l]] eqn:Hel;
      [| by destruct (Hne q (Hsingle q eq_refl)) |];
      by destruct (decide (conflict_votes V)).
  - destruct (elements V) as [|q [|q' l]] eqn:Hel;
      [| by destruct (Hne q (Hsingle q eq_refl)) |];
      destruct (decide (conflict_votes V)); try done;
      by destruct (decide (positive_votes V)).
  - destruct (elements V) as [|q [|q' l]] eqn:Hel;
      [| by destruct (Hne q (Hsingle q eq_refl)) |];
      destruct (decide (conflict_votes V)); try done;
      by destruct (decide (positive_votes V)).
Qed.

Lemma pairs_of_keys {A B : Type} (f : A → B) (l : list (A * B)) :
  (∀ a b, (a, b) ∈ l → b = f a) → l = map (fun a => (a, f a)) (map fst l).
Proof.
  induction l as [|[a b] l IH]; intros Hl; [done |].
  cbn [map fst]. rewrite <- IH.
  - by rewrite (Hl a b) by left.
  - intros a' b' Hin. apply Hl. by right.
Qed.

(** The label of a sentence whose aspect terms are a list: the derivation
    never raises, and the label is [label_of] the terms. *)
Lemma sentence_label_eq vs sentence terms :
  aspect_terms sentence = Some terms →
  ∃ vs', Semeval2015Task12.sentence_label vs sentence = Ok (label_of terms, vs').
Proof.
  intros Hterms. unfold Semeval2015Task12.sentence_label.
  rewrite Hterms; cbn [iter ebind].
  destruct (vote_fold terms [] (Semeval2015Task12.polarity_var vs))
    as (d & pv & Hfold & Hnd & Hkeys & Hvotes & Hpv); [constructor |].
  rewrite Hfold. cbn [ebind fst snd].
  apply vote_fold_order in Hfold as Horder. cbn [map app] in Horder.
  destruct (reconcile_fold d []
              (Semeval2015Task12.mkVars (Semeval2015Task12.distinct_categories vs)
                 (Semeval2015Task12.distinct_polarities vs) pv))
    as (lbl & vs' & -> & Hlk & Hin).
  { cbn [Semeval2015Task12.polarity_var].
    destruct terms as [|t terms].
    - right. destruct d as [|[c V] d]; [done |].
      exfalso. specialize (Hkeys c). cbn [map fst] in Hkeys.
      destruct Hkeys as [[?%elem_of_nil|?%elem_of_nil] _]; [left | done..].
    - left. apply Hpv. by left. }
  exists vs'. do 2 f_equal. cbn [map app] in Hlk.
  rewrite (pairs_of_keys (fun c => vote_result (votes_for c terms)) lbl).
  - unfold label_of. rewrite Hlk, Horder. f_equal. clear.
    induction (first_occurrences _) as [|x l IHl]; [done |].
    rewrite filter_cons. destruct (decide _) as [_|Hx]; [by f_equal |].
    destruct Hx. by intros ?%elem_of_nil.
  - intros c p [?%elem_of_nil|(V & HV & Hrec)]%Hin; [done |].
    apply (dict_get_elem_of _ _ _ Hnd) in HV as Hget.
    specialize (Hvotes c). unfold dict_votes in Hvotes.
    rewrite Hget in Hvotes; cbn [dict_get] in Hvotes.
    rewrite (left_id_L ∅ (∪)) in Hvotes. subst V.
    by apply reconciled_vote_result.
Qed.

Lemma first_occurrences_elem_of {A : Type} `{EqDecision A} (l : list A) (x : A) :
  x ∈ first_occurrences l ↔ x ∈ l.
Proof.
  induction l as [|y l IH]; [done |]. cbn [first_occurrences].
  rewrite !elem_of_cons, list_elem_of_filter, IH.
  destruct (decide (x = y)); tauto.
Qed.

Lemma first_occurrences_NoDup {A : Type} `{EqDecision A} (l : list A) :
  NoDup (first_occurrences l).
Proof.
  induction l as [|y l IH]; [constructor |]. cbn [first_occurrences].
  constructor; [| by apply NoDup_filter].
  rewrite list_elem_of_filter. tauto.
Qed.

Lemma votes_for_Permutation c terms terms' :
  terms ≡ₚ terms' → votes_for c terms = votes_for c terms'.
Proof.
  intros Hperm. unfold votes_for. apply set_eq. intros p.
  rewrite !elem_of_list_to_set.
  change (map term_polarity ?l) with (term_polarity <$> l).
  by rewrite Hperm.
Qed.

Lemma elem_of_label_of c p terms :
  (c, p) ∈ label_of terms ↔
  c ∈ map term_category terms ∧ p = vote_result (votes_for c terms).
Proof.
  unfold label_of.
  change (map ?f (first_occurrences ?l)) with (f <$> first_occurrences l).
  rewrite list_elem_of_fmap. split.
  - intros (c' & [= -> ->] & Hin).
    split; [| done]. exact (proj1 (first_occurrences_elem_of _ _) Hin).
  - intros [Hin ->]. exists c. split; [done |].
    exact (proj2 (first_occurrences_elem_of _ _) Hin).
Qed.

Lemma label_of_NoDup terms : NoDup (label_of terms).
Proof.
  unfold label_of.
  change (map ?f (first_occurrences ?l)) with (f <$> first_occurrences l).
  apply NoDup_fmap_2; [by intros x y [= ->] | apply first_occurrences_NoDup].
Qed.

Lemma label_of_Permutation terms terms' :
  terms ≡ₚ terms' → label_of terms ≡ₚ label_of terms'.
Proof.
  intros Hperm. apply NoDup_Permutation; try apply label_of_NoDup.
  intros [c p]. rewrite !elem_of_label_of.
  rewrite (votes_for_Permutation c _ _ Hperm).
  change (map term_category ?l) with (term_category <$> l).
  by rewrite Hperm.
Qed.
End LabelOf.

(** X4. The label of a sentence of the term-derived category task lists the
    categories of its aspect terms in the order of their first occurrence,
    each once, with the polarity that the reconciliation rule gives to the
    votes of the category; the derivation of the label never raises. *)
Theorem task12_label_in_order_of_first_occurrence
    (vs : Semeval2015Task12.vars) (sentence : AbsaSentence)
    (terms : list AspectTerm) :
  aspect_terms sentence = Some terms →
  ∃ vs' : Semeval2015Task12.vars,
    Semeval2015Task12.sentence_label vs sentence =
      Ok (map (fun c => (c, vote_result (votes_for c terms)))
              (first_occurrences (map term_category terms)), vs').
Proof. apply sentence_label_eq. Qed.

Lemma task12_label_in_order_of_first_occurrence_witness :
  ∃ vs' : Semeval2015Task12.vars,
    Semeval2015Task12.sentence_label (Semeval2015Task12.mkVars ∅ ∅ None)
      mixed_sentence =
      Ok (map (fun c => (c, vote_result
                              (votes_for c (default [] (aspect_terms mixed_sentence)))))
              (first_occurrences
                 (map term_category (default [] (aspect_terms mixed_sentence)))),
          vs').
Proof.
  exact (task12_label_in_order_of_first_occurrence
           (Semeval2015Task12.mkVars ∅ ∅ None) mixed_sentence
           (default [] (aspect_terms mixed_sentence)) eq_refl).
Defined.

(** X5. The label does not depend on the order of the aspect terms, up to the
    order of its pairs: two sentences whose aspect terms are permutations of
    each other get labels that are permutations of each other. *)
Theorem task12_label_order_independent
    (vs1 vs2 : Semeval2015Task12.vars) (s1 s2 : AbsaSentence)
    (terms1 terms2 : list AspectTerm) :
  aspect_terms s1 = Some terms1 →
  aspect_terms s2 = Some terms2 →
  terms1 ≡ₚ terms2 →
  ∃ lbl1 lbl2 vs1' vs2',
    Semeval2015Task12.sentence_label vs1 s1 = Ok (lbl1, vs1')
    ∧ Semeval2015Task12.sentence_label vs2 s2 = Ok (lbl2, vs2')
    ∧ lbl1 ≡ₚ lbl2.
Proof.
  intros H1 H2 Hperm.
  destruct (sentence_label_eq vs1 s1 terms1 H1) as [vs1' Hl1].
  destruct (sentence_label_eq vs2 s2 terms2 H2) as [vs2' Hl2].
  eexists _, _, _, _. split; [exact Hl1 |]. split; [exact Hl2 |].
  by apply label_of_Permutation.
Qed.

Lemma task12_label_order_independent_witness :
  ∃ lbl1 lbl2 vs1' vs2',
    Semeval2015Task12.sentence_label (Semeval2015Task12.mkVars ∅ ∅ None)
      pizza_sentence = Ok (lbl1, vs1')
    ∧ Semeval2015Task12.sentence_label (Semeval2015Task12.mkVars ∅ ∅ None)
        (AbsaSentence_default "great pizza but slow service" None (Some [])
           (Some (rev (default [] (aspect_terms pizza_sentence)))))
      = Ok (lbl2, vs2')
    ∧ lbl1 ≡ₚ lbl2.
Proof.
  exact (task12_label_order_independent
           (Semeval2015Task12.mkVars ∅ ∅ None) (Semeval2015Task12.mkVars ∅ ∅ None)
           pizza_sentence
           (AbsaSentence_default "great pizza but slow service" None (Some [])
              (Some (rev (default [] (aspect_terms pizza_sentence)))))
           (default [] (aspect_terms pizza_sentence))
           (rev (default [] (aspect_terms pizza_sentence)))
           eq_refl eq_refl (Permutation_rev _)).
Defined.
(** * The term task as a whole *)

Lemma atsa_samples_entries (polarities : label_set) data x :
  BaseDataset.atsa_samples polarities data = Ok x →
  fst x = map atsa_sample_of (sentences_of data).
Proof.
  intros Hx.
  apply (for_each_sentence_samples _ _ atsa_sentence_sample) in Hx.
  by rewrite concat_map_singleton in Hx.
Qed.

(** The run of [generate_atsa_data]: when the function returns, the loop
    over the partitions has returned, and without a split the record is the
    one the loop has filled. *)
Lemma generate_atsa_data_derive `{Sklearn} self test_size
    (st stf : store (string * list AspectTerm)) out :
  BaseDataset.generate_atsa_data self test_size st = (Ok out, stf) →
  ∃ acc,
    derive BaseDataset.atsa_samples self (mkPartitions None None None, ∅) = Ok acc
    ∧ sorted_labels (snd acc) = Ok (snd out)
    ∧ (is_Some (dev self) ∨ test_size = None →
       fst out = fst acc ∧ np_random stf = np_random st).
Proof.
  unfold BaseDataset.generate_atsa_data.
  unfold mbind at 1. unfold BaseDataset.new_result at 1.
  set (st0 := mkStore (mkPartitions None None None) (np_random st)).
  unfold mbind at 1.
  destruct (for_each_partition_derive BaseDataset.atsa_samples self ∅ st0)
    as (Hfst & Hrng & Hres).
  destruct (BaseDataset.for_each_partition _ self ∅ st0) as [[e|v] st1];
    [done |].
  cbn [fst snd] in Hfst, Hrng, Hres.
  destruct (derive BaseDataset.atsa_samples self (result st0, ∅))
    as [e|acc] eqn:Hacc; [done |].
  cbn [ebind] in Hfst. injection Hfst as ->.
  specialize (Hres acc eq_refl).
  pose proof (derive_entries _ _ self _ _ atsa_samples_entries Hacc Dev) as Hdev.
  cbn [getitem result st0 fst dev] in Hdev.
  unfold mbind at 1. unfold read at 1. cbn [getitem]. rewrite Hres.
  intros Hout. exists acc. split; [done |].
  destruct (dev (fst acc)) as [dv|] eqn:Hd.
  - unfold mbind, mret, lift, BaseDataset.get_result in Hout.
    destruct (sorted_labels (snd acc)) as [e|vocab]; [done |].
    injection Hout as <- <-. cbn [fst snd].
    split; [done |]. intros _. by rewrite Hres.
  - destruct test_size as [ts|].
    + split.
      * unfold mbind, mret, lift, BaseDataset.get_result, read, write in Hout.
        destruct (train_test_split _ _ _ _) as [[e|split] st2]; [done |].
        destruct (sorted_labels (snd acc)) as [e|vocab]; [done |].
        by injection Hout as <- <-.
      * intros [[dv Hsome]|?]; [| done].
        rewrite Hsome in Hdev. done.
    + unfold mbind, mret, lift, BaseDataset.get_result in Hout.
      destruct (sorted_labels (snd acc)) as [e|vocab]; [done |].
      injection Hout as <- <-. cbn [fst snd].
      split; [done |]. intros _. by rewrite Hres.
Qed.

(** X6. When the corpus has a dev partition, or no split is asked for
    ([test_size=None]), [generate_atsa_data] returns, for every partition that
    is present, one sample per sentence in order (the text without CR and LF,
    and the aspect terms), leaves the absent partitions absent, returns the
    sorted list of exactly the polarities of the aspect terms, and does not
    touch the process-wide generator. *)
Theorem generate_atsa_data_without_split `{Sklearn}
    (self : partitions AbsaDocument) (test_size : option float)
    (st : store (string * list AspectTerm))
    (r : partitions (string * list AspectTerm)) (vocabulary : list (option string)) :
  fst (BaseDataset.generate_atsa_data self test_size st) = Ok (r, vocabulary) →
  is_Some (dev self) ∨ test_size = None →
  (∀ k, getitem r k =
          (fun data => map atsa_sample_of (sentences_of data)) <$> getitem self k)
  ∧ vocabulary_of (polarities_of (train self) ∪ polarities_of (dev self)
                   ∪ polarities_of (test self)) vocabulary
  ∧ np_random (snd (BaseDataset.generate_atsa_data self test_size st))
    = np_random st.
Proof.
  intros Hout Hcase.
  destruct (BaseDataset.generate_atsa_data self test_size st) as [o stf] eqn:Hrun.
  cbn [fst snd] in *. subst o.
  apply generate_atsa_data_derive in Hrun as (acc & Hacc & Hsort & Hrest).
  destruct (Hrest Hcase) as [Hr Hrng]. cbn [fst snd] in *. subst r.
  split; [| split; [| done]].
  - intros k.
    rewrite (derive_entries _ _ self _ _ atsa_samples_entries Hacc k).
    cbn [fst].
    destruct k; cbn [getitem];
      [destruct (train self) | destruct (dev self) | destruct (test self)]; done.
  - apply sorted_labels_vocabulary in Hsort.
    rewrite (derive_labels _ (fun data => polarities_of (Some data)) self _ _
               (fun v data x => atsa_samples_polarities data v x) Hacc) in Hsort.
    cbn [snd] in Hsort. rewrite (left_id_L ∅ (∪)) in Hsort.
    by destruct (train self), (dev self), (test self).
Qed.

Lemma generate_atsa_data_without_split_witness :
  (∀ k,
     getitem (mkPartitions
                (Some [atsa_sample_of pizza_sentence]) None
                (Some [atsa_sample_of mixed_sentence])) k =
       (fun data => map atsa_sample_of (sentences_of data)) <$> getitem pizza_corpus k)
  ∧ vocabulary_of (polarities_of (train pizza_corpus) ∪ polarities_of (dev pizza_corpus)
                   ∪ polarities_of (test pizza_corpus))
                  [Some "negative"; Some "positive"]
  ∧ np_random (snd (BaseDataset.generate_atsa_data pizza_corpus None
                      (@mkStore rotating_sklearn _ (mkPartitions None None None) 5)))
    = 5.
Proof.
  apply (@generate_atsa_data_without_split rotating_sklearn pizza_corpus None
           (@mkStore rotating_sklearn _ (mkPartitions None None None) 5)
           (mkPartitions (Some [atsa_sample_of pizza_sentence]) None
                         (Some [atsa_sample_of mixed_sentence]))
           [Some "negative"; Some "positive"]).
  - vm_compute. reflexivity.
  - right. reflexivity.
Defined.
(** * Which corpora the sentence-level derivations can walk *)

(** A loop whose body returns on the elements that satisfy [P] and raises [e]
    on the others returns when all elements satisfy [P], and raises [e]
    otherwise. *)
Lemma efold_all_or_raise {A B : Type} (body : A → B → exn + A) (P : B → Prop)
    (e : exn) :
  (∀ acc x, P x → ∃ r, body acc x = Ok r) →
  (∀ acc x, ¬ P x → body acc x = Raise e) →
  (∀ x, P x ∨ ¬ P x) →
  ∀ xs acc,
    (Forall P xs ∧ ∃ r, efold body acc xs = Ok r)
    ∨ (¬ Forall P xs ∧ efold body acc xs = Raise e).
Proof.
  intros Hok Hraise Hdec. induction xs as [|x xs IH]; intros acc.
  - left. split; [constructor | by eexists].
  - cbn [efold]. destruct (Hdec x) as [Hx|Hx].
    + destruct (Hok acc x Hx) as [r ->]. cbn [ebind].
      destruct (IH r) as [[Hall Hr]|[Hnot Hr]].
      * left. split; [by constructor | done].
      * right. split; [| done]. intros Hall. apply Hnot.
        by apply Forall_cons in Hall as [_ ?].
    + right. rewrite (Hraise acc x Hx). split; [| done].
      intros Hall. apply Hx. by apply Forall_cons in Hall as [? _].
Qed.

Lemma atsa_sentence_returns acc s :
  is_Some (aspect_terms s) → ∃ r, BaseDataset.atsa_sentence acc s = Ok r.
Proof.
  intros [terms Hterms]. unfold BaseDataset.atsa_sentence.
  destruct acc as [samples d]. rewrite Hterms. cbn [iter ebind].
  destruct (fold_left _ terms ([], d)). by eexists.
Qed.

Lemma atsa_sentence_raises acc s :
  ¬ is_Some (aspect_terms s) → BaseDataset.atsa_sentence acc s = Raise TypeError.
Proof.
  intros Hnone. unfold BaseDataset.atsa_sentence. destruct acc as [samples d].
  destruct (aspect_terms s); [by destruct Hnone | done].
Qed.

Lemma is_Some_or_not {A : Type} (o : option A) : is_Some o ∨ ¬ is_Some o.
Proof. destruct o; [left; by eexists | right; by intros [? ?]]. Qed.

Lemma Forall_or_not {A : Type} (P : A → Prop) (l : list A) :
  (∀ x, P x ∨ ¬ P x) → Forall P l ∨ ¬ Forall P l.
Proof.
  intros Hdec. induction l as [|x l [IH|IH]].
  - left. constructor.
  - destruct (Hdec x) as [Hx|Hx]; [left; by constructor |].
    right. intros Hall. apply Hx. by apply Forall_cons in Hall as [? _].
  - right. intros Hall. apply IH. by apply Forall_cons in Hall as [_ ?].
Qed.

(** The loop over the sentences of one document. *)
Lemma atsa_sentences_outcome acc sentences :
  (Forall (fun s => is_Some (aspect_terms s)) sentences
   ∧ ∃ r, efold BaseDataset.atsa_sentence acc sentences = Ok r)
  ∨ (¬ Forall (fun s => is_Some (aspect_terms s)) sentences
     ∧ efold BaseDataset.atsa_sentence acc sentences = Raise TypeError).
Proof.
  apply efold_all_or_raise.
  - apply atsa_sentence_returns.
  - apply atsa_sentence_raises.
  - intros s. apply is_Some_or_not.
Qed.

Lemma atsa_samples_outcome (polarities : label_set) (data : list AbsaDocument) :
  (has_terms data ∧ ∃ r, BaseDataset.atsa_samples polarities data = Ok r)
  ∨ (¬ has_terms data
     ∧ BaseDataset.atsa_samples polarities data = Raise TypeError).
Proof.
  unfold BaseDataset.atsa_samples, BaseDataset.for_each_sentence, has_terms.
  apply efold_all_or_raise.
  - intros acc document (sentences & -> & Hall). cbn [iter ebind].
    destruct (atsa_sentences_outcome acc sentences) as [[_ Hr]|[Hnot _]];
      [done | by destruct Hnot].
  - intros acc document Hdoc.
    destruct (absa_sentences document) as [sentences|] eqn:Hs; [| done].
    cbn [iter ebind].
    destruct (atsa_sentences_outcome acc sentences) as [[Hall _]|[_ Hr]];
      [| done].
    destruct Hdoc. by exists sentences.
  - intros document.
    destruct (absa_sentences document) as [sentences|] eqn:Hs.
    + destruct (Forall_or_not (fun s => is_Some (aspect_terms s)) sentences
                  (fun s => is_Some_or_not _)) as [Hall|Hnot].
      * left. by exists sentences.
      * right. intros (ss & [= <-] & Hall). done.
    + right. by intros (ss & ? & _).
Qed.

(** X7. The samples of the term task exist exactly for the partitions in
    which every document has a list of sentences and every sentence a list of
    aspect terms; on any other partition the derivation raises [TypeError]
    (the loop over a [None]). *)
Theorem atsa_samples_need_term_lists (polarities : label_set)
    (data : list AbsaDocument) :
  (has_terms data ∧ ∃ r, BaseDataset.atsa_samples polarities data = Ok r)
  ∨ (¬ has_terms data
     ∧ BaseDataset.atsa_samples polarities data = Raise TypeError).
Proof. apply atsa_samples_outcome. Qed.
Lemma efold_raises {A B : Type} (body : A → B → exn + A) (e : exn) :
  (∀ acc x e', body acc x = Raise e' → e' = e) →
  ∀ xs acc e', efold body acc xs = Raise e' → e' = e.
Proof.
  intros Hbody. induction xs as [|x xs IH]; intros acc e'; [done |].
  cbn [efold]. destruct (body acc x) as [e1|acc1] eqn:Hx.
  - intros [= <-]. by eapply Hbody.
  - cbn [ebind]. apply IH.
Qed.

Lemma for_each_sentence_raises {S V : Type}
    (per : list S * V → AbsaSentence → exn + list S * V) :
  (∀ acc s e', per acc s = Raise e' → e' = TypeError) →
  ∀ vars data e', BaseDataset.for_each_sentence per vars data = Raise e' →
                  e' = TypeError.
Proof.
  intros Hper vars data e'. unfold BaseDataset.for_each_sentence.
  apply efold_raises. intros acc document e1.
  destruct (absa_sentences document) as [sentences|]; cbn [iter ebind].
  - by apply efold_raises.
  - by intros [= <-].
Qed.

Lemma atsa_raises_without_term_lists `{Sklearn}
    (self : partitions AbsaDocument) (test_size : option float)
    (st : store (string * list AspectTerm)) (k : data_type)
    (data : list AbsaDocument) :
  getitem self k = Some data →
  ¬ has_terms data →
  fst (BaseDataset.generate_atsa_data self test_size st) = Raise TypeError.
Proof.
  intros Hk Hdata.
  unfold BaseDataset.generate_atsa_data.
  unfold mbind at 1. unfold BaseDataset.new_result at 1.
  set (st0 := mkStore (mkPartitions None None None) (np_random st)).
  unfold mbind at 1.
  destruct (for_each_partition_derive BaseDataset.atsa_samples self ∅ st0)
    as (Hfst & _ & _).
  destruct (derive_fails BaseDataset.atsa_samples self (result st0, ∅) k data Hk)
    as [e He].
  { intros v. destruct (atsa_samples_outcome v data) as [[? _]|[_ ->]];
      [done | by eexists]. }
  rewrite He in Hfst. cbn [ebind] in Hfst.
  assert (e = TypeError) as ->.
  { eapply derive_raises; [| exact He].
    intros v data' e' He'.
    destruct (atsa_samples_outcome v data') as [[_ [r Hr]]|[_ Hr]];
      rewrite Hr in He'; [done | by injection He' as <-]. }
  destruct (BaseDataset.for_each_partition _ self ∅ st0) as [[e|v] st1];
    cbn [fst] in Hfst |- *; [by injection Hfst as -> | done].
Qed.

(** X8. [generate_atsa_data] raises [TypeError] whenever one of the
    partitions of the corpus has a document without a list of sentences or a
    sentence without a list of aspect terms. *)
Theorem generate_atsa_data_raises_without_term_lists `{Sklearn}
    (self : partitions AbsaDocument) (test_size : option float)
    (st : store (string * list AspectTerm)) (k : data_type)
    (data : list AbsaDocument) :
  getitem self k = Some data →
  ¬ has_terms data →
  fst (BaseDataset.generate_atsa_data self test_size st) = Raise TypeError.
Proof. apply atsa_raises_without_term_lists. Qed.

Lemma generate_atsa_data_raises_without_term_lists_witness :
  fst (BaseDataset.generate_atsa_data
         (mkPartitions (Some [document_of pizza_sentence]) None
            (Some [document_of (AbsaSentence_default "an unlabelled line" None
                                  None None)]))
         None
         (@mkStore rotating_sklearn _ (mkPartitions None None None) 0))
  = Raise TypeError.
Proof.
  apply (@generate_atsa_data_raises_without_term_lists rotating_sklearn
           (mkPartitions (Some [document_of pizza_sentence]) None
              (Some [document_of (AbsaSentence_default "an unlabelled line" None
                                    None None)]))
           None (@mkStore rotating_sklearn _ (mkPartitions None None None) 0) Test
           [document_of (AbsaSentence_default "an unlabelled line" None None None)]).
  - reflexivity.
  - intros Hall. apply Forall_cons in Hall as [(ss & Hss & Hterms) _].
    injection Hss as <-. apply Forall_cons in Hterms as [[t Ht] _]. discriminate Ht.
Defined.

(** * The samples of the term-derived category task *)

Lemma task12_sentence_sample samples vs sentence r :
  Semeval2015Task12.acd_and_sc_sentence (samples, vs) sentence = Ok r →
  fst r = samples ++ task12_samples_of sentence.
Proof.
  unfold Semeval2015Task12.acd_and_sc_sentence, task12_samples_of.
  destruct (aspect_terms sentence) as [terms|] eqn:Hterms.
  - destruct (sentence_label_eq vs sentence terms Hterms) as [vs' ->].
    cbn [ebind fst snd default]. destruct terms as [|t terms].
    + intros [= <-]. cbn. by rewrite app_nil_r.
    + cbn [label_of map first_occurrences]. intros [= <-].
      by rewrite re_sub_class_plus_space.
  - unfold Semeval2015Task12.sentence_label. by rewrite Hterms.
Qed.

Lemma task12_sentence_raises acc sentence e :
  Semeval2015Task12.acd_and_sc_sentence acc sentence = Raise e → e = TypeError.
Proof.
  destruct acc as [samples vs]. unfold Semeval2015Task12.acd_and_sc_sentence.
  destruct (aspect_terms sentence) as [terms|] eqn:Hterms.
  - destruct (sentence_label_eq vs sentence terms Hterms) as [vs' ->].
    cbn [ebind fst]. by destruct (label_of terms).
  - unfold Semeval2015Task12.sentence_label. rewrite Hterms.
    by intros [= <-].
Qed.

Lemma task12_samples_entries vs data x :
  BaseDataset.for_each_sentence Semeval2015Task12.acd_and_sc_sentence vs data
  = Ok x →
  fst x = concat (map task12_samples_of (sentences_of data)).
Proof. apply for_each_sentence_samples, task12_sentence_sample. Qed.

(** X9. In the term-derived category task a sentence gives a sample exactly
    when it has an aspect term: the samples of a partition are, in order, the
    texts (every run of CR and LF turned into one space) and labels of the
    sentences that have aspect terms; no sample has an empty label, and there
    are at most as many samples as sentences. *)
Theorem task12_samples_have_labels (vs : Semeval2015Task12.vars)
    (data : list AbsaDocument)
    (r : list Semeval2015Task12.sample * Semeval2015Task12.vars) :
  BaseDataset.for_each_sentence Semeval2015Task12.acd_and_sc_sentence vs data
  = Ok r →
  fst r = concat (map task12_samples_of (sentences_of data))
  ∧ Forall (fun sample => snd sample ≠ []) (fst r)
  ∧ (length (fst r) ≤ length (sentences_of data))%nat.
Proof.
  intros Hr. apply task12_samples_entries in Hr. rewrite Hr.
  split; [done |]. clear Hr.
  induction (sentences_of data) as [|s l [IHall IHlen]]; [by split |].
  cbn [map concat]. rewrite Forall_app, List.length_app.
  unfold task12_samples_of at 1 3.
  destruct (default [] (aspect_terms s)) as [|t terms].
  - cbn [length]. split; [by split | lia].
  - split; [| cbn [length]; lia]. split; [| done].
    by repeat constructor.
Qed.

Lemma task12_samples_have_labels_witness :
  [("great pizza but slow service",
    [(Some "FOOD#QUALITY", Some "positive");
     (Some "SERVICE#GENERAL", Some "negative")])]
  = concat (map task12_samples_of
              (sentences_of [document_of plain_sentence;
                             document_of pizza_sentence]))
  ∧ Forall (fun sample : Semeval2015Task12.sample => snd sample ≠ [])
           [("great pizza but slow service",
             [(Some "FOOD#QUALITY", Some "positive");
              (Some "SERVICE#GENERAL", Some "negative")])]
  ∧ (length [("great pizza but slow service",
              [(Some "FOOD#QUALITY", Some "positive");
               (Some "SERVICE#GENERAL", Some "negative")])]
     ≤ length (sentences_of [document_of plain_sentence;
                             document_of pizza_sentence]))%nat.
Proof.
  apply (task12_samples_have_labels (Semeval2015Task12.mkVars ∅ ∅ None)
           [document_of plain_sentence; document_of pizza_sentence]
           ([("great pizza but slow service",
              [(Some "FOOD#QUALITY", Some "positive");
               (Some "SERVICE#GENERAL", Some "negative")])],
            Semeval2015Task12.mkVars
              {[Some "FOOD#QUALITY"; Some "SERVICE#GENERAL"]}
              {[Some "negative"]} (Some (Some "negative")))).
  vm_compute. reflexivity.
Defined.

(** X10. On a corpus without train and dev partitions (as
    [Semeval2015Task12Hotel] loads it) the term-derived category task with a
    dev fraction other than zero always raises [TypeError]: there is nothing
    to split. *)
Theorem task12_without_train_raises `{Sklearn} (self : partitions AbsaDocument)
    (dev_size : float) (st : store Semeval2015Task12.sample) :
  train self = None →
  dev self = None →
  nonzero dev_size = true →
  fst (Semeval2015Task12.generate_acd_and_sc_data self dev_size st)
  = Raise TypeError.
Proof.
  intros Htrain Hdev Hnz.
  unfold Semeval2015Task12.generate_acd_and_sc_data.
  unfold mbind at 1. unfold BaseDataset.new_result at 1.
  set (st0 := mkStore (mkPartitions None None None) (np_random st)).
  set (per := BaseDataset.for_each_sentence Semeval2015Task12.acd_and_sc_sentence).
  set (vs0 := Semeval2015Task12.mkVars ∅ ∅ None).
  unfold mbind at 1.
  destruct (for_each_partition_derive per self vs0 st0) as (Hfst & _ & Hres).
  destruct (BaseDataset.for_each_partition per self vs0 st0) as [[e|v] st1];
    cbn [fst snd] in Hfst, Hres.
  - destruct (derive per self (result st0, vs0)) as [e'|acc] eqn:Hacc; [| done].
    cbn [ebind] in Hfst. injection Hfst as ->. cbn [fst]. f_equal.
    eapply derive_raises; [| exact Hacc].
    intros v data e''. apply for_each_sentence_raises.
    apply task12_sentence_raises.
  - destruct (derive per self (result st0, vs0)) as [e'|acc] eqn:Hacc; [done |].
    specialize (Hres acc eq_refl).
    pose proof (derive_entries per _ self _ _ task12_samples_entries Hacc Train)
      as Htr.
    pose proof (derive_entries per _ self _ _ task12_samples_entries Hacc Dev)
      as Hdv.
    cbn [getitem] in Htr, Hdv. rewrite Htrain in Htr. rewrite Hdev in Hdv.
    cbn [fst result st0 train dev] in Htr, Hdv.
    unfold mbind at 1.
    rewrite generate_dev_data_split by (by rewrite ?Hres).
    by rewrite Hres, Htr.
Qed.

Lemma task12_without_train_raises_witness :
  fst (Semeval2015Task12.generate_acd_and_sc_data
         (mkPartitions None None (Some [document_of mixed_sentence])) 0.25%float
         (@mkStore rotating_sklearn _ (mkPartitions None None None) 0))
  = Raise TypeError.
Proof.
  apply (@task12_without_train_raises rotating_sklearn
           (mkPartitions None None (Some [document_of mixed_sentence])) 0.25%float
           (@mkStore rotating_sklearn _ (mkPartitions None None None) 0));
    reflexivity.
Defined.
(** * The nested-markup adapter of [Semeval2015Task12] *)

Lemma getitem_Ok o key v :
  Soup.getitem o key = Ok v → Soup.attrs_of o !! key = Some v.
Proof.
  destruct o as [s|name attrs contents]; [done |]. cbn.
  by destruct (attrs !! key); intros [= <-].
Qed.

(** One [opinion] element adds one aspect term when it has a [target]
    attribute, and one aspect category otherwise. *)
Lemma load_opinion_spec terms cats o r :
  Semeval2015Task12.load_opinion (terms, cats) o = Ok r →
  if Soup.has_attr "target" o
  then ∃ t, r = (terms ++ [t], cats) ∧ term_of_opinion o t
  else ∃ c, r = (terms, cats ++ [c]) ∧ category_of_opinion o c.
Proof.
  unfold Semeval2015Task12.load_opinion.
  destruct (Soup.getitem o "category") as [e|category] eqn:Hc; [done |].
  destruct (Soup.getitem o "polarity") as [e|polarity] eqn:Hp; [done |].
  cbn [ebind]. apply getitem_Ok in Hc, Hp.
  destruct (Soup.has_attr "target" o).
  - destruct (Soup.getitem o "target") as [e|target] eqn:Ht; [done |].
    destruct (Soup.getitem o "from") as [e|f] eqn:Hf; [done |].
    destruct (Soup.getitem o "to") as [e|f'] eqn:Hto; [done |].
    cbn [ebind]. apply getitem_Ok in Ht, Hf, Hto.
    unfold AspectTerm_of_strings.
    destruct (Py.int_of_str f) as [e|i] eqn:Hi; [done |].
    destruct (Py.int_of_str f') as [e|j] eqn:Hj; [done |].
    cbn [ebind]. intros [= <-]. eexists. split; [done |].
    by exists target, category, polarity, f, f', i, j.
  - intros [= <-]. eexists. split; [done |].
    by exists category, polarity.
Qed.

Lemma load_opinions_spec opinions :
  ∀ terms cats r,
    efold Semeval2015Task12.load_opinion (terms, cats) opinions = Ok r →
    ∃ new_terms new_cats,
      r = (terms ++ new_terms, cats ++ new_cats)
      ∧ Forall2 term_of_opinion
                (List.filter (Soup.has_attr "target") opinions) new_terms
      ∧ Forall2 category_of_opinion
                (List.filter (fun o => negb (Soup.has_attr "target" o)) opinions)
                new_cats.
Proof.
  induction opinions as [|o opinions IH]; intros terms cats r Hr.
  - injection Hr as <-. exists [], []. rewrite !app_nil_r.
    split; [done |]. split; constructor.
  - cbn [efold] in Hr.
    destruct (Semeval2015Task12.load_opinion (terms, cats) o) as [e|r1] eqn:Ho;
      [done |].
    cbn [ebind] in Hr. apply load_opinion_spec in Ho.
    cbn [List.filter]. destruct (Soup.has_attr "target" o); cbn [negb].
    + destruct Ho as (t & -> & Ht).
      apply IH in Hr as (nt & nc & -> & Hnt & Hnc).
      exists (t :: nt), nc. rewrite <- app_assoc.
      split; [done |]. split; [by constructor | done].
    + destruct Ho as (c & -> & Hc).
      apply IH in Hr as (nt & nc & -> & Hnt & Hnc).
      exists nt, (c :: nc). rewrite <- app_assoc.
      split; [done |]. split; [done | by constructor].
Qed.

Lemma load_sentence_spec sentence_tag s :
  Semeval2015Task12.load_sentence sentence_tag = Ok s →
  ∃ terms cats,
    s = AbsaSentence_default (Soup.text sentence_tag) None (Some cats) (Some terms)
    ∧ Forall2 term_of_opinion
        (List.filter (Soup.has_attr "target")
                     (Soup.find_all "opinion" sentence_tag)) terms
    ∧ Forall2 category_of_opinion
        (List.filter (fun o => negb (Soup.has_attr "target" o))
                     (Soup.find_all "opinion" sentence_tag)) cats.
Proof.
  unfold Semeval2015Task12.load_sentence.
  destruct (efold _ _ _) as [e|r] eqn:Hr; [done |].
  cbn [ebind]. intros [= <-].
  apply load_opinions_spec in Hr as (terms & cats & -> & Hterms & Hcats).
  by exists terms, cats.
Qed.

(** X11. In the nested-markup adapter of [Semeval2015Task12], the aspect
    terms of a sentence are, in document order, its [opinion] elements that
    have a [target] attribute (with the category, the polarity, and the
    integer values of [from] and [to]); its aspect categories are the other
    [opinion] elements; so every [opinion] element gives exactly one of the
    two. The sentence has the text of the element and no polarity. *)
Theorem task12_opinions_become_terms_or_categories
    (sentence_tag : Soup.node) (s : AbsaSentence) :
  Semeval2015Task12.load_sentence sentence_tag = Ok s →
  text s = Soup.text sentence_tag
  ∧ polarity s = None
  ∧ ∃ terms cats,
      aspect_terms s = Some terms
      ∧ aspect_categories s = Some cats
      ∧ Forall2 term_of_opinion
          (List.filter (Soup.has_attr "target")
                       (Soup.find_all "opinion" sentence_tag)) terms
      ∧ Forall2 category_of_opinion
          (List.filter (fun o => negb (Soup.has_attr "target" o))
                       (Soup.find_all "opinion" sentence_tag)) cats
      ∧ (length terms + length cats
         = length (Soup.find_all "opinion" sentence_tag))%nat.
Proof.
  intros Hs. apply load_sentence_spec in Hs as (terms & cats & -> & Hterms & Hcats).
  split; [done |]. split; [done |]. exists terms, cats.
  split; [done |]. split; [done |]. split; [done |]. split; [done |].
  apply Forall2_length in Hterms, Hcats. rewrite <- Hterms, <- Hcats.
  clear. induction (Soup.find_all "opinion" sentence_tag) as [|o l IH]; [done |].
  cbn [List.filter length].
  destruct (Soup.has_attr "target" o); cbn [negb length]; lia.
Qed.

Lemma task12_opinions_become_terms_or_categories_witness :
  text (AbsaSentence_default "great pizza" None
          (Some [mkAspectCategory (Some "RESTAURANT#GENERAL") (Some "negative")])
          (Some [mkAspectTerm "pizza" (Some "positive") 6 11
                              (Some "FOOD#QUALITY")]))
  = Soup.text pizza_sentence_markup
  ∧ polarity (AbsaSentence_default "great pizza" None
          (Some [mkAspectCategory (Some "RESTAURANT#GENERAL") (Some "negative")])
          (Some [mkAspectTerm "pizza" (Some "positive") 6 11
                              (Some "FOOD#QUALITY")])) = None
  ∧ ∃ terms cats,
      aspect_terms (AbsaSentence_default "great pizza" None
          (Some [mkAspectCategory (Some "RESTAURANT#GENERAL") (Some "negative")])
          (Some [mkAspectTerm "pizza" (Some "positive") 6 11
                              (Some "FOOD#QUALITY")])) = Some terms
      ∧ aspect_categories (AbsaSentence_default "great pizza" None
          (Some [mkAspectCategory (Some "RESTAURANT#GENERAL") (Some "negative")])
          (Some [mkAspectTerm "pizza" (Some "positive") 6 11
                              (Some "FOOD#QUALITY")])) = Some cats
      ∧ Forall2 term_of_opinion
          (List.filter (Soup.has_attr "target")
                       (Soup.find_all "opinion" pizza_sentence_markup)) terms
      ∧ Forall2 category_of_opinion
          (List.filter (fun o => negb (Soup.has_attr "target" o))
                       (Soup.find_all "opinion" pizza_sentence_markup)) cats
      ∧ (length terms + length cats
         = length (Soup.find_all "opinion" pizza_sentence_markup))%nat.
Proof.
  apply (task12_opinions_become_terms_or_categories pizza_sentence_markup).
  vm_compute. reflexivity.
Defined.
(** A loop that appends one result per element. *)
Lemma efold_append {A B : Type} (f : A → exn + B) (xs : list A) :
  ∀ acc r,
    efold (fun ys x => let? y := f x in Ok (ys ++ [y])) acc xs = Ok r →
    ∃ ys, r = acc ++ ys ∧ Forall2 (fun x y => f x = Ok y) xs ys.
Proof.
  induction xs as [|x xs IH]; intros acc r Hr.
  - injection Hr as <-. exists []. by rewrite app_nil_r.
  - cbn [efold] in Hr. destruct (f x) as [e|y] eqn:Hx; [done |].
    cbn [ebind] in Hr. apply IH in Hr as (ys & -> & Hys).
    exists (y :: ys). rewrite <- app_assoc. split; [done |]. by constructor.
Qed.

Lemma load_review_spec doc_tag document :
  Semeval2015Task12.load_review doc_tag = Ok document →
  review_document doc_tag document.
Proof.
  unfold Semeval2015Task12.load_review.
  destruct (efold _ _ _) as [e|sentences] eqn:Hs; [done |].
  cbn [ebind]. intros [= <-].
  apply efold_append in Hs as (ys & -> & Hys). by exists ys.
Qed.

Lemma load_file_spec soup data :
  Semeval2015Task12.load_file soup = Ok data → review_partition soup data.
Proof.
  destruct soup as [soup|]; cbn [Semeval2015Task12.load_file review_partition].
  - destruct (efold _ _ _) as [e|docs] eqn:Hd; [done |].
    cbn [ebind]. intros [= <-].
    apply efold_append in Hd as (ys & -> & Hys). exists ys. split; [done |].
    eapply Forall2_impl; [exact Hys |]. apply load_review_spec.
  - by intros [= <-].
Qed.

Lemma load_sentence_labelled sentence_tag s :
  Semeval2015Task12.load_sentence sentence_tag = Ok s → labelled_sentence s.
Proof.
  intros Hs. apply load_sentence_spec in Hs as (terms & cats & -> & Hterms & Hcats).
  exists terms, cats. split; [done |]. split; [done |]. split.
  - clear Hcats. induction Hterms as [|o t os ts Ht _ IH]; constructor; [| done].
    destruct Ht as (? & ? & ? & ? & ? & ? & ? & _ & _ & _ & _ & _ & _ & _ & ->).
    split; by eexists.
  - clear Hterms. induction Hcats as [|o c os cs Hc _ IH]; constructor; [| done].
    destruct Hc as (? & ? & _ & _ & ->). split; by eexists.
Qed.

Lemma review_partition_labelled soup data :
  review_partition soup (Some data) → labelled data.
Proof.
  destruct soup as [soup|]; [| done]. intros (docs & [= <-] & Hdocs).
  unfold labelled. induction Hdocs as [|tag doc tags docs Hdoc _ IH];
    constructor; [| done].
  destruct Hdoc as (sentences & -> & Hsentences). exists sentences.
  split; [done |]. split; [done |].
  induction Hsentences as [|st s sts ss Hs _ IHs]; constructor; [| done].
  by eapply load_sentence_labelled.
Qed.

Lemma load_data_spec train_soup test_soup self :
  Semeval2015Task12._load_data_by_filepath train_soup test_soup = Ok self →
  review_partition train_soup (train self)
  ∧ dev self = None
  ∧ review_partition test_soup (test self).
Proof.
  unfold Semeval2015Task12._load_data_by_filepath.
  destruct (Semeval2015Task12.load_file train_soup) as [e|tr] eqn:Htr; [done |].
  destruct (Semeval2015Task12.load_file test_soup) as [e|te] eqn:Hte; [done |].
  cbn [ebind]. intros [= <-]. cbn [train dev test].
  split; [by apply load_file_spec |]. split; [done | by apply load_file_spec].
Qed.

Lemma load_data_labelled train_soup test_soup self k data :
  Semeval2015Task12._load_data_by_filepath train_soup test_soup = Ok self →
  getitem self k = Some data → labelled data.
Proof.
  intros Hself Hk. apply load_data_spec in Hself as (Htr & Hdv & Hte).
  destruct k; cbn [getitem] in Hk.
  - rewrite Hk in Htr. by eapply review_partition_labelled.
  - by rewrite Hk in Hdv.
  - rewrite Hk in Hte. by eapply review_partition_labelled.
Qed.

(** X12. A corpus loaded by [Semeval2015Task12._load_data_by_filepath] has no
    dev partition; a file that is not given gives no partition; a file gives
    one document per [review] element and, in it, one sentence per [sentence]
    element, in order; the text of a document is the texts of its sentences
    joined, it carries no annotations of its own, and in every sentence every
    aspect term and aspect category has a category and a polarity. *)
Theorem task12_loaded_corpus (train_soup test_soup : option Soup.node)
    (self : partitions AbsaDocument) :
  Semeval2015Task12._load_data_by_filepath train_soup test_soup = Ok self →
  review_partition train_soup (train self)
  ∧ dev self = None
  ∧ review_partition test_soup (test self)
  ∧ ∀ k data, getitem self k = Some data → labelled data.
Proof.
  intros Hself. destruct (load_data_spec _ _ _ Hself) as (Htr & Hdv & Hte).
  split; [done |]. split; [done |]. split; [done |].
  intros k data. by eapply load_data_labelled.
Qed.

Lemma task12_loaded_corpus_witness :
  review_partition (Some review_markup) (train review_corpus)
  ∧ dev review_corpus = None
  ∧ review_partition None (test review_corpus)
  ∧ ∀ k data, getitem review_corpus k = Some data → labelled data.
Proof.
  apply (task12_loaded_corpus (Some review_markup) None review_corpus).
  vm_compute. reflexivity.
Defined.
(** * The term-derived category task on the corpora its adapter loads *)

(** A loop whose body returns and keeps [I] on the elements that satisfy [P]
    returns and keeps [I] on a list of such elements. *)
Lemma efold_invariant {A B : Type} (body : A → B → exn + A) (P : B → Prop)
    (I : A → Prop) :
  (∀ acc x, P x → I acc → ∃ r, body acc x = Ok r ∧ I r) →
  ∀ xs acc, Forall P xs → I acc → ∃ r, efold body acc xs = Ok r ∧ I r.
Proof.
  intros Hbody. induction xs as [|x xs IH]; intros acc Hall HI.
  - by exists acc.
  - apply Forall_cons in Hall as [Hx Hall].
    destruct (Hbody acc x Hx HI) as (r & Hr & HIr).
    cbn [efold]. rewrite Hr. cbn [ebind]. by apply IH.
Qed.

Lemma derive_invariant {S V : Type}
    (per : V → list AbsaDocument → exn + list S * V)
    (P : list AbsaDocument → Prop) (I : V → Prop) self acc :
  (∀ v data, P data → I v → ∃ x, per v data = Ok x ∧ I (snd x)) →
  (∀ k data, getitem self k = Some data → P data) →
  I (snd acc) →
  ∃ r, derive per self acc = Ok r ∧ I (snd r).
Proof.
  intros Hper HP HI.
  assert (∀ k acc, I (snd acc) →
            ∃ r, derive_partition per (getitem self k) k acc = Ok r ∧ I (snd r))
    as Hstep.
  { intros k acc' HI'. unfold derive_partition.
    destruct (getitem self k) as [data|] eqn:Hk; [| by eexists].
    destruct (Hper (snd acc') data (HP k data Hk) HI') as (x & -> & Hx).
    cbn [ebind]. by eexists. }
  unfold derive.
  destruct (Hstep Train acc HI) as (r1 & H1 & HI1). cbn [getitem] in H1.
  rewrite H1. cbn [ebind].
  destruct (Hstep Dev r1 HI1) as (r2 & H2 & HI2). cbn [getitem] in H2.
  rewrite H2. cbn [ebind].
  apply (Hstep Test r2 HI2).
Qed.

(** The variable [polarity] after the votes of a sentence is the one before,
    or the polarity of one of its aspect terms. *)
Lemma vote_fold_polarity_var terms :
  ∀ d pv d' pv',
    efold Semeval2015Task12.vote (d, pv) terms = Ok (d', pv') →
    pv' = pv ∨ ∃ t, t ∈ terms ∧ pv' = Some (term_polarity t).
Proof.
  induction terms as [|t terms IH]; intros d pv d' pv' Hv.
  - injection Hv as <- <-. by left.
  - cbn [efold] in Hv. destruct (vote_step d pv t) as (d1 & Hstep & _).
    rewrite Hstep in Hv. cbn [ebind] in Hv.
    apply IH in Hv as [->|(t' & Ht' & ->)]; right.
    + exists t. split; [apply list_elem_of_here | done].
    + exists t'. split; [by apply list_elem_of_further | done].
Qed.

Lemma add_labels_no_None vs c p :
  no_None_labels vs → c ≠ None → p ≠ None →
  no_None_labels (Semeval2015Task12.add_labels vs c p).
Proof.
  intros (HC & HP & Hpv) Hc Hp. unfold no_None_labels, Semeval2015Task12.add_labels.
  cbn. rewrite !elem_of_union, !elem_of_singleton.
  split; [| split; [| done]]; intros [?|?]; done.
Qed.

Lemma reconcile_no_None lbl vs c V r :
  c ≠ None → no_None_labels vs →
  Semeval2015Task12.reconcile (lbl, vs) (c, V) = Ok r →
  no_None_labels (snd r).
Proof.
  intros Hc HI. unfold Semeval2015Task12.reconcile.
  destruct (decide (size V = 1%nat)) as [Hone|Hmany].
  - destruct (set_pop V) as [e|popped]; [done |]. cbn [ebind].
    destruct (Semeval2015Task12.polarity_var vs) as [p|] eqn:Hp; [| done].
    cbn [ebind]. intros [= <-]. cbn [snd].
    apply add_labels_no_None; [done | done |].
    destruct HI as (_ & _ & Hpv). rewrite Hp in Hpv. by intros ->.
  - repeat match goal with
           | |- context [if ?b then _ else _] => destruct b
           end; intros [= <-]; cbn [snd]; by apply add_labels_no_None.
Qed.

Lemma reconcile_fold_no_None d :
  ∀ lbl vs r,
    Forall (fun bucket => fst bucket ≠ None) d →
    no_None_labels vs →
    efold Semeval2015Task12.reconcile (lbl, vs) d = Ok r →
    no_None_labels (snd r).
Proof.
  induction d as [|[c V] d IH]; intros lbl vs r Hall HI Hr.
  - by injection Hr as <-.
  - apply Forall_cons in Hall as [Hc Hall]. cbn [efold] in Hr.
    destruct (Semeval2015Task12.reconcile (lbl, vs) (c, V)) as [e|[lbl1 vs1]] eqn:H1;
      [done |].
    cbn [ebind] in Hr. apply reconcile_no_None in H1; [| done | done].
    by eapply IH.
Qed.

Lemma sentence_no_None samples vs s :
  labelled_sentence s → no_None_labels vs →
  ∃ r, Semeval2015Task12.acd_and_sc_sentence (samples, vs) s = Ok r
       ∧ no_None_labels (snd r).
Proof.
  intros (terms & cats & Hterms & _ & Hall & _) HI.
  unfold Semeval2015Task12.acd_and_sc_sentence.
  destruct (sentence_label_eq vs s terms Hterms) as [vs' Hlabel].
  rewrite Hlabel. cbn [ebind fst snd].
  assert (no_None_labels vs') as HI'.
  { revert Hlabel. unfold Semeval2015Task12.sentence_label. rewrite Hterms.
    cbn [iter ebind].
    destruct (efold Semeval2015Task12.vote ([], Semeval2015Task12.polarity_var vs)
                    terms) as [e|[d' pv']] eqn:Hvote; [done |].
    cbn [ebind fst snd]. intros Hrec.
    destruct (vote_fold terms [] (Semeval2015Task12.polarity_var vs)
                NoDup_nil_2) as (d2 & pv2 & Hv2 & _ & Hkeys & _).
    rewrite Hvote in Hv2. injection Hv2 as <- <-.
    rewrite Forall_forall in Hall.
    apply reconcile_fold_no_None in Hrec; [done | |].
    - apply Forall_forall. intros [c V] Hin. cbn [fst].
      assert (c ∈ map fst d') as Hc.
      { apply list_elem_of_In, in_map_iff. exists (c, V).
        split; [done | by apply list_elem_of_In]. }
      apply Hkeys in Hc as [Hc|Hc]; [by apply elem_of_nil in Hc |].
      apply list_elem_of_In, in_map_iff in Hc as (t & <- & Ht).
      apply list_elem_of_In in Ht. by destruct (Hall t Ht) as [[? ->] _].
    - destruct HI as (HC & HP & Hpv). split; [done |]. split; [done |]. cbn.
      apply vote_fold_polarity_var in Hvote as [->|(t & Ht & ->)]; [done |].
      destruct (Hall t Ht) as [_ [? ->]]. done. }
  destruct (label_of terms); by eexists.
Qed.

Lemma partition_no_None vs data :
  labelled data → no_None_labels vs →
  ∃ r, BaseDataset.for_each_sentence Semeval2015Task12.acd_and_sc_sentence vs data
       = Ok r
       ∧ no_None_labels (snd r).
Proof.
  intros Hdata HI. unfold BaseDataset.for_each_sentence.
  apply (efold_invariant _
           (fun document =>
              ∃ sentences, absa_sentences document = Some sentences
                           ∧ doc_text document = join_all (map text sentences)
                           ∧ Forall labelled_sentence sentences)
           (fun acc => no_None_labels (snd acc)));
    [| exact Hdata | exact HI].
  intros acc document (sentences & -> & _ & Hall) Hacc. cbn [iter ebind].
  apply (efold_invariant _ labelled_sentence
           (fun acc => no_None_labels (snd acc))); [| done | done].
  intros [samples vs1] s Hs Hvs. by apply sentence_no_None.
Qed.

Lemma sorted_labels_returns (s : label_set) :
  None ∉ s → ∃ l, sorted_labels s = Ok l ∧ Forall is_Some l.
Proof.
  intros Hs.
  assert (Forall is_Some (elements s)) as Hall.
  { apply Forall_forall. intros [x|] Hx; [by eexists |].
    by apply elem_of_elements in Hx. }
  unfold sorted_labels. destruct (decide (2 ≤ size s)%nat); [| by eexists].
  destruct (decide (None ∈ s)); [done |]. eexists. split; [done |].
  by rewrite merge_sort_Permutation.
Qed.

Lemma labelled_corpus_derives `{Sklearn} (self : partitions AbsaDocument)
    (dev_size : float) (st : store Semeval2015Task12.sample) :
  (∀ k data, getitem self k = Some data → labelled data) →
  dev self = None →
  nonzero dev_size = false →
  ∃ r categories polarities,
    fst (Semeval2015Task12.generate_acd_and_sc_data self dev_size st)
    = Ok (r, categories, polarities)
    ∧ dev r = test r
    ∧ Forall is_Some categories
    ∧ Forall is_Some polarities.
Proof.
  intros Hself Hdev Hnz.
  unfold Semeval2015Task12.generate_acd_and_sc_data.
  unfold mbind at 1. unfold BaseDataset.new_result at 1.
  set (st0 := mkStore (mkPartitions None None None) (np_random st)).
  set (per := BaseDataset.for_each_sentence Semeval2015Task12.acd_and_sc_sentence).
  set (vs0 := Semeval2015Task12.mkVars ∅ ∅ None).
  unfold mbind at 1.
  destruct (for_each_partition_derive per self vs0 st0) as (Hfst & _ & Hres).
  destruct (derive_invariant per labelled no_None_labels self (result st0, vs0))
    as (acc & Hacc & HI).
  { intros v data. apply partition_no_None. }
  { exact Hself. }
  { split; [apply not_elem_of_empty |]. split; [apply not_elem_of_empty | done]. }
  rewrite Hacc in Hfst. cbn [ebind] in Hfst. specialize (Hres acc Hacc).
  destruct (BaseDataset.for_each_partition per self vs0 st0) as [[e|v] st1];
    cbn [fst snd] in Hfst, Hres; [done |].
  injection Hfst as ->.
  pose proof (derive_entries per _ self _ _ task12_samples_entries Hacc Dev) as Hdv.
  cbn [getitem] in Hdv. rewrite Hdev in Hdv. cbn [fst result st0 dev] in Hdv.
  unfold mbind at 1.
  rewrite generate_dev_data_alias by (by rewrite ?Hres).
  destruct HI as (HC & HP & _).
  destruct (sorted_labels_returns _ HC) as (categories & Hcats & Hsome_c).
  destruct (sorted_labels_returns _ HP) as (polarities & Hpols & Hsome_p).
  unfold mbind, lift, mret, BaseDataset.get_result.
  rewrite Hcats, Hpols. cbn [fst result].
  by eexists _, categories, polarities.
Qed.

(** X13. Loading and deriving compose: on every corpus that
    [Semeval2015Task12._load_data_by_filepath] loads, the term-derived category
    task with [dev_size=0.0] returns normally (no lookup, no loop and no sort
    raises), the dev partition of its result is its test partition, and
    neither returned vocabulary holds a [None]. *)
Theorem task12_loaded_corpus_derives `{Sklearn}
    (train_soup test_soup : option Soup.node) (self : partitions AbsaDocument)
    (dev_size : float) (st : store Semeval2015Task12.sample) :
  Semeval2015Task12._load_data_by_filepath train_soup test_soup = Ok self →
  nonzero dev_size = false →
  ∃ r categories polarities,
    fst (Semeval2015Task12.generate_acd_and_sc_data self dev_size st)
    = Ok (r, categories, polarities)
    ∧ dev r = test r
    ∧ Forall is_Some categories
    ∧ Forall is_Some polarities.
Proof.
  intros Hself Hnz. apply labelled_corpus_derives; [| | done].
  - intros k data. by eapply load_data_labelled.
  - by apply load_data_spec in Hself as (_ & ? & _).
Qed.

Lemma task12_loaded_corpus_derives_witness :
  ∃ r categories polarities,
    fst (Semeval2015Task12.generate_acd_and_sc_data review_corpus 0%float
           (@mkStore rotating_sklearn _ (mkPartitions None None None) 0))
    = Ok (r, categories, polarities)
    ∧ dev r = test r
    ∧ Forall is_Some categories
    ∧ Forall is_Some polarities.
Proof.
  apply (@task12_loaded_corpus_derives rotating_sklearn (Some review_markup) None
           review_corpus 0%float
           (@mkStore rotating_sklearn _ (mkPartitions None None None) 0)).
  - vm_compute. reflexivity.
  - reflexivity.
Defined.
(** * The accessors of [BaseDataset] *)

Lemma join_all_app l1 l2 : join_all (l1 ++ l2) = join_all l1 +:+ join_all l2.
Proof.
  induction l1 as [|s l1 IH]; [done |].
  cbn [app join_all]. by rewrite IH, app_assoc_str.
Qed.

Lemma fold_left_extend {A B : Type} (f : A → list B) (xs : list A) :
  ∀ acc, fold_left (fun acc x => acc ++ f x) xs acc = acc ++ concat (map f xs).
Proof.
  induction xs as [|x xs IH]; intros acc; cbn [fold_left map concat].
  - by rewrite app_nil_r.
  - by rewrite IH, app_assoc.
Qed.

Lemma plain_texts_of_sentences data :
  concat (map BaseDataset.get_plain_text_of_sentences data)
  = map text (sentences_of data).
Proof.
  unfold sentences_of. induction data as [|document data IH]; [done |].
  cbn [map concat]. rewrite List.map_app, IH. f_equal.
  unfold BaseDataset.get_plain_text_of_sentences.
  by destruct (absa_sentences document).
Qed.

Lemma get_sentences_present self data_type k data :
  data_type ≫= BaseDataset.data_type_of_name = Some k →
  getitem self k = Some data →
  BaseDataset.get_sentences self data_type = Ok (map text (sentences_of data)).
Proof.
  intros Hk Hdata. unfold BaseDataset.get_sentences. rewrite Hk, Hdata.
  cbn [iter ebind]. by rewrite fold_left_extend, plain_texts_of_sentences.
Qed.

Lemma get_documents_present self data_type k data :
  data_type ≫= BaseDataset.data_type_of_name = Some k →
  getitem self k = Some data →
  BaseDataset.get_documents self data_type = Ok (map doc_text data).
Proof.
  intros Hk Hdata. unfold BaseDataset.get_documents. rewrite Hk, Hdata.
  cbn [iter ebind].
  rewrite (fold_left_extend (fun document => [doc_text document])).
  cbn [app]. f_equal. clear. induction data as [|d data IH]; [done |].
  cbn [map concat app]. by rewrite IH.
Qed.

(** X14. The outcome of [get_sentences] and [get_documents]: for [None] and
    for a name that is not one of [train], [dev], [test] both return the empty
    list; for the name of a partition that is [None] both raise [TypeError];
    otherwise [get_sentences] returns the texts of all sentences in order (a
    document without a sentence list contributes none) and [get_documents]
    the texts of the documents. *)
Theorem accessors_outcome (self : partitions AbsaDocument)
    (data_type : option string) :
  match data_type ≫= BaseDataset.data_type_of_name with
  | None =>
      BaseDataset.get_sentences self data_type = Ok []
      ∧ BaseDataset.get_documents self data_type = Ok []
  | Some k =>
      match getitem self k with
      | None =>
          BaseDataset.get_sentences self data_type = Raise TypeError
          ∧ BaseDataset.get_documents self data_type = Raise TypeError
      | Some data =>
          BaseDataset.get_sentences self data_type
          = Ok (map text (sentences_of data))
          ∧ BaseDataset.get_documents self data_type = Ok (map doc_text data)
      end
  end.
Proof.
  destruct (data_type ≫= BaseDataset.data_type_of_name) as [k|] eqn:Hk.
  - destruct (getitem self k) as [data|] eqn:Hdata.
    + split; [by eapply get_sentences_present | by eapply get_documents_present].
    + unfold BaseDataset.get_sentences, BaseDataset.get_documents.
      by rewrite Hk, Hdata.
  - unfold BaseDataset.get_sentences, BaseDataset.get_documents. by rewrite Hk.
Qed.

(** X15. On a partition whose documents have the text of their sentences (as
    the markup adapters build them) the two accessors agree: the sentences
    that [get_sentences] returns, joined, are the documents that
    [get_documents] returns, joined. *)
Theorem sentences_and_documents_agree (self : partitions AbsaDocument)
    (name : option string) (k : data_type) (data : list AbsaDocument) :
  name ≫= BaseDataset.data_type_of_name = Some k →
  getitem self k = Some data →
  text_of_sentences data →
  ∃ sentences documents,
    BaseDataset.get_sentences self name = Ok sentences
    ∧ BaseDataset.get_documents self name = Ok documents
    ∧ join_all sentences = join_all documents
    ∧ length documents = length data.
Proof.
  intros Hk Hdata Htext. eexists _, _.
  split; [by eapply get_sentences_present |].
  split; [by eapply get_documents_present |].
  split; [| apply List.length_map].
  unfold sentences_of, text_of_sentences in *.
  clear Hdata.
  induction Htext as [|document data' (sentences & Hs & Ht) _ IH]; [done |].
  cbn [map concat join_all]. rewrite Hs, Ht. cbn [default].
  by rewrite List.map_app, join_all_app, IH.
Qed.

Lemma sentences_and_documents_agree_witness :
  ∃ sentences documents,
    BaseDataset.get_sentences review_corpus (Some "train") = Ok sentences
    ∧ BaseDataset.get_documents review_corpus (Some "train") = Ok documents
    ∧ join_all sentences = join_all documents
    ∧ length documents
      = length [AbsaDocument_default "great pizza but never again" None None None
             (Some [AbsaSentence_default "great pizza" None
                      (Some [mkAspectCategory (Some "RESTAURANT#GENERAL")
                                              (Some "negative")])
                      (Some [mkAspectTerm "pizza" (Some "positive") 6 11
                                          (Some "FOOD#QUALITY")]);
                    AbsaSentence_default " but never again" None (Some [])
                                         (Some [])])].
Proof.
  apply (sentences_and_documents_agree review_corpus (Some "train") Train).
  - reflexivity.
  - reflexivity.
  - constructor; [| constructor]. eexists. split; reflexivity.
Defined.
(** * The weibo adapter: documents and offsets *)

Section NlpccDocuments.
Import Nlpcc2012WeiboSa.

Lemma load_sentence_fields tag start s :
  load_sentence tag start = Some (Ok s) →
  text s = get_text tag
  ∧ start_index_in_doc s = start
  ∧ sample_id s = get_or tag "id" ""
  ∧ aspect_categories s = None
  ∧ is_Some (aspect_terms s).
Proof.
  unfold load_sentence.
  destruct (String.eqb (get_or tag "opinionated" "") "Y").
  - destruct (scan_targets (enough_fuel tag) tag 1 []) as [[e|ts]|]; [done | | done].
    intros [= <-]. cbn. repeat split; by eexists.
  - intros [= <-]. cbn. repeat split; by eexists.
Qed.

(** The loop over the sentence elements: the texts are those of the elements
    and every sentence starts where the texts before it end. *)
Lemma load_sentences_spec tags :
  ∀ start acc r,
    load_sentences tags start acc = Some (Ok r) →
    ∃ new,
      r = acc ++ new
      ∧ map text new = map get_text tags
      ∧ Forall (fun s => aspect_categories s = None ∧ is_Some (aspect_terms s)) new
      ∧ ∀ (i : nat) s, new !! i = Some s →
          start_index_in_doc s
          = start + Py.len (join_all (map get_text (take i tags))).
Proof.
  induction tags as [|tag tags IH]; intros start acc r Hr.
  - injection Hr as <-. exists []. rewrite app_nil_r.
    split; [done |]. split; [done |]. split; [constructor |].
    intros i s Hi. by rewrite lookup_nil in Hi.
  - cbn [load_sentences] in Hr.
    destruct (load_sentence tag start) as [[e|s0]|] eqn:Hs0; [done | | done].
    apply load_sentence_fields in Hs0 as (Htext & Hstart & _ & Hcats & Hterms).
    apply IH in Hr as (new & -> & Htexts & Hall & Hoff).
    exists (s0 :: new). rewrite <- app_assoc. split; [done |].
    split; [cbn [map]; by rewrite Htext, Htexts |].
    split; [by constructor |].
    intros [|i] s Hi.
    + injection Hi as <-. cbn. unfold Py.len. cbn. lia.
    + cbn [lookup list_lookup] in Hi. apply Hoff in Hi. rewrite Hi.
      cbn [take map join_all]. unfold Py.len. rewrite length_app. lia.
Qed.
End NlpccDocuments.

(** X16. A weibo loaded by [Nlpcc2012WeiboSa] keeps its id, has one sentence
    per sentence element with the text of the element, and its text is the
    texts of the sentences joined; [start_index_in_doc] of a sentence is the
    total length of the texts before it, so the slice of the document text
    from that offset, of the length of the sentence, is the sentence. No
    sentence has aspect categories; every sentence has a list of aspect
    terms. *)
Theorem nlpcc_sentence_offsets (weibo_id : string)
    (sentence_tags : list Nlpcc2012WeiboSa.Tag) (document : AbsaDocument) :
  Nlpcc2012WeiboSa.load_weibo weibo_id sentence_tags = Some (Ok document) →
  ∃ sentences,
    absa_sentences document = Some sentences
    ∧ doc_sample_id document = weibo_id
    ∧ map text sentences = map Nlpcc2012WeiboSa.get_text sentence_tags
    ∧ doc_text document = join_all (map text sentences)
    ∧ Forall (fun s => aspect_categories s = None ∧ is_Some (aspect_terms s))
             sentences
    ∧ ∀ (i : nat) s, sentences !! i = Some s →
        start_index_in_doc s = Py.len (join_all (map text (take i sentences)))
        ∧ Py.slice (doc_text document) (start_index_in_doc s)
                   (start_index_in_doc s + Py.len (text s))
          = text s.
Proof.
  unfold Nlpcc2012WeiboSa.load_weibo.
  destruct (Nlpcc2012WeiboSa.load_sentences sentence_tags 0 [])
    as [[e|sentences]|] eqn:Hs; [done | | done].
  intros [= <-].
  apply load_sentences_spec in Hs as (new & -> & Htexts & Hall & Hoff).
  cbn [app] in *. exists new.
  split; [done |]. split; [done |]. split; [done |]. split; [done |].
  split; [done |].
  intros i s Hi. cbn [doc_text].
  assert (start_index_in_doc s = Py.len (join_all (map text (take i new))))
    as Hstart.
  { rewrite (Hoff i s Hi), Z.add_0_l.
    by rewrite <- !List.firstn_map, Htexts. }
  split; [done |].
  rewrite Hstart.
  rewrite <- (take_drop_middle new i s Hi) at 1.
  rewrite List.map_app, join_all_app. cbn [map join_all].
  apply slice_middle.
Qed.

Lemma nlpcc_sentence_offsets_witness :
  ∃ sentences,
    absa_sentences
      (mkAbsaDocument "good phone. bad battery" None None None
         (Some [mkAbsaSentence "good phone. " None None (Some []) "1" 0;
                mkAbsaSentence "bad battery" None None (Some []) "" 12]) "w1")
    = Some sentences
    ∧ doc_sample_id
        (mkAbsaDocument "good phone. bad battery" None None None
           (Some [mkAbsaSentence "good phone. " None None (Some []) "1" 0;
                  mkAbsaSentence "bad battery" None None (Some []) "" 12]) "w1")
      = "w1"
    ∧ map text sentences = map Nlpcc2012WeiboSa.get_text weibo_sentence_tags
    ∧ doc_text
        (mkAbsaDocument "good phone. bad battery" None None None
           (Some [mkAbsaSentence "good phone. " None None (Some []) "1" 0;
                  mkAbsaSentence "bad battery" None None (Some []) "" 12]) "w1")
      = join_all (map text sentences)
    ∧ Forall (fun s => aspect_categories s = None ∧ is_Some (aspect_terms s))
             sentences
    ∧ ∀ (i : nat) s, sentences !! i = Some s →
        start_index_in_doc s = Py.len (join_all (map text (take i sentences)))
        ∧ Py.slice
            (doc_text
               (mkAbsaDocument "good phone. bad battery" None None None
                  (Some [mkAbsaSentence "good phone. " None None (Some []) "1" 0;
                         mkAbsaSentence "bad battery" None None (Some []) "" 12])
                  "w1"))
            (start_index_in_doc s) (start_index_in_doc s + Py.len (text s))
          = text s.
Proof.
  apply (nlpcc_sentence_offsets "w1" weibo_sentence_tags).
  vm_compute. reflexivity.
Defined.
(** * The weibo adapter: the test files *)

Section NlpccTestFiles.
Import Nlpcc2012WeiboSa.

(** The lines kept are the lines before the first one that holds the
    marker. *)
Lemma before_marker_spec lines :
  ∃ rest,
    lines = before_marker lines ++ rest
    ∧ Forall (fun line => Py.contains "root_text_begin" line = false)
             (before_marker lines)
    ∧ match rest with
      | [] => True
      | line :: _ => Py.contains "root_text_begin" line = true
      end.
Proof.
  induction lines as [|line lines (rest & Hlines & Hall & Hrest)].
  - exists []. by repeat split.
  - cbn [before_marker].
    destruct (Py.contains "root_text_begin" line) eqn:Hline.
    + exists (line :: lines). by repeat split.
    + exists rest. cbn [app]. split; [by f_equal |]. split; [by constructor | done].
Qed.

Lemma snippet_returns snippets line :
  annotation_line line →
  ∃ r, (if String.eqb line "" then Ok snippets
        else let? snippet := Py.index (Py.split "009" line) 2 in
             Ok (snippets ++ [snippet])) = Ok r.
Proof.
  intros [->|Hlen]; [by eexists |].
  destruct (String.eqb line ""); [by eexists |].
  unfold Py.index.
  destruct (lookup_lt_is_Some_2 (Py.split "009" line) 2 Hlen) as [x ->].
  by eexists.
Qed.

Lemma snippet_raises snippets line :
  ¬ annotation_line line →
  (if String.eqb line "" then Ok snippets
   else let? snippet := Py.index (Py.split "009" line) 2 in
        Ok (snippets ++ [snippet])) = Raise IndexError.
Proof.
  intros Hline. destruct (String.eqb_spec line "") as [->|_].
  - destruct Hline. by left.
  - unfold Py.index. rewrite lookup_ge_None_2; [done |].
    destruct (le_lt_dec 3 (length (Py.split "009" line))); [| lia].
    destruct Hline. by right.
Qed.

Lemma annotation_line_dec line : annotation_line line ∨ ¬ annotation_line line.
Proof.
  destruct (decide (line = "")) as [->|Hne]; [left; by left |].
  destruct (le_lt_dec 3 (length (Py.split "009" line))) as [Hle|Hlt].
  - left. by right.
  - right. intros [?|?]; [done | lia].
Qed.

Lemma opinion_snippets_outcome test_ann_lines :
  (Forall annotation_line test_ann_lines
   ∧ ∃ snippets, opinion_snippets_of test_ann_lines = Ok snippets)
  ∨ (¬ Forall annotation_line test_ann_lines
     ∧ opinion_snippets_of test_ann_lines = Raise IndexError).
Proof.
  unfold opinion_snippets_of. apply efold_all_or_raise.
  - intros acc line. apply snippet_returns.
  - intros acc line. apply snippet_raises.
  - apply annotation_line_dec.
Qed.

Lemma test_sentence_polarity snippets test_line :
  (polarity (test_sentence snippets test_line) = Some "other"
   ∧ ∃ snippet, snippet ∈ snippets ∧ Py.contains snippet test_line = true)
  ∨ (polarity (test_sentence snippets test_line) = None
     ∧ ∀ snippet, snippet ∈ snippets → Py.contains snippet test_line = false).
Proof.
  unfold test_sentence. cbn [polarity AbsaSentence_default].
  destruct (existsb _ snippets) eqn:Hex.
  - left. split; [done |]. apply existsb_exists in Hex as (x & Hx & Hc).
    exists x. split; [by apply list_elem_of_In | done].
  - right. split; [done |]. intros snippet Hin.
    destruct (Py.contains snippet test_line) eqn:Hc; [| done].
    rewrite <- Hex. symmetry. apply existsb_exists. exists snippet.
    split; [by apply list_elem_of_In | done].
Qed.
End NlpccTestFiles.

(** X17. A test document of [Nlpcc2012WeiboSa]: its sentences are the lines
    of the file after the first one, up to (not including) the first line that
    holds [root_text_begin]; its text is these lines joined; a sentence has
    polarity ['other'] exactly when one of the opinion snippets occurs in its
    line, and [None] otherwise; no sentence has aspect terms or aspect
    categories (both are [None]). *)
Theorem nlpcc_test_document (lines test_ann_lines : list string)
    (document : AbsaDocument) :
  Nlpcc2012WeiboSa.load_test_file lines test_ann_lines = Ok document →
  ∃ snippets sentences rest,
    Nlpcc2012WeiboSa.opinion_snippets_of test_ann_lines = Ok snippets
    ∧ absa_sentences document = Some sentences
    ∧ doc_text document = join_all (map text sentences)
    ∧ drop 1 lines = map text sentences ++ rest
    ∧ match rest with
      | [] => True
      | line :: _ => Py.contains "root_text_begin" line = true
      end
    ∧ Forall (fun s =>
                Py.contains "root_text_begin" (text s) = false
                ∧ aspect_terms s = None
                ∧ aspect_categories s = None
                ∧ ((polarity s = Some "other"
                    ∧ ∃ snippet, snippet ∈ snippets
                                 ∧ Py.contains snippet (text s) = true)
                   ∨ (polarity s = None
                      ∧ ∀ snippet, snippet ∈ snippets →
                                   Py.contains snippet (text s) = false)))
             sentences.
Proof.
  unfold Nlpcc2012WeiboSa.load_test_file.
  destruct (Nlpcc2012WeiboSa.opinion_snippets_of test_ann_lines)
    as [e|snippets] eqn:Hsn; [done |].
  cbn [ebind]. intros [= <-].
  unfold Nlpcc2012WeiboSa.test_lines_of.
  destruct (before_marker_spec (drop 1 lines)) as (rest & Hlines & Hall & Hrest).
  exists snippets. eexists. exists rest. split; [done |]. split; [done |]. split; [done |].
  assert (∀ l, map text (map (Nlpcc2012WeiboSa.test_sentence snippets) l) = l)
    as Htexts.
  { induction l as [|x l IH]; [done |]. cbn [map]. by rewrite IH. }
  rewrite Htexts. split; [done |]. split; [done |].
  clear Hlines.
  induction Hall as [|line l Hline _ IH]; cbn [map]; constructor; [| done].
  split; [done |]. split; [done |]. split; [done |].
  apply test_sentence_polarity.
Qed.

Lemma nlpcc_test_document_witness :
  ∃ snippets sentences rest,
    Nlpcc2012WeiboSa.opinion_snippets_of
      [String "T" (String "009" (String "x" (String "009" "slow")))] = Ok snippets
    ∧ absa_sentences
        (AbsaDocument_default "a slow phonefine" None None None
           (Some [AbsaSentence_default "a slow phone" (Some "other") None None;
                  AbsaSentence_default "fine" None None None]))
      = Some sentences
    ∧ doc_text
        (AbsaDocument_default "a slow phonefine" None None None
           (Some [AbsaSentence_default "a slow phone" (Some "other") None None;
                  AbsaSentence_default "fine" None None None]))
      = join_all (map text sentences)
    ∧ drop 1 ["header"; "a slow phone"; "fine"; "root_text_begin 1"; "more"]
      = map text sentences ++ rest
    ∧ match rest with
      | [] => True
      | line :: _ => Py.contains "root_text_begin" line = true
      end
    ∧ Forall (fun s =>
                Py.contains "root_text_begin" (text s) = false
                ∧ aspect_terms s = None
                ∧ aspect_categories s = None
                ∧ ((polarity s = Some "other"
                    ∧ ∃ snippet, snippet ∈ snippets
                                 ∧ Py.contains snippet (text s) = true)
                   ∨ (polarity s = None
                      ∧ ∀ snippet, snippet ∈ snippets →
                                   Py.contains snippet (text s) = false)))
             sentences.
Proof.
  apply (nlpcc_test_document
           ["header"; "a slow phone"; "fine"; "root_text_begin 1"; "more"]
           [String "T" (String "009" (String "x" (String "009" "slow")))]).
  vm_compute. reflexivity.
Defined.

(** X18. Loading a test file of [Nlpcc2012WeiboSa] returns exactly when every
    line of the annotation file is empty or has at least three tab-separated
    fields; otherwise it raises [IndexError]. *)
Theorem nlpcc_test_file_outcome (lines test_ann_lines : list string) :
  (Forall annotation_line test_ann_lines
   ∧ ∃ document,
       Nlpcc2012WeiboSa.load_test_file lines test_ann_lines = Ok document)
  ∨ (¬ Forall annotation_line test_ann_lines
     ∧ Nlpcc2012WeiboSa.load_test_file lines test_ann_lines = Raise IndexError).
Proof.
  unfold Nlpcc2012WeiboSa.load_test_file.
  destruct (opinion_snippets_outcome test_ann_lines) as [[Hall [sn ->]]|[Hnot ->]].
  - left. split; [done |]. by eexists.
  - by right.
Qed.

(** X19. The test documents of [Nlpcc2012WeiboSa] cannot feed the term task:
    on a corpus with a partition that holds a loaded test document with at
    least one sentence, [generate_atsa_data] raises [TypeError], because the
    sentences of such a document have no list of aspect terms. *)
Theorem nlpcc_test_document_has_no_term_task `{Sklearn}
    (self : partitions AbsaDocument) (test_size : option float)
    (st : store (string * list AspectTerm)) (k : data_type)
    (data : list AbsaDocument) (lines test_ann_lines : list string)
    (document : AbsaDocument) :
  getitem self k = Some data →
  document ∈ data →
  Nlpcc2012WeiboSa.load_test_file lines test_ann_lines = Ok document →
  Nlpcc2012WeiboSa.test_lines_of lines ≠ [] →
  fst (BaseDataset.generate_atsa_data self test_size st) = Raise TypeError.
Proof.
  intros Hk Hin Hdoc Hlines.
  apply (atsa_raises_without_term_lists self test_size st k data Hk).
  intros Hterms. unfold has_terms in Hterms. rewrite Forall_forall in Hterms.
  destruct (Hterms document Hin) as (sentences & Hs & Hall).
  revert Hdoc. unfold Nlpcc2012WeiboSa.load_test_file.
  destruct (Nlpcc2012WeiboSa.opinion_snippets_of test_ann_lines) as [e|sn];
    [done |].
  cbn [ebind]. intros [= <-]. injection Hs as <-.
  destruct (Nlpcc2012WeiboSa.test_lines_of lines) as [|line l]; [done |].
  cbn [map] in Hall. apply Forall_cons in Hall as [[t Ht] _]. discriminate Ht.
Qed.

Lemma nlpcc_test_document_has_no_term_task_witness :
  fst (BaseDataset.generate_atsa_data
         (mkPartitions None None
            (Some [AbsaDocument_default "a slow phonefine" None None None
                     (Some [AbsaSentence_default "a slow phone" (Some "other")
                                                 None None;
                            AbsaSentence_default "fine" None None None])]))
         None
         (@mkStore rotating_sklearn _ (mkPartitions None None None) 0))
  = Raise TypeError.
Proof.
  apply (@nlpcc_test_document_has_no_term_task rotating_sklearn
           (mkPartitions None None
              (Some [AbsaDocument_default "a slow phonefine" None None None
                       (Some [AbsaSentence_default "a slow phone" (Some "other")
                                                   None None;
                              AbsaSentence_default "fine" None None None])]))
           None (@mkStore rotating_sklearn _ (mkPartitions None None None) 0) Test
           [AbsaDocument_default "a slow phonefine" None None None
              (Some [AbsaSentence_default "a slow phone" (Some "other") None None;
                     AbsaSentence_default "fine" None None None])]
           ["header"; "a slow phone"; "fine"; "root_text_begin 1"; "more"]
           [String "T" (String "009" (String "x" (String "009" "slow")))]
           (AbsaDocument_default "a slow phonefine" None None None
              (Some [AbsaSentence_default "a slow phone" (Some "other") None None;
                     AbsaSentence_default "fine" None None None]))).
  - reflexivity.
  - apply list_elem_of_here.
  - vm_compute. reflexivity.
  - vm_compute. discriminate.
Defined.
(** * The other markup adapters *)

(** In [Semeval2016Task5Sub2] the test is on the contents of the element. *)
Lemma sub2_load_opinion_spec terms cats o r :
  Semeval2016Task5Sub2.load_opinion (terms, cats) o = Ok r →
  if Soup.contains "target" o
  then ∃ t, r = (terms ++ [t], cats) ∧ term_of_opinion o t
  else ∃ c, r = (terms, cats ++ [c]) ∧ category_of_opinion o c.
Proof.
  unfold Semeval2016Task5Sub2.load_opinion.
  destruct (Soup.getitem o "category") as [e|category] eqn:Hc; [done |].
  destruct (Soup.getitem o "polarity") as [e|polarity] eqn:Hp; [done |].
  cbn [ebind]. apply getitem_Ok in Hc, Hp.
  destruct (Soup.contains "target" o).
  - destruct (Soup.getitem o "target") as [e|target] eqn:Ht; [done |].
    destruct (Soup.getitem o "from") as [e|f] eqn:Hf; [done |].
    destruct (Soup.getitem o "to") as [e|f'] eqn:Hto; [done |].
    cbn [ebind]. apply getitem_Ok in Ht, Hf, Hto.
    unfold AspectTerm_of_strings.
    destruct (Py.int_of_str f) as [e|i] eqn:Hi; [done |].
    destruct (Py.int_of_str f') as [e|j] eqn:Hj; [done |].
    cbn [ebind]. intros [= <-]. eexists. split; [done |].
    by exists target, category, polarity, f, f', i, j.
  - intros [= <-]. eexists. split; [done |].
    by exists category, polarity.
Qed.

Lemma sub2_load_opinions_spec opinions :
  ∀ terms cats r,
    efold Semeval2016Task5Sub2.load_opinion (terms, cats) opinions = Ok r →
    ∃ new_terms new_cats,
      r = (terms ++ new_terms, cats ++ new_cats)
      ∧ Forall2 term_of_opinion
                (List.filter (Soup.contains "target") opinions) new_terms
      ∧ Forall2 category_of_opinion
                (List.filter (fun o => negb (Soup.contains "target" o)) opinions)
                new_cats.
Proof.
  induction opinions as [|o opinions IH]; intros terms cats r Hr.
  - injection Hr as <-. exists [], []. rewrite !app_nil_r.
    split; [done |]. split; constructor.
  - cbn [efold] in Hr.
    destruct (Semeval2016Task5Sub2.load_opinion (terms, cats) o) as [e|r1] eqn:Ho;
      [done |].
    cbn [ebind] in Hr. apply sub2_load_opinion_spec in Ho.
    cbn [List.filter]. destruct (Soup.contains "target" o); cbn [negb].
    + destruct Ho as (t & -> & Ht).
      apply IH in Hr as (nt & nc & -> & Hnt & Hnc).
      exists (t :: nt), nc. rewrite <- app_assoc.
      split; [done |]. split; [by constructor | done].
    + destruct Ho as (c & -> & Hc).
      apply IH in Hr as (nt & nc & -> & Hnt & Hnc).
      exists nt, (c :: nc). rewrite <- app_assoc.
      split; [done |]. split; [done | by constructor].
Qed.

Lemma sub2_load_review_spec doc_tag document :
  Semeval2016Task5Sub2.load_review doc_tag = Ok document →
  ∃ terms cats,
    document
    = AbsaDocument_default
        (join_all (map Soup.text (Soup.find_all "sentence" doc_tag))) None
        (Some cats) (Some terms)
        (Some (map (fun sentence_tag =>
                      AbsaSentence_default (Soup.text sentence_tag) None None None)
                   (Soup.find_all "sentence" doc_tag)))
    ∧ Forall2 term_of_opinion
        (List.filter (Soup.contains "target") (Soup.find_all "opinion" doc_tag))
        terms
    ∧ Forall2 category_of_opinion
        (List.filter (fun o => negb (Soup.contains "target" o))
                     (Soup.find_all "opinion" doc_tag)) cats.
Proof.
  unfold Semeval2016Task5Sub2.load_review.
  destruct (efold _ _ _) as [e|r] eqn:Hr; [done |].
  cbn [ebind]. intros [= <-].
  apply sub2_load_opinions_spec in Hr as (terms & cats & -> & Hterms & Hcats).
  exists terms, cats. cbn [fst snd app]. split; [| done]. f_equal.
  by rewrite List.map_map.
Qed.

(** X20. A document of [Semeval2016Task5Sub2]: the annotations belong to the
    document and its sentences carry none; the text is the texts of the
    sentences joined; an [opinion] element becomes an aspect term exactly when
    the string [target] is one of its children (the test is
    ['target' in opinion_tag], not a test on the attributes), and an aspect
    category otherwise. *)
Theorem sub2_document (doc_tag : Soup.node) (document : AbsaDocument) :
  Semeval2016Task5Sub2.load_review doc_tag = Ok document →
  ∃ terms cats sentences,
    doc_aspect_terms document = Some terms
    ∧ doc_aspect_categories document = Some cats
    ∧ absa_sentences document = Some sentences
    ∧ doc_text document = join_all (map text sentences)
    ∧ map text sentences = map Soup.text (Soup.find_all "sentence" doc_tag)
    ∧ Forall (fun s => aspect_terms s = None ∧ aspect_categories s = None
                       ∧ polarity s = None) sentences
    ∧ Forall2 term_of_opinion
        (List.filter (Soup.contains "target") (Soup.find_all "opinion" doc_tag))
        terms
    ∧ Forall2 category_of_opinion
        (List.filter (fun o => negb (Soup.contains "target" o))
                     (Soup.find_all "opinion" doc_tag)) cats.
Proof.
  intros Hdoc.
  apply sub2_load_review_spec in Hdoc as (terms & cats & -> & Hterms & Hcats).
  exists terms, cats. eexists.
  split; [done |]. split; [done |]. split; [done |].
  cbn [doc_text AbsaDocument_default]. rewrite List.map_map. cbn [text AbsaSentence_default].
  split; [done |]. split; [done |]. split; [| done].
  induction (Soup.find_all "sentence" doc_tag) as [|st l IH]; by constructor.
Qed.

Lemma sub2_document_witness :
  ∃ terms cats sentences,
    doc_aspect_terms
      (AbsaDocument_default "great pizza but never again" None
         (Some [mkAspectCategory (Some "FOOD#QUALITY") (Some "positive");
                mkAspectCategory (Some "RESTAURANT#GENERAL") (Some "negative")])
         (Some [])
         (Some [AbsaSentence_default "great pizza" None None None;
                AbsaSentence_default " but never again" None None None]))
    = Some terms
    ∧ doc_aspect_categories
        (AbsaDocument_default "great pizza but never again" None
           (Some [mkAspectCategory (Some "FOOD#QUALITY") (Some "positive");
                  mkAspectCategory (Some "RESTAURANT#GENERAL") (Some "negative")])
           (Some [])
           (Some [AbsaSentence_default "great pizza" None None None;
                  AbsaSentence_default " but never again" None None None]))
      = Some cats
    ∧ absa_sentences
        (AbsaDocument_default "great pizza but never again" None
           (Some [mkAspectCategory (Some "FOOD#QUALITY") (Some "positive");
                  mkAspectCategory (Some "RESTAURANT#GENERAL") (Some "negative")])
           (Some [])
           (Some [AbsaSentence_default "great pizza" None None None;
                  AbsaSentence_default " but never again" None None None]))
      = Some sentences
    ∧ doc_text
        (AbsaDocument_default "great pizza but never again" None
           (Some [mkAspectCategory (Some "FOOD#QUALITY") (Some "positive");
                  mkAspectCategory (Some "RESTAURANT#GENERAL") (Some "negative")])
           (Some [])
           (Some [AbsaSentence_default "great pizza" None None None;
                  AbsaSentence_default " but never again" None None None]))
      = join_all (map text sentences)
    ∧ map text sentences = map Soup.text (Soup.find_all "sentence" review_tag)
    ∧ Forall (fun s => aspect_terms s = None ∧ aspect_categories s = None
                       ∧ polarity s = None) sentences
    ∧ Forall2 term_of_opinion
        (List.filter (Soup.contains "target") (Soup.find_all "opinion" review_tag))
        terms
    ∧ Forall2 category_of_opinion
        (List.filter (fun o => negb (Soup.contains "target" o))
                     (Soup.find_all "opinion" review_tag)) cats.
Proof.
  apply (sub2_document review_tag).
  vm_compute. reflexivity.
Defined.

(** X21. In [Semeval2016Task5Sub2] an [opinion] element without children
    never gives an aspect term, whatever its attributes: when all [opinion]
    elements of a review are empty elements, the document has no aspect terms
    and one aspect category per [opinion] element. *)
Theorem sub2_empty_opinions_give_no_terms (doc_tag : Soup.node)
    (document : AbsaDocument) :
  Semeval2016Task5Sub2.load_review doc_tag = Ok document →
  Forall (fun o => ∃ name attrs, o = Soup.Tag name attrs [])
         (Soup.find_all "opinion" doc_tag) →
  doc_aspect_terms document = Some []
  ∧ ∃ cats,
      doc_aspect_categories document = Some cats
      ∧ Forall2 category_of_opinion (Soup.find_all "opinion" doc_tag) cats.
Proof.
  intros Hdoc Hempty.
  apply sub2_load_review_spec in Hdoc as (terms & cats & -> & Hterms & Hcats).
  cbn [doc_aspect_terms doc_aspect_categories AbsaDocument_default].
  assert (List.filter (Soup.contains "target") (Soup.find_all "opinion" doc_tag) = []
          ∧ List.filter (fun o => negb (Soup.contains "target" o))
                        (Soup.find_all "opinion" doc_tag)
            = Soup.find_all "opinion" doc_tag) as [Hnone Hall].
  { clear Hterms Hcats.
    induction Hempty as [|o l (name & attrs & ->) _ [IH1 IH2]]; [done |].
    cbn [List.filter Soup.contains existsb negb]. by rewrite IH1, IH2. }
  rewrite Hnone in Hterms. rewrite Hall in Hcats.
  apply Forall2_nil_inv_l in Hterms as ->. split; [done |]. by exists cats.
Qed.

Lemma sub2_empty_opinions_give_no_terms_witness :
  doc_aspect_terms
    (AbsaDocument_default "great pizza but never again" None
       (Some [mkAspectCategory (Some "FOOD#QUALITY") (Some "positive");
              mkAspectCategory (Some "RESTAURANT#GENERAL") (Some "negative")])
       (Some [])
       (Some [AbsaSentence_default "great pizza" None None None;
              AbsaSentence_default " but never again" None None None]))
  = Some []
  ∧ ∃ cats,
      doc_aspect_categories
        (AbsaDocument_default "great pizza but never again" None
           (Some [mkAspectCategory (Some "FOOD#QUALITY") (Some "positive");
                  mkAspectCategory (Some "RESTAURANT#GENERAL") (Some "negative")])
           (Some [])
           (Some [AbsaSentence_default "great pizza" None None None;
                  AbsaSentence_default " but never again" None None None]))
      = Some cats
      ∧ Forall2 category_of_opinion (Soup.find_all "opinion" review_tag) cats.
Proof.
  apply (sub2_empty_opinions_give_no_terms review_tag).
  - vm_compute. reflexivity.
  - repeat constructor; by eexists _, _.
Defined.

(** ** [Semeval2014Task4] *)

Lemma collect_spec {A B : Type} (f : A → exn + B) (xs : list A) (ys : list B) :
  Semeval2014Task4.collect f xs = Ok ys → Forall2 (fun x y => f x = Ok y) xs ys.
Proof.
  unfold Semeval2014Task4.collect. intros Hys.
  by apply efold_append in Hys as (ys' & -> & Hys).
Qed.

Lemma semeval14_load_file_spec soup data :
  Semeval2014Task4.load_file soup = Ok data → sentence_partition soup data.
Proof.
  destruct soup as [soup|]; cbn [Semeval2014Task4.load_file sentence_partition];
    [| by intros [= <-]].
  destruct (Semeval2014Task4.collect _ _) as [e|sentences] eqn:Hs; [done |].
  cbn [ebind]. intros [= <-]. exists sentences. split; [done |].
  apply collect_spec in Hs. eapply Forall2_impl; [exact Hs |].
  intros tag s. unfold Semeval2014Task4.load_sentence.
  destruct (Semeval2014Task4.collect Semeval2014Task4.load_aspect_term _)
    as [e|terms] eqn:Hterms; [done |].
  destruct (Semeval2014Task4.collect Semeval2014Task4.load_aspect_category _)
    as [e|cats] eqn:Hcats; [done |].
  cbn [ebind]. intros [= <-]. split; [done |]. split; [done |].
  exists terms, cats. apply collect_spec in Hterms, Hcats.
  split; [done |]. split; [done |]. split; [done |]. split; [done |].
  clear Hcats. induction Hterms as [|o t os ts Ht _ IH]; constructor; [| done].
  revert Ht. unfold Semeval2014Task4.load_aspect_term.
  destruct (Soup.getitem o "term") as [e|term]; [done |].
  destruct (Soup.getitem o "polarity") as [e|pol]; [done |].
  destruct (Soup.getitem o "from") as [e|f]; [done |].
  destruct (Soup.getitem o "to") as [e|f']; [done |].
  cbn [ebind]. unfold AspectTerm_of_strings.
  destruct (Py.int_of_str f) as [e|i]; [done |].
  destruct (Py.int_of_str f') as [e|j]; [done |].
  cbn [ebind]. intros [= <-]. split; [done | by eexists].
Qed.

(** X22. A corpus loaded by [Semeval2014Task4._load_semeval_by_filepath]: a
    file that is not given gives no partition (the dev partition comes from
    the third file); a file gives one document per [sentence] element, holding
    exactly that sentence and its text; the aspect terms of a sentence are its
    [aspectterm] elements and its aspect categories its [aspectcategory]
    elements, in order; the aspect terms carry no category. *)
Theorem semeval14_loaded_corpus (train_soup test_soup val_soup : option Soup.node)
    (self : partitions AbsaDocument) :
  Semeval2014Task4._load_semeval_by_filepath train_soup test_soup val_soup
  = Ok self →
  sentence_partition train_soup (train self)
  ∧ sentence_partition val_soup (dev self)
  ∧ sentence_partition test_soup (test self).
Proof.
  unfold Semeval2014Task4._load_semeval_by_filepath.
  destruct (Semeval2014Task4.load_file train_soup) as [e|tr] eqn:Htr; [done |].
  destruct (Semeval2014Task4.load_file test_soup) as [e|te] eqn:Hte; [done |].
  destruct (Semeval2014Task4.load_file val_soup) as [e|dv] eqn:Hdv; [done |].
  cbn [ebind]. intros [= <-]. cbn [train dev test].
  split; [| split]; by apply semeval14_load_file_spec.
Qed.

Lemma semeval14_loaded_corpus_witness :
  sentence_partition (Some sentences_markup) (train sentences_corpus)
  ∧ sentence_partition None (dev sentences_corpus)
  ∧ sentence_partition None (test sentences_corpus).
Proof.
  apply (semeval14_loaded_corpus (Some sentences_markup) None None sentences_corpus).
  vm_compute. reflexivity.
Defined.
(** * The delimited-text adapter *)





Section Bdci.
Import Bdci2019InternetNews.

Lemma load_sample_spec data_rows label_rows i s :
  load_sample data_rows label_rows i = Ok s →
  ∃ sample_id columns label_row,
    data_rows !! i = Some (sample_id :: columns)
    ∧ label_rows !! i = Some label_row
    ∧ label_row !! 1%nat = Some (plain_polarity s)
    ∧ plain_sample_id s = sample_id
    ∧ plain_text s = Py.join "。" columns.
Proof.
  unfold load_sample, Py.index.
  destruct (data_rows !! i) as [[|sample_id columns]|]; [done | | done].
  cbn [lookup list_lookup ebind drop].
  destruct (label_rows !! i) as [label_row|]; [| done]. cbn [ebind].
  destruct (label_row !! 1%nat) as [label|] eqn:Hlabel; [| done]. cbn [ebind].
  intros [= <-]. by exists sample_id, columns, label_row.
Qed.

Lemma load_sample_raises data_rows label_rows i e :
  load_sample data_rows label_rows i = Raise e → e = IndexError.
Proof.
  unfold load_sample, Py.index.
  destruct (data_rows !! i) as [[|sample_id columns]|];
    [by intros [= <-] | | by intros [= <-]].
  cbn [lookup list_lookup ebind drop].
  destruct (label_rows !! i) as [label_row|]; [| by intros [= <-]]. cbn [ebind].
  destruct (label_row !! 1%nat) as [label|]; [done | by intros [= <-]].
Qed.

Lemma load_samples_spec data_rows label_rows samples :
  load_samples data_rows label_rows = Ok samples →
  length samples = length data_rows
  ∧ (length data_rows ≤ length label_rows)%nat
  ∧ ∀ (i : nat) s, samples !! i = Some s →
      ∃ sample_id columns label_row,
        data_rows !! i = Some (sample_id :: columns)
        ∧ label_rows !! i = Some label_row
        ∧ label_row !! 1%nat = Some (plain_polarity s)
        ∧ plain_sample_id s = sample_id
        ∧ plain_text s = Py.join "。" columns.
Proof.
  unfold load_samples. intros Hs.
  apply efold_append in Hs as (ys & -> & Hys). cbn [app].
  pose proof (Forall2_length _ _ _ Hys) as Hlen. rewrite length_seq in Hlen.
  assert (∀ (i : nat) s, ys !! i = Some s →
            load_sample data_rows label_rows i = Ok s) as Hi.
  { intros i s Hs.
    destruct (Forall2_lookup_r _ _ _ _ _ Hys Hs) as (j & Hj & Hload).
    apply lookup_seq in Hj as [-> _]. done. }
  split; [done |]. split.
  - destruct (length data_rows) as [|n] eqn:Hn; [lia |].
    destruct (lookup_lt_is_Some_2 ys n ltac:(lia)) as [s Hs].
    apply Hi, load_sample_spec in Hs as (? & ? & ? & _ & Hl & _).
    apply lookup_lt_Some in Hl. lia.
  - intros i s Hs. by apply load_sample_spec, Hi.
Qed.

Lemma load_samples_raises data_rows label_rows e :
  load_samples data_rows label_rows = Raise e → e = IndexError.
Proof.
  unfold load_samples. apply efold_raises. intros acc i e'.
  destruct (load_sample data_rows label_rows i) as [e1|s] eqn:Hs; [| done].
  cbn [ebind]. intros [= <-]. by eapply load_sample_raises.
Qed.
End Bdci.

(** X24. [Bdci2019InternetNews._load_data] pairs the data rows and the label
    rows by position: sample [i] has the first column of data row [i] as its
    id, the other columns joined by the full stop as its text, and the second
    column of label row [i] as its polarity; the ids of the label rows are not
    looked at and label rows beyond the data rows are ignored. There is one
    sample per data row, and no dev partition. *)
Theorem bdci_samples_paired_by_position
    (train_rows train_label_rows test_rows test_label_rows : list (list string))
    (self : partitions Text) :
  Bdci2019InternetNews._load_data train_rows train_label_rows test_rows
                                  test_label_rows = Ok self →
  dev self = None
  ∧ ∀ k data_rows label_rows,
      (k = Train ∧ data_rows = train_rows ∧ label_rows = train_label_rows)
      ∨ (k = Test ∧ data_rows = test_rows ∧ label_rows = test_label_rows) →
      ∃ samples,
        getitem self k = Some samples
        ∧ length samples = length data_rows
        ∧ (length data_rows ≤ length label_rows)%nat
        ∧ ∀ (i : nat) s, samples !! i = Some s →
            ∃ sample_id columns label_row,
              data_rows !! i = Some (sample_id :: columns)
              ∧ label_rows !! i = Some label_row
              ∧ label_row !! 1%nat = Some (plain_polarity s)
              ∧ plain_sample_id s = sample_id
              ∧ plain_text s = Py.join "。" columns.
Proof.
  unfold Bdci2019InternetNews._load_data.
  destruct (Bdci2019InternetNews.load_samples train_rows train_label_rows)
    as [e|tr] eqn:Htr; [done |].
  destruct (Bdci2019InternetNews.load_samples test_rows test_label_rows)
    as [e|te] eqn:Hte; [done |].
  cbn [ebind]. intros [= <-]. split; [done |].
  intros k data_rows label_rows [(-> & -> & ->)|(-> & -> & ->)]; cbn [getitem train test].
  - exists tr. split; [done |]. by apply load_samples_spec.
  - exists te. split; [done |]. by apply load_samples_spec.
Qed.

Lemma bdci_samples_paired_by_position_witness :
  dev (mkPartitions (Some [mkText "title。body" "2" "id1"]) None (Some [])) = None
  ∧ ∀ k data_rows label_rows,
      (k = Train ∧ data_rows = [["id1"; "title"; "body"]]
       ∧ label_rows = [["other"; "2"]; ["id1"; "0"]])
      ∨ (k = Test ∧ data_rows = [] ∧ label_rows = []) →
      ∃ samples,
        getitem (mkPartitions (Some [mkText "title。body" "2" "id1"]) None (Some []))
                k = Some samples
        ∧ length samples = length data_rows
        ∧ (length data_rows ≤ length label_rows)%nat
        ∧ ∀ (i : nat) s, samples !! i = Some s →
            ∃ sample_id columns label_row,
              data_rows !! i = Some (sample_id :: columns)
              ∧ label_rows !! i = Some label_row
              ∧ label_row !! 1%nat = Some (plain_polarity s)
              ∧ plain_sample_id s = sample_id
              ∧ plain_text s = Py.join "。" columns.
Proof.
  apply (bdci_samples_paired_by_position
           [["id1"; "title"; "body"]] [["other"; "2"]; ["id1"; "0"]] [] []).
  vm_compute. reflexivity.
Defined.

(** X25. [Bdci2019InternetNews._load_data] raises [IndexError] when a label
    file has fewer rows than its data file. *)
Theorem bdci_fewer_labels_raise
    (train_rows train_label_rows test_rows test_label_rows : list (list string)) :
  (length train_label_rows < length train_rows)%nat
  ∨ (length test_label_rows < length test_rows)%nat →
  Bdci2019InternetNews._load_data train_rows train_label_rows test_rows
                                  test_label_rows = Raise IndexError.
Proof.
  intros Hfew. unfold Bdci2019InternetNews._load_data.
  destruct (Bdci2019InternetNews.load_samples train_rows train_label_rows)
    as [e|tr] eqn:Htr.
  - apply load_samples_raises in Htr as ->. done.
  - cbn [ebind]. apply load_samples_spec in Htr as (_ & Htr & _).
    destruct (Bdci2019InternetNews.load_samples test_rows test_label_rows)
      as [e|te] eqn:Hte.
    + apply load_samples_raises in Hte as ->. done.
    + apply load_samples_spec in Hte as (_ & Hte & _). lia.
Qed.

Lemma bdci_fewer_labels_raise_witness :
  Bdci2019InternetNews._load_data [["id1"; "title"]; ["id2"; "title"]]
                                  [["id1"; "1"]] [] []
  = Raise IndexError.
Proof.
  apply (bdci_fewer_labels_raise [["id1"; "title"]; ["id2"; "title"]]
                                 [["id1"; "1"]] [] []).
  left. vm_compute. lia.
Defined.
(** * The category task of [Semeval2016Task5ChCameSub1] *)

(** The loops over the documents and sentences of a partition, for a body
    that appends [F x] to the samples and updates the variables by [G]. *)
Lemma for_each_sentence_fold {S V : Type}
    (per : list S * V → AbsaSentence → exn + list S * V)
    (F : AbsaSentence → list S) (G : V → AbsaSentence → V) :
  (∀ samples v x r, per (samples, v) x = Ok r → r = (samples ++ F x, G v x)) →
  ∀ data vars r,
    BaseDataset.for_each_sentence per vars data = Ok r →
    r = (concat (map F (sentences_of data)), fold_left G (sentences_of data) vars).
Proof.
  intros Hper.
  assert (∀ xs samples v r,
            efold per (samples, v) xs = Ok r →
            r = (samples ++ concat (map F xs), fold_left G xs v)) as Hinner.
  { induction xs as [|x xs IH]; intros samples v r Hr.
    - injection Hr as <-. cbn. by rewrite app_nil_r.
    - cbn [efold] in Hr. destruct (per (samples, v) x) as [e|r1] eqn:Hx; [done |].
      apply Hper in Hx as ->. cbn [ebind] in Hr. apply IH in Hr as ->.
      cbn [map concat fold_left]. by rewrite <- app_assoc. }
  assert (∀ data samples vars r,
            efold (fun acc document =>
                     let? sentences := iter (absa_sentences document) in
                     efold per acc sentences) (samples, vars) data = Ok r →
            r = (samples ++ concat (map F (sentences_of data)),
                 fold_left G (sentences_of data) vars)) as Houter;
    [| intros data vars r Hr; by apply Houter in Hr].
  unfold sentences_of.
  induction data as [|document data IH]; intros samples vars r Hr.
  - injection Hr as <-. cbn. by rewrite app_nil_r.
  - cbn [efold] in Hr.
    destruct (absa_sentences document) as [sentences|] eqn:Hdoc; [| done].
    cbn [iter ebind] in Hr.
    destruct (efold per (samples, vars) sentences) as [e|r1] eqn:Hs; [done |].
    apply Hinner in Hs as ->. cbn [ebind] in Hr. apply IH in Hr as ->.
    cbn [map concat]. rewrite Hdoc. cbn [default].
    by rewrite List.map_app, concat_app, fold_left_app, <- app_assoc.
Qed.

Lemma category_fold cats :
  ∀ label (vars : label_set * label_set),
    fold_left (fun lv aspect_category =>
                 (fst lv ++ [(category aspect_category,
                              category_polarity aspect_category)],
                  (fst (snd lv) ∪ {[category aspect_category]},
                   snd (snd lv) ∪ {[category_polarity aspect_category]})))
              cats (label, vars)
    = (label ++ map (fun c => (category c, category_polarity c)) cats,
       (fst vars ∪ list_to_set (map category cats),
        snd vars ∪ list_to_set (map category_polarity cats))).
Proof.
  induction cats as [|c cats IH]; intros label [cs ps]; cbn [fold_left map list_to_set fst snd].
  - by rewrite app_nil_r, !(right_id_L ∅ (∪)).
  - rewrite IH. cbn [fst snd]. by rewrite <- app_assoc, !(assoc_L (∪)).
Qed.

Lemma category_sentence_sample samples vars s r :
  Semeval2016Task5ChCameSub1.acd_and_sc_sentence (samples, vars) s = Ok r →
  r = (samples ++ category_samples_of s,
       (fst vars ∪ list_to_set (map fst (category_label_of s)),
        snd vars ∪ list_to_set (map snd (category_label_of s)))).
Proof.
  unfold Semeval2016Task5ChCameSub1.acd_and_sc_sentence, category_samples_of,
    category_label_of.
  destruct (aspect_categories s) as [cats|]; [| done].
  cbn [iter ebind default]. rewrite category_fold. cbn [app].
  rewrite !List.map_map. cbn [fst snd]. unfold id.
  destruct (map _ cats) as [|pair label] eqn:Hlabel; intros [= <-].
  - by rewrite app_nil_r.
  - done.
Qed.

(** X26. In the category task of [Semeval2016Task5ChCameSub1] (and of
    [Semeval2016Task5ChPhnsSub1] and [Semeval2016Task5LaptSub1], which define
    the same function) the samples of a partition are, in order, the sentences
    that have an aspect category, each with one pair per aspect category; no
    sample has an empty label; and the two sets collected for the vocabularies
    grow by exactly the categories and the polarities of the emitted
    labels. *)
Theorem category_task_vocabulary_is_emitted (vars : label_set * label_set)
    (data : list AbsaDocument)
    (r : list Semeval2016Task5ChCameSub1.sample * (label_set * label_set)) :
  BaseDataset.for_each_sentence Semeval2016Task5ChCameSub1.acd_and_sc_sentence
                                vars data = Ok r →
  fst r = concat (map category_samples_of (sentences_of data))
  ∧ Forall (fun sample => snd sample ≠ []) (fst r)
  ∧ fst (snd r)
    = fst vars ∪ ⋃ (map (fun sample => list_to_set (map fst (snd sample))) (fst r))
  ∧ snd (snd r)
    = snd vars ∪ ⋃ (map (fun sample => list_to_set (map snd (snd sample))) (fst r)).
Proof.
  intros Hr.
  apply (for_each_sentence_fold _ category_samples_of
           (fun v s => (fst v ∪ list_to_set (map fst (category_label_of s)),
                        snd v ∪ list_to_set (map snd (category_label_of s)))))
    in Hr as ->; [| apply category_sentence_sample].
  cbn [fst snd]. split; [done |]. revert vars.
  induction (sentences_of data) as [|s l IH]; intros vars.
  - cbn. by rewrite !(right_id_L ∅ (∪)).
  - cbn [map concat fold_left]. destruct (IH
      (fst vars ∪ list_to_set (map fst (category_label_of s)),
       snd vars ∪ list_to_set (map snd (category_label_of s))))
      as (Hall & Hc & Hp).
    rewrite Hc, Hp. cbn [fst snd].
    pose proof (eq_refl (category_samples_of s)) as Hs.
    unfold category_samples_of at 2 in Hs.
    destruct (category_label_of s) as [|pair label] eqn:Hlabel; rewrite Hs.
    + cbn [app map list_to_set]. by rewrite !(right_id_L ∅ (∪)).
    + cbn [app map union_list foldr snd]. split; [by constructor |].
      by rewrite !(assoc_L (∪)).
Qed.

Lemma category_task_vocabulary_is_emitted_witness :
  fst ([("good food slow waiter", [(Some "FOOD#QUALITY", Some "positive")])],
       (({[Some "FOOD#QUALITY"]} : label_set), ({[Some "positive"]} : label_set)))
  = concat (map category_samples_of
              (sentences_of [document_of plain_sentence;
                             document_of two_line_sentence]))
  ∧ Forall (fun sample : Semeval2016Task5ChCameSub1.sample => snd sample ≠ [])
      (fst ([("good food slow waiter", [(Some "FOOD#QUALITY", Some "positive")])],
            (({[Some "FOOD#QUALITY"]} : label_set),
             ({[Some "positive"]} : label_set))))
  ∧ fst (snd ([("good food slow waiter",
                [(Some "FOOD#QUALITY", Some "positive")])],
              (({[Some "FOOD#QUALITY"]} : label_set),
               ({[Some "positive"]} : label_set))))
    = fst ((∅ : label_set), (∅ : label_set))
      ∪ ⋃ (map (fun sample : Semeval2016Task5ChCameSub1.sample =>
                  list_to_set (map fst (snd sample)))
               (fst ([("good food slow waiter",
                       [(Some "FOOD#QUALITY", Some "positive")])],
                     (({[Some "FOOD#QUALITY"]} : label_set),
                      ({[Some "positive"]} : label_set)))))
  ∧ snd (snd ([("good food slow waiter",
                [(Some "FOOD#QUALITY", Some "positive")])],
              (({[Some "FOOD#QUALITY"]} : label_set),
               ({[Some "positive"]} : label_set))))
    = snd ((∅ : label_set), (∅ : label_set))
      ∪ ⋃ (map (fun sample : Semeval2016Task5ChCameSub1.sample =>
                  list_to_set (map snd (snd sample)))
               (fst ([("good food slow waiter",
                       [(Some "FOOD#QUALITY", Some "positive")])],
                     (({[Some "FOOD#QUALITY"]} : label_set),
                      ({[Some "positive"]} : label_set))))).
Proof.
  apply (category_task_vocabulary_is_emitted (∅, ∅)
           [document_of plain_sentence; document_of two_line_sentence]
           ([("good food slow waiter", [(Some "FOOD#QUALITY", Some "positive")])],
            ({[Some "FOOD#QUALITY"]}, {[Some "positive"]}))).
  vm_compute. reflexivity.
Defined.
(** * Adapters and derivations together *)

Lemma sub2_load_file_spec soup data :
  Semeval2016Task5Sub2.load_file soup = Ok (Some data) →
  Forall (fun document =>
            ∃ sentences,
              absa_sentences document = Some sentences
              ∧ Forall (fun s => aspect_terms s = None) sentences)
         data.
Proof.
  destruct soup as [soup|]; cbn [Semeval2016Task5Sub2.load_file]; [| done].
  destruct (Semeval2014Task4.collect _ _) as [e|docs] eqn:Hdocs; [done |].
  cbn [ebind]. intros [= <-]. apply collect_spec in Hdocs.
  induction Hdocs as [|tag doc tags docs Hdoc _ IH]; constructor; [| done].
  apply sub2_load_review_spec in Hdoc as (terms & cats & -> & _ & _).
  eexists. split; [done |].
  induction (Soup.find_all "sentence" tag) as [|st l IHl]; by constructor.
Qed.

(** X27. The corpora of [Semeval2016Task5Sub2] cannot feed the term task of
    [BaseDataset]: on a loaded corpus with at least one sentence in some
    partition, [generate_atsa_data] raises [TypeError], because the adapter
    gives the sentences no list of aspect terms. *)
Theorem sub2_corpus_has_no_term_task `{Sklearn}
    (train_soup test_soup : option Soup.node) (self : partitions AbsaDocument)
    (test_size : option float) (st : store (string * list AspectTerm))
    (k : data_type) (data : list AbsaDocument) :
  Semeval2016Task5Sub2._load_data_by_filepath train_soup test_soup = Ok self →
  getitem self k = Some data →
  sentences_of data ≠ [] →
  fst (BaseDataset.generate_atsa_data self test_size st) = Raise TypeError.
Proof.
  intros Hself Hk Hsome.
  apply (atsa_raises_without_term_lists self test_size st k data Hk).
  intros Hterms. apply Hsome. clear Hsome.
  assert (Forall (fun document =>
                    ∃ sentences,
                      absa_sentences document = Some sentences
                      ∧ Forall (fun s => aspect_terms s = None) sentences)
                 data) as Hnone.
  { revert Hself. unfold Semeval2016Task5Sub2._load_data_by_filepath.
    destruct (Semeval2016Task5Sub2.load_file train_soup) as [e|tr] eqn:Htr; [done |].
    destruct (Semeval2016Task5Sub2.load_file test_soup) as [e|te] eqn:Hte; [done |].
    cbn [ebind]. intros [= <-].
    destruct k; cbn [getitem train dev test] in Hk; [| done |]; subst;
      by eapply sub2_load_file_spec. }
  unfold has_terms in Hterms. unfold sentences_of. clear Hk Hself.
  induction Hnone as [|document data' (sentences & Hs & Hnone') _ IH]; [done |].
  apply Forall_cons in Hterms as [(ss & Hss & Hsome) Hterms].
  rewrite Hs in Hss. injection Hss as <-.
  cbn [map concat]. rewrite Hs, (IH Hterms). cbn [default].
  destruct sentences as [|s sentences]; [done |].
  apply Forall_cons in Hnone' as [Hn _]. apply Forall_cons in Hsome as [[t Ht] _].
  by rewrite Hn in Ht.
Qed.

Lemma sub2_corpus_has_no_term_task_witness :
  fst (BaseDataset.generate_atsa_data sub2_corpus None
         (@mkStore rotating_sklearn _ (mkPartitions None None None) 0))
  = Raise TypeError.
Proof.
  apply (@sub2_corpus_has_no_term_task rotating_sklearn (Some review_markup) None
           sub2_corpus None
           (@mkStore rotating_sklearn _ (mkPartitions None None None) 0) Train
           [AbsaDocument_default "great pizza but never again" None
              (Some [mkAspectCategory (Some "FOOD#QUALITY") (Some "positive");
                     mkAspectCategory (Some "RESTAURANT#GENERAL")
                                      (Some "negative")])
              (Some [])
              (Some [AbsaSentence_default "great pizza" None None None;
                     AbsaSentence_default " but never again" None None None])]).
  - vm_compute. reflexivity.
  - reflexivity.
  - vm_compute. discriminate.
Defined.

(** The category task of [Semeval2016Task5ChCameSub1] on a labelled
    sentence. *)
Lemma category_sentence_no_None samples vars s :
  labelled_sentence s → no_None_pair vars →
  ∃ r, Semeval2016Task5ChCameSub1.acd_and_sc_sentence (samples, vars) s = Ok r
       ∧ no_None_pair (snd r).
Proof.
  intros (terms & cats & _ & Hcats & _ & Hall) [HC HP].
  assert (no_None_pair
            (fst vars ∪ list_to_set (map fst (category_label_of s)),
             snd vars ∪ list_to_set (map snd (category_label_of s)))) as HI.
  { unfold category_label_of, no_None_pair. rewrite Hcats. cbn [default fst snd].
    rewrite !List.map_map. cbn [fst snd].
    rewrite !elem_of_union, !elem_of_list_to_set.
    rewrite Forall_forall in Hall.
    split; intros [?|Hin]; try done;
      apply list_elem_of_In, in_map_iff in Hin as (c & Hc & Hin);
      apply list_elem_of_In in Hin; destruct (Hall c Hin) as [[? Hx] [? Hy]];
      congruence. }
  unfold Semeval2016Task5ChCameSub1.acd_and_sc_sentence.
  pose proof (category_sentence_sample samples vars s) as Hs.
  unfold Semeval2016Task5ChCameSub1.acd_and_sc_sentence in Hs.
  destruct (let? cats := iter (aspect_categories s) in _) as [e|r] eqn:Hr.
  - rewrite Hcats in Hr. cbn [iter ebind] in Hr.
    destruct (fold_left _ cats ([], vars)) as [[|pair label] vars']; done.
  - exists r. split; [done |]. by rewrite (Hs r eq_refl).
Qed.

Lemma category_partition_no_None vars data :
  labelled data → no_None_pair vars →
  ∃ r, BaseDataset.for_each_sentence
         Semeval2016Task5ChCameSub1.acd_and_sc_sentence vars data = Ok r
       ∧ no_None_pair (snd r).
Proof.
  intros Hdata HI. unfold BaseDataset.for_each_sentence.
  apply (efold_invariant _
           (fun document =>
              ∃ sentences, absa_sentences document = Some sentences
                           ∧ doc_text document = join_all (map text sentences)
                           ∧ Forall labelled_sentence sentences)
           (fun acc => no_None_pair (snd acc)));
    [| exact Hdata | exact HI].
  intros acc document (sentences & -> & _ & Hall) Hacc. cbn [iter ebind].
  apply (efold_invariant _ labelled_sentence
           (fun acc => no_None_pair (snd acc))); [| done | done].
  intros [samples vs1] s Hs Hvs. by apply category_sentence_no_None.
Qed.

Lemma category_samples_entries vars data x :
  BaseDataset.for_each_sentence Semeval2016Task5ChCameSub1.acd_and_sc_sentence
                                vars data = Ok x →
  fst x = concat (map category_samples_of (sentences_of data)).
Proof.
  intros Hx.
  by apply (for_each_sentence_fold _ category_samples_of
              (fun v s => (fst v ∪ list_to_set (map fst (category_label_of s)),
                           snd v ∪ list_to_set (map snd (category_label_of s)))))
    in Hx as ->; [| apply category_sentence_sample].
Qed.

(** X28. [Semeval2016Task5ChCameSub1] loads its files with the adapter of
    [Semeval2015Task12]; on every corpus this adapter loads, its own
    [generate_acd_and_sc_data] with [dev_size=0.0] returns normally, the
    train and test partitions of the result hold one sample per sentence with
    an aspect category, the dev partition is the test partition, and neither
    vocabulary holds a [None]. *)
Theorem category_task_on_loaded_corpus `{Sklearn}
    (train_soup test_soup : option Soup.node) (self : partitions AbsaDocument)
    (dev_size : float) (st : store Semeval2016Task5ChCameSub1.sample) :
  Semeval2015Task12._load_data_by_filepath train_soup test_soup = Ok self →
  nonzero dev_size = false →
  ∃ r categories polarities,
    fst (Semeval2016Task5ChCameSub1.generate_acd_and_sc_data self dev_size st)
    = Ok (r, categories, polarities)
    ∧ train r
      = (fun data => concat (map category_samples_of (sentences_of data)))
          <$> train self
    ∧ test r
      = (fun data => concat (map category_samples_of (sentences_of data)))
          <$> test self
    ∧ dev r = test r
    ∧ Forall is_Some categories
    ∧ Forall is_Some polarities.
Proof.
  intros Hself Hnz.
  assert (dev self = None) as Hdev by (by apply load_data_spec in Hself as (_ & ? & _)).
  unfold Semeval2016Task5ChCameSub1.generate_acd_and_sc_data.
  unfold mbind at 1. unfold BaseDataset.new_result at 1.
  set (st0 := mkStore (mkPartitions None None None) (np_random st)).
  set (per := BaseDataset.for_each_sentence
                Semeval2016Task5ChCameSub1.acd_and_sc_sentence).
  unfold mbind at 1.
  destruct (for_each_partition_derive per self (∅, ∅) st0) as (Hfst & _ & Hres).
  destruct (derive_invariant per labelled no_None_pair self (result st0, (∅, ∅)))
    as (acc & Hacc & HI).
  { intros v data. apply category_partition_no_None. }
  { intros k data. by eapply load_data_labelled. }
  { split; apply not_elem_of_empty. }
  rewrite Hacc in Hfst. cbn [ebind] in Hfst. specialize (Hres acc Hacc).
  destruct (BaseDataset.for_each_partition per self (∅, ∅) st0) as [[e|v] st1];
    cbn [fst snd] in Hfst, Hres; [done |].
  injection Hfst as ->.
  pose proof (derive_entries per _ self _ _ category_samples_entries Hacc) as Hk.
  pose proof (Hk Train) as Htr. pose proof (Hk Dev) as Hdv.
  pose proof (Hk Test) as Hte.
  cbn [getitem] in Htr, Hdv, Hte. rewrite Hdev in Hdv.
  cbn [fst result st0 train dev test] in Htr, Hdv, Hte.
  unfold mbind at 1.
  rewrite generate_dev_data_alias by (by rewrite ?Hres).
  destruct HI as (HC & HP).
  destruct (sorted_labels_returns _ HC) as (categories & Hcats & Hsome_c).
  destruct (sorted_labels_returns _ HP) as (polarities & Hpols & Hsome_p).
  unfold mbind, lift, mret, BaseDataset.get_result.
  rewrite Hcats, Hpols. cbn [fst result].
  eexists _, categories, polarities. split; [done |].
  cbn [train dev test]. rewrite Hres, Htr, Hte.
  split; [by destruct (train self) |]. split; [by destruct (test self) | done].
Qed.

Lemma category_task_on_loaded_corpus_witness :
  ∃ r categories polarities,
    fst (Semeval2016Task5ChCameSub1.generate_acd_and_sc_data review_corpus 0%float
           (@mkStore rotating_sklearn _ (mkPartitions None None None) 0))
    = Ok (r, categories, polarities)
    ∧ train r
      = (fun data => concat (map category_samples_of (sentences_of data)))
          <$> train review_corpus
    ∧ test r
      = (fun data => concat (map category_samples_of (sentences_of data)))
          <$> test review_corpus
    ∧ dev r = test r
    ∧ Forall is_Some categories
    ∧ Forall is_Some polarities.
Proof.
  apply (@category_task_on_loaded_corpus rotating_sklearn (Some review_markup) None
           review_corpus 0%float
           (@mkStore rotating_sklearn _ (mkPartitions None None None) 0)).
  - vm_compute. reflexivity.
  - reflexivity.
Defined.
Lemma sentence_partition_termed soup data :
  sentence_partition soup (Some data) →
  has_terms data ∧ None ∉ polarities_of (Some data).
Proof.
  destruct soup as [soup|]; [| done]. intros (sentences & [= ->] & Hall).
  unfold has_terms, polarities_of, sentences_of. cbn [default]. unfold id.
  induction Hall as [|tag s tags ss Hs _ [IH1 IH2]].
  - split; [constructor | apply not_elem_of_empty].
  - destruct Hs as (_ & _ & terms & cats & Hterms & _ & _ & _ & Hpol).
    cbn [map concat document_of absa_sentences AbsaDocument_default default app
         union_list foldr].
    split.
    + constructor; [| done]. exists [s]. split; [done |].
      constructor; [by eexists | constructor].
    + rewrite elem_of_union. intros [Hin|Hin]; [| done].
      rewrite Hterms in Hin. cbn [default] in Hin.
      apply elem_of_list_to_set, list_elem_of_In, in_map_iff in Hin
        as (t & Ht & Hin).
      rewrite Forall_forall in Hpol. apply list_elem_of_In in Hin.
      destruct (Hpol t Hin) as [_ [p Hp]]. congruence.
Qed.

Lemma semeval14_partitions_termed train_soup test_soup val_soup self k data :
  Semeval2014Task4._load_semeval_by_filepath train_soup test_soup val_soup
  = Ok self →
  getitem self k = Some data →
  has_terms data ∧ None ∉ polarities_of (Some data).
Proof.
  unfold Semeval2014Task4._load_semeval_by_filepath.
  destruct (Semeval2014Task4.load_file train_soup) as [e|tr] eqn:Htr; [done |].
  destruct (Semeval2014Task4.load_file test_soup) as [e|te] eqn:Hte; [done |].
  destruct (Semeval2014Task4.load_file val_soup) as [e|dv] eqn:Hdv; [done |].
  cbn [ebind]. intros [= <-] Hk.
  apply semeval14_load_file_spec in Htr, Hte, Hdv.
  destruct k; cbn [getitem train dev test] in Hk; subst;
    by eapply sentence_partition_termed.
Qed.

(** X29. Loading and the term task compose for [Semeval2014Task4]: on every
    corpus that [_load_semeval_by_filepath] loads, [generate_atsa_data] with
    [test_size=None] returns normally, every partition of the result holds one
    sample per sentence of the corpus (absent partitions stay absent), and
    the polarity vocabulary holds no [None]. *)
Theorem semeval14_corpus_has_term_task `{Sklearn}
    (train_soup test_soup val_soup : option Soup.node)
    (self : partitions AbsaDocument) (st : store (string * list AspectTerm)) :
  Semeval2014Task4._load_semeval_by_filepath train_soup test_soup val_soup
  = Ok self →
  ∃ r polarities,
    fst (BaseDataset.generate_atsa_data self None st) = Ok (r, polarities)
    ∧ (∀ k, getitem r k
            = (fun data => map atsa_sample_of (sentences_of data))
                <$> getitem self k)
    ∧ Forall is_Some polarities.
Proof.
  intros Hself.
  unfold BaseDataset.generate_atsa_data.
  unfold mbind at 1. unfold BaseDataset.new_result at 1.
  set (st0 := mkStore (mkPartitions None None None) (np_random st)).
  unfold mbind at 1.
  destruct (for_each_partition_derive BaseDataset.atsa_samples self ∅ st0)
    as (Hfst & _ & Hres).
  destruct (derive_invariant BaseDataset.atsa_samples
              (fun data => has_terms data ∧ None ∉ polarities_of (Some data))
              (fun v : label_set => None ∉ v) self (result st0, ∅))
    as (acc & Hacc & HI).
  { intros v data [Hterms Hnone] Hv.
    destruct (atsa_samples_outcome v data) as [[_ [x Hx]]|[Hnot _]]; [| done].
    exists x. split; [done |].
    rewrite (atsa_samples_polarities data v x Hx), elem_of_union.
    by intros [?|?]. }
  { intros k data. by eapply semeval14_partitions_termed. }
  { apply not_elem_of_empty. }
  rewrite Hacc in Hfst. cbn [ebind] in Hfst. specialize (Hres acc Hacc).
  destruct (BaseDataset.for_each_partition _ self ∅ st0) as [[e|v] st1];
    cbn [fst snd] in Hfst, Hres; [done |].
  injection Hfst as ->.
  pose proof (derive_entries _ _ self _ _ atsa_samples_entries Hacc) as Hk.
  destruct (sorted_labels_returns _ HI) as (polarities & Hpols & Hsome).
  unfold mbind, mret, lift, read, BaseDataset.get_result.
  assert (∀ d : option (list (string * list AspectTerm)),
            match d with
            | Some _ | None => (Ok tt : exn + unit, st1)
            end = (Ok tt, st1)) as Hd by (by intros []).
  destruct (getitem (result st1) Dev); rewrite Hpols; cbn [fst];
    exists (result st1), polarities; (split; [done |]); (split; [| done]);
    intros k; rewrite Hres, (Hk k); cbn [fst result st0];
    by destruct k, (train self), (dev self), (test self).
Qed.

Lemma semeval14_corpus_has_term_task_witness :
  ∃ r polarities,
    fst (BaseDataset.generate_atsa_data sentences_corpus None
           (@mkStore rotating_sklearn _ (mkPartitions None None None) 0))
    = Ok (r, polarities)
    ∧ (∀ k, getitem r k
            = (fun data => map atsa_sample_of (sentences_of data))
                <$> getitem sentences_corpus k)
    ∧ Forall is_Some polarities.
Proof.
  apply (@semeval14_corpus_has_term_task rotating_sklearn (Some sentences_markup)
           None None sentences_corpus
           (@mkStore rotating_sklearn _ (mkPartitions None None None) 0)).
  vm_compute. reflexivity.
Defined.
(** * The category task of [Semeval2014Task4Rest] *)

Lemma rest_sentence_sample samples vars s r :
  Semeval2014Task4Rest.acd_and_sc_sentence (samples, vars) s = Ok r →
  r = (samples ++ [(Py.re_sub_class " " (text s), category_label_of s)],
       (fst vars ∪ list_to_set (map fst (category_label_of s)),
        snd vars ∪ list_to_set (map snd (category_label_of s)))).
Proof.
  unfold Semeval2014Task4Rest.acd_and_sc_sentence, category_label_of.
  destruct (aspect_categories s) as [cats|]; [| done].
  cbn [iter ebind default]. rewrite category_fold. cbn [app].
  rewrite !List.map_map. cbn [fst snd]. unfold id. by intros [= <-].
Qed.

(** X30. In [Semeval2014Task4Rest.generate_acd_and_sc_data] (and in
    [MAMSACSA], which defines the same loop) every sentence of a partition
    gives exactly one sample, also a sentence without aspect categories, whose
    label is empty; the samples are, in order, the texts (every CR and LF
    turned into a space) with one pair per aspect category; and the sets
    collected for the vocabularies grow by exactly the categories and the
    polarities of the emitted labels. *)
Theorem rest_task_keeps_every_sentence (vars : label_set * label_set)
    (data : list AbsaDocument)
    (r : list Semeval2014Task4Rest.sample * (label_set * label_set)) :
  BaseDataset.for_each_sentence Semeval2014Task4Rest.acd_and_sc_sentence
                                vars data = Ok r →
  fst r = map (fun s => (Py.re_sub_class " " (text s), category_label_of s))
              (sentences_of data)
  ∧ length (fst r) = length (sentences_of data)
  ∧ fst (snd r)
    = fst vars ∪ ⋃ (map (fun sample => list_to_set (map fst (snd sample))) (fst r))
  ∧ snd (snd r)
    = snd vars ∪ ⋃ (map (fun sample => list_to_set (map snd (snd sample))) (fst r)).
Proof.
  intros Hr.
  apply (for_each_sentence_fold _
           (fun s => [(Py.re_sub_class " " (text s), category_label_of s)])
           (fun v s => (fst v ∪ list_to_set (map fst (category_label_of s)),
                        snd v ∪ list_to_set (map snd (category_label_of s)))))
    in Hr as ->; [| apply rest_sentence_sample].
  cbn [fst snd]. rewrite concat_map_singleton.
  split; [done |]. split; [apply List.length_map |]. revert vars.
  induction (sentences_of data) as [|s l IH]; intros vars.
  - cbn. by rewrite !(right_id_L ∅ (∪)).
  - cbn [map fold_left union_list foldr snd].
    destruct (IH (fst vars ∪ list_to_set (map fst (category_label_of s)),
                  snd vars ∪ list_to_set (map snd (category_label_of s))))
      as (Hc & Hp).
    rewrite Hc, Hp. cbn [fst snd]. by rewrite !(assoc_L (∪)).
Qed.

Lemma rest_task_keeps_every_sentence_witness :
  fst ([("it was fine", []);
        ("good food  slow waiter", [(Some "FOOD#QUALITY", Some "positive")])],
       (({[Some "FOOD#QUALITY"]} : label_set), ({[Some "positive"]} : label_set)))
  = map (fun s => (Py.re_sub_class " " (text s), category_label_of s))
        (sentences_of [document_of plain_sentence; document_of two_line_sentence])
  ∧ length (fst ([("it was fine", []);
                  ("good food  slow waiter",
                   [(Some "FOOD#QUALITY", Some "positive")])],
                 (({[Some "FOOD#QUALITY"]} : label_set),
                  ({[Some "positive"]} : label_set))))
    = length (sentences_of [document_of plain_sentence;
                            document_of two_line_sentence])
  ∧ fst (snd ([("it was fine", []);
               ("good food  slow waiter",
                [(Some "FOOD#QUALITY", Some "positive")])],
              (({[Some "FOOD#QUALITY"]} : label_set),
               ({[Some "positive"]} : label_set))))
    = fst ((∅ : label_set), (∅ : label_set))
      ∪ ⋃ (map (fun sample : Semeval2014Task4Rest.sample =>
                  list_to_set (map fst (snd sample)))
               (fst ([("it was fine", []);
                      ("good food  slow waiter",
                       [(Some "FOOD#QUALITY", Some "positive")])],
                     (({[Some "FOOD#QUALITY"]} : label_set),
                      ({[Some "positive"]} : label_set)))))
  ∧ snd (snd ([("it was fine", []);
               ("good food  slow waiter",
                [(Some "FOOD#QUALITY", Some "positive")])],
              (({[Some "FOOD#QUALITY"]} : label_set),
               ({[Some "positive"]} : label_set))))
    = snd ((∅ : label_set), (∅ : label_set))
      ∪ ⋃ (map (fun sample : Semeval2014Task4Rest.sample =>
                  list_to_set (map snd (snd sample)))
               (fst ([("it was fine", []);
                      ("good food  slow waiter",
                       [(Some "FOOD#QUALITY", Some "positive")])],
                     (({[Some "FOOD#QUALITY"]} : label_set),
                      ({[Some "positive"]} : label_set))))).
Proof.
  apply (rest_task_keeps_every_sentence (∅, ∅)
           [document_of plain_sentence; document_of two_line_sentence]
           ([("it was fine", []);
             ("good food  slow waiter", [(Some "FOOD#QUALITY", Some "positive")])],
            ({[Some "FOOD#QUALITY"]}, {[Some "positive"]}))).
  vm_compute. reflexivity.
Defined.
